(** * agent-browser-mcp: merged tool surface, tool-call mapper and dispatcher

    A shallow embedding of
    - [mapMergedToolToCommand]  (tool-merger),
    - [MERGED_TOOLS]            (tools-merged.ts),
    - [getManager], [ensureBrowserLaunched], [execute], [handleToolCall]
      and the call-tool request handler of [main] (index.ts),
    followed by the properties proved about them. *)

From Stdlib Require Import String Ascii List ZArith Bool Lia DecimalString.
Import ListNotations.
Open Scope string_scope.

Set Implicit Arguments.
Set Warnings "-register-all".

(* ================================================================== *)
(** * JavaScript values *)
(* ================================================================== *)

(** The values that travel through the server: JSON data plus
    [undefined].  Numbers are the integers (no claim needs fractions).
    An object is its list of own properties in insertion order (the
    field names of the tools are not integer-like, so this is the order
    JavaScript enumerates them in); keys are unique as long as objects
    are built with [oset]. *)
Inductive JVal : Type :=
| JUndefined
| JNull
| JBool (b : bool)
| JNum (n : Z)
| JStr (s : string)
| JArr (l : list JVal)
| JObj (o : list (string * JVal)).

Definition Obj : Type := list (string * JVal).

(** Own-property lookup; [None] when the key is absent. *)
Fixpoint oget (o : Obj) (k : string) : option JVal :=
  match o with
  | [] => None
  | (k', v) :: r => if String.eqb k k' then Some v else oget r k
  end.

(** [o[k] = v]: overwrite in place when the key exists, append otherwise. *)
Fixpoint oset (o : Obj) (k : string) (v : JVal) : Obj :=
  match o with
  | [] => [(k, v)]
  | (k', v') :: r =>
      if String.eqb k k' then (k', v) :: r else (k', v') :: oset r k v
  end.

(** [{ ...base, ...src }] for a property list [src]. *)
Definition ospread (base src : Obj) : Obj :=
  fold_left (fun acc kv => oset acc (fst kv) (snd kv)) src base.

(** [o.k] on an object: [undefined] when the key is absent. *)
Definition jget (o : Obj) (k : string) : JVal :=
  match oget o k with
  | Some v => v
  | None => JUndefined
  end.

Definition is_undefined (v : JVal) : bool :=
  match v with JUndefined => true | _ => false end.

Definition is_nullish (v : JVal) : bool :=
  match v with JUndefined | JNull => true | _ => false end.

(** [v === 'lit'] *)
Definition is_str (v : JVal) (lit : string) : bool :=
  match v with JStr s => String.eqb s lit | _ => false end.

(** [v ?? d] *)
Definition nullish_or (v d : JVal) : JVal :=
  if is_nullish v then d else v.

(** JavaScript truthiness. *)
Definition truthy (v : JVal) : bool :=
  match v with
  | JUndefined | JNull => false
  | JBool b => b
  | JNum n => negb (Z.eqb n 0)
  | JStr s => negb (String.eqb s "")
  | JArr _ | JObj _ => true
  end.

(** The decimal digits of an integer, which is how JavaScript prints the
    integers below 10^21. *)
Definition string_of_Z (n : Z) : string :=
  NilZero.string_of_int (Z.to_int n).

Definition string_of_nat (n : nat) : string :=
  string_of_Z (Z.of_nat n).

(** [String(v)], also the conversion used by template literals and by
    computed property keys, on the values it converts (see
    [convertible] below).  Integers print as their digits, which is how
    JavaScript prints the integers it holds exactly. *)
Fixpoint to_js_string (v : JVal) : string :=
  match v with
  | JUndefined => "undefined"
  | JNull => "null"
  | JBool true => "true"
  | JBool false => "false"
  | JNum n => string_of_Z n
  | JStr s => s
  | JArr l =>
      (fix join (l : list JVal) : string :=
         match l with
         | [] => ""
         | x :: r =>
             let e := if is_nullish x then "" else to_js_string x in
             match r with
             | [] => e
             | _ :: _ => e ++ "," ++ join r
             end
         end) l
  | JObj _ => "[object Object]"
  end.

Definition to_property_key (v : JVal) : string := to_js_string v.

Fixpoint chars_from (i : nat) (s : string) : Obj :=
  match s with
  | EmptyString => []
  | String c r => (string_of_nat i, JStr (String c EmptyString)) :: chars_from (S i) r
  end.

Fixpoint elems_from (i : nat) (l : list JVal) : Obj :=
  match l with
  | [] => []
  | x :: r => (string_of_nat i, x) :: elems_from (S i) r
  end.

(** The own enumerable properties copied by [...v] inside an object
    literal: those of an object, the indexed characters of a string, the
    indexed elements of an array, nothing for the other values. *)
Definition own_props (v : JVal) : Obj :=
  match v with
  | JObj o => o
  | JStr s => chars_from 0 s
  | JArr l => elems_from 0 l
  | _ => []
  end.

(** Exceptions: an [Error] instance with its message, or any other
    thrown value. *)
Inductive Exn : Type :=
| ErrorObj (message : string)
| Thrown (v : JVal).

Inductive Result (A : Type) : Type :=
| Ok (a : A)
| Throw (e : Exn).
Arguments Ok {A} a.
Arguments Throw {A} e.

(** The engine's message for reading property [k] of [undefined] or
    [null]. *)
Definition cannot_read (v : JVal) (k : string) : string :=
  "Cannot read properties of " ++ to_js_string v ++ " (reading '" ++ k ++ "')".

(** [String(v)] throws on an object whose [toString] is not callable
    and whose [valueOf] does not return a primitive.  The values of
    [JVal] hold no functions: an own [toString] property is never
    callable, and the [valueOf] an object has or inherits never returns
    a primitive; without an own [toString] the inherited one answers.
    An array converts its elements, [undefined] and [null] to the empty
    string. *)
Fixpoint convertible (v : JVal) : bool :=
  match v with
  | JArr l => forallb (fun x => is_nullish x || convertible x) l
  | JObj o => negb (existsb (fun kv => String.eqb (fst kv) "toString") o)
  | _ => true
  end.

(** [String(v)], [`${v}`]: the string, or the [TypeError] of the
    engine. *)
Definition js_to_string (v : JVal) : Result string :=
  if convertible v then Ok (to_js_string v)
  else Throw (ErrorObj "Cannot convert object to primitive value").

(** [v.k] for a field name [k] of the tool schemas (none of them is
    [length] or an index): a [TypeError] on [undefined] and [null], the
    own property otherwise.  Members inherited from a prototype are not
    represented. *)
Definition jprop (v : JVal) (k : string) : Result JVal :=
  if is_nullish v then Throw (ErrorObj (cannot_read v k))
  else Ok (jget (own_props v) k).

(* ================================================================== *)
(** * The tool-call mapper (tool-merger) *)
(* ================================================================== *)

(** A case of the mapper that reads [args.<field>]: on [undefined] or
    [null] arguments its first property read, [first], throws; on any
    other value no read throws and the case body is a pure function of
    the property reader [a k = args.k]. *)
Definition with_args (args : JVal) (first : string)
           (body : (string -> JVal) -> Obj) : Result Obj :=
  if is_nullish args then Throw (ErrorObj (cannot_read args first))
  else Ok (body (fun k => jget (own_props args) k)).

(** [if (args.k !== undefined) cmd.k = args.k;] *)
Definition copy (a : string -> JVal) (k : string) (cmd : Obj) : Obj :=
  if is_undefined (a k) then cmd else oset cmd k (a k).

(** [if (args.from !== undefined) cmd.k = args.from;] *)
Definition copy_as (a : string -> JVal) (from k : string) (cmd : Obj) : Obj :=
  if is_undefined (a from) then cmd else oset cmd k (a from).

(** [table[v]] for an object literal [table] of strings: the value of
    the own key [String(v)], or [undefined].  (The members an object
    literal inherits from [Object.prototype], such as [constructor], are
    not represented.) *)
Definition table_lookup (table : list (string * string)) (v : JVal) : JVal :=
  match find (fun kv => String.eqb (to_property_key v) (fst kv)) table with
  | Some kv => JStr (snd kv)
  | None => JUndefined
  end.

Definition findByActionMap : list (string * string) :=
  [("role", "find_by_role"); ("text", "find_by_text");
   ("label", "find_by_label"); ("placeholder", "find_by_placeholder");
   ("testId", "find_by_test_id"); ("title", "find_by_title");
   ("altText", "find_by_alt_text"); ("nth", "find_nth")].

Definition getActionMap : list (string * string) :=
  [("text", "get_text"); ("innerText", "get_inner_text");
   ("innerHtml", "get_inner_html"); ("html", "content");
   ("value", "get_value"); ("attribute", "get_attribute");
   ("boundingBox", "bounding_box"); ("count", "count")].

Definition stateActionMap : list (string * string) :=
  [("visible", "is_visible"); ("enabled", "is_enabled");
   ("checked", "is_checked")].

Definition storageActionMap : list (string * string) :=
  [("get", "get"); ("set", "set"); ("clear", "clear")].

Definition waitForActionMap : list (string * string) :=
  [("url", "wait_for_url"); ("load_state", "wait_for_load_state");
   ("function", "wait_for_function"); ("download", "wait_for_download")].

(** [{ action: '<canonical>', ...args }] *)
Definition spread_case (canonical : string) (args : JVal) : Result Obj :=
  Ok (ospread [("action", JStr canonical)] (own_props args)).

Notation "x |> f" := (f x) (at level 45, left associativity, only parsing).

(** A string literal of the source. *)
Definition lit (s : string) : JVal := JStr s.

(** The cases of the [switch (name)], in source order. *)
Definition mapper_cases : list (string * (JVal -> Result Obj)) :=
  [ (* Core - no mapping needed *)
    ("browser_launch", spread_case "launch");
    ("browser_navigate", spread_case "navigate");
    ("browser_snapshot", spread_case "snapshot");
    ("browser_screenshot", spread_case "screenshot");
    ("browser_close", spread_case "close");
    (* History *)
    ("browser_history", fun args => with_args args "action" (fun a =>
       [("action", a "action")]));
    (* Page info *)
    ("browser_page_info", fun args => with_args args "info" (fun a =>
       [("action", lit (if is_str (a "info") "url" then "url" else "title"))]));
    (* Element action *)
    ("browser_element_action", fun args => with_args args "action" (fun a =>
       [("action", a "action"); ("selector", a "selector")]
         |> copy a "button" |> copy a "clickCount"));
    (* Input *)
    ("browser_input", fun args => with_args args "action" (fun a =>
       if is_str (a "action") "fill" then
         [("action", lit "fill"); ("selector", a "selector"); ("value", a "value")]
       else
         [("action", lit "type"); ("selector", a "selector"); ("text", a "value")]
           |> copy a "delay"));
    (* Input action *)
    ("browser_input_action", fun args => with_args args "action" (fun a =>
       [("action", a "action"); ("selector", a "selector")]));
    (* Press *)
    ("browser_press", fun args => with_args args "key" (fun a =>
       [("action", lit "press"); ("key", a "key")] |> copy a "selector"));
    (* Scroll *)
    ("browser_scroll", fun args => with_args args "action" (fun a =>
       if is_str (a "action") "scroll_into_view" then
         [("action", lit "scroll_into_view"); ("selector", a "selector")]
       else
         [("action", lit "scroll")]
           |> copy a "selector" |> copy a "direction" |> copy a "amount"
           |> copy a "x" |> copy a "y"));
    (* Find *)
    ("browser_find", fun args => with_args args "method" (fun a =>
       let method := a "method" in
       let findCmd := [("action", table_lookup findByActionMap method)] in
       let findCmd :=
         if is_str method "nth" then
           oset (oset findCmd "selector" (a "selector"))
                "index" (nullish_or (a "index") (JNum 0))
         else
           oset findCmd
                (if is_str (a "method") "testId" then "testId"
                 else if is_str method "altText" then "text"
                 else to_property_key method)
                (a "value")
             |> copy a "exact" in
       if is_undefined (a "action") then findCmd
       else
         let findCmd := oset findCmd "action" (a "action") in
         if is_str (a "action") "fill" && negb (is_undefined (a "fillValue"))
         then oset findCmd "value" (a "fillValue")
         else findCmd));
    (* Get *)
    ("browser_get", fun args => with_args args "property" (fun a =>
       let prop := a "property" in
       let getCmd := [("action", table_lookup getActionMap prop);
                      ("selector", a "selector")] in
       if is_str prop "attribute" then oset getCmd "attribute" (a "attribute")
       else getCmd));
    (* Check state *)
    ("browser_check_state", fun args => with_args args "state" (fun a =>
       [("action", table_lookup stateActionMap (a "state"));
        ("selector", a "selector")]));
    (* Storage *)
    ("browser_storage", fun args => with_args args "action" (fun a =>
       [("action", table_lookup storageActionMap (a "action"));
        ("type", a "type")]
         |> copy a "key" |> copy a "value"));
    (* Cookies *)
    ("browser_cookies", fun args => with_args args "action" (fun a =>
       if is_str (a "action") "get" then
         [("action", lit "get")] |> copy a "urls"
       else
         [("action", lit "set"); ("cookies", a "cookies")]));
    (* State *)
    ("browser_state", fun args => with_args args "action" (fun a =>
       [("action", lit (if is_str (a "action") "save" then "state_save"
                       else "state_load"));
        ("path", a "path")]));
    (* Set context *)
    ("browser_set_context", fun args => with_args args "setting" (fun a =>
       let setting := a "setting" in
       let contextCmd : Obj := [] in
       if is_str setting "device" then
         oset (oset contextCmd "action" (lit "set_device")) "device" (a "device")
       else if is_str setting "viewport" then
         oset (oset (oset contextCmd "action" (lit "set_viewport"))
                    "width" (a "width")) "height" (a "height")
       else if is_str setting "geolocation" then
         oset (oset (oset contextCmd "action" (lit "set_geolocation"))
                    "latitude" (a "latitude")) "longitude" (a "longitude")
           |> copy a "accuracy"
       else if is_str setting "locale" then
         oset (oset contextCmd "action" (lit "set_locale")) "locale" (a "locale")
       else if is_str setting "timezone" then
         oset (oset contextCmd "action" (lit "set_timezone"))
              "timezone" (a "timezone")
       else if is_str setting "offline" then
         oset (oset contextCmd "action" (lit "set_offline")) "offline" (a "offline")
       else if is_str setting "media" then
         oset contextCmd "action" (lit "emulate_media")
           |> copy a "media" |> copy a "colorScheme" |> copy a "reducedMotion"
       else if is_str setting "headers" then
         oset (oset contextCmd "action" (lit "set_headers")) "headers" (a "headers")
       else if is_str setting "credentials" then
         oset (oset (oset contextCmd "action" (lit "set_credentials"))
                    "username" (a "username")) "password" (a "password")
       else contextCmd));
    (* Dialog *)
    ("browser_dialog", fun args => with_args args "action" (fun a =>
       [("action", lit (if is_str (a "action") "accept" then "dialog_accept"
                       else "dialog_dismiss"))]
         |> copy a "promptText"));
    (* Mouse *)
    ("browser_mouse", fun args => with_args args "action" (fun a =>
       [("action", lit (if is_str (a "action") "down" then "mouse_down"
                       else if is_str (a "action") "up" then "mouse_up"
                       else if is_str (a "action") "move" then "mouse_move"
                       else "wheel"))]
         |> copy a "button" |> copy a "x" |> copy a "y"
         |> copy a "deltaX" |> copy a "deltaY" |> copy a "selector"));
    (* Keyboard raw *)
    ("browser_keyboard_raw", fun args => with_args args "action" (fun a =>
       if is_str (a "action") "shortcut" then
         [("action", lit "keyboard"); ("keys", a "keys")]
       else
         [("action", lit (if is_str (a "action") "down" then "key_down"
                         else "key_up"));
          ("key", a "key")]));
    (* Network *)
    ("browser_network", fun args => with_args args "action" (fun a =>
       if is_str (a "action") "requests" then
         [("action", lit "requests")] |> copy a "filter" |> copy a "clear"
       else if is_str (a "action") "route" then
         [("action", lit "route"); ("url", a "url")]
           |> copy a "abort" |> copy a "response"
       else
         [("action", lit "unroute"); ("url", a "url")]));
    (* Response body *)
    ("browser_response_body", fun args => with_args args "url" (fun a =>
       [("action", lit "response_body"); ("url", a "url")] |> copy a "timeout"));
    (* Evaluate *)
    ("browser_evaluate", fun args => with_args args "script" (fun a =>
       [("action", lit "evaluate"); ("script", a "script")] |> copy a "args"));
    (* Set content *)
    ("browser_set_content", fun args => with_args args "html" (fun a =>
       [("action", lit "set_content"); ("html", a "html")]));
    (* Add script/style *)
    ("browser_add_script", spread_case "add_script");
    ("browser_add_style", spread_case "add_style");
    ("browser_add_init_script", fun args => with_args args "script" (fun a =>
       [("action", lit "add_init_script"); ("script", a "script")]));
    (* Dispatch event *)
    ("browser_dispatch_event", fun args => with_args args "selector" (fun a =>
       [("action", lit "dispatch_event"); ("selector", a "selector");
        ("event", a "event")]
         |> copy a "eventInit"));
    (* Logs *)
    ("browser_logs", fun args => with_args args "type" (fun a =>
       [("action", a "type"); ("clear", a "clear")]));
    (* Highlight *)
    ("browser_highlight", fun args => with_args args "selector" (fun a =>
       [("action", lit "highlight"); ("selector", a "selector")]));
    (* Styles *)
    ("browser_styles", fun args => with_args args "selector" (fun a =>
       [("action", lit "styles"); ("selector", a "selector")]));
    (* Screencast *)
    ("browser_screencast", fun args => with_args args "action" (fun a =>
       [("action", lit (if is_str (a "action") "start" then "screencast_start"
                       else "screencast_stop"))]
         |> copy a "format" |> copy a "quality"
         |> copy a "maxWidth" |> copy a "maxHeight"));
    (* Trace *)
    ("browser_trace", fun args => with_args args "action" (fun a =>
       let traceCmd := [("action", lit (if is_str (a "action") "start"
                                       then "trace_start" else "trace_stop"))] in
       if is_str (a "action") "start" then
         traceCmd |> copy a "screenshots" |> copy a "snapshots"
       else
         oset traceCmd "path" (a "path")));
    (* Recording *)
    ("browser_recording", fun args => with_args args "action" (fun a =>
       let recAction := if is_str (a "action") "start" then "recording_start"
                        else if is_str (a "action") "stop" then "recording_stop"
                        else "recording_restart" in
       [("action", lit recAction)] |> copy a "path" |> copy a "url"));
    (* HAR *)
    ("browser_har", fun args => with_args args "action" (fun a =>
       let harCmd := [("action", lit (if is_str (a "action") "start"
                                     then "har_start" else "har_stop"))] in
       if is_str (a "action") "stop" then oset harCmd "path" (a "path")
       else harCmd));
    (* Tab *)
    ("browser_tab", fun args => with_args args "action" (fun a =>
       [("action", lit ("tab_" ++ to_js_string (a "action")))]
         |> copy a "index" |> copy a "url"));
    (* Window *)
    ("browser_window", fun args => with_args args "action" (fun a =>
       if is_str (a "action") "new" then
         let winCmd := [("action", lit "window_new")] in
         if negb (is_undefined (a "viewportWidth"))
            || negb (is_undefined (a "viewportHeight"))
         then
           oset winCmd "viewport"
                (JObj ([] |> copy_as a "viewportWidth" "width"
                          |> copy_as a "viewportHeight" "height"))
         else winCmd
       else
         [("action", lit "bring_to_front")]));
    (* Frame *)
    ("browser_frame", fun args => with_args args "action" (fun a =>
       if is_str (a "action") "main" then
         [("action", lit "main_frame")]
       else
         [("action", lit "frame")]
           |> copy a "selector" |> copy a "name" |> copy a "url"));
    (* PDF *)
    ("browser_pdf", fun args => with_args args "path" (fun a =>
       [("action", lit "pdf"); ("path", a "path")] |> copy a "format"));
    (* Download *)
    ("browser_download", fun args => with_args args "selector" (fun a =>
       [("action", lit "download"); ("selector", a "selector");
        ("path", a "path")]));
    (* Wait *)
    ("browser_wait", fun args => with_args args "selector" (fun a =>
       [("action", lit "wait")]
         |> copy a "selector" |> copy a "timeout" |> copy a "state"));
    (* Wait for *)
    ("browser_wait_for", fun args => with_args args "condition" (fun a =>
       [("action", table_lookup waitForActionMap (a "condition"))]
         |> copy a "url" |> copy a "state" |> copy a "expression"
         |> copy a "path" |> copy a "timeout"));
    (* Clipboard *)
    ("browser_clipboard", fun args => with_args args "action" (fun a =>
       [("action", lit "clipboard"); ("operation", a "action")]
         |> copy a "text"));
    (* Upload *)
    ("browser_upload", fun args => with_args args "selector" (fun a =>
       [("action", lit "upload"); ("selector", a "selector");
        ("files", a "files")]));
    (* Drag *)
    ("browser_drag", fun args => with_args args "source" (fun a =>
       [("action", lit "drag"); ("source", a "source"); ("target", a "target")]));
    (* Select (keep as is) *)
    ("browser_select", fun args => with_args args "selector" (fun a =>
       [("action", lit "select"); ("selector", a "selector");
        ("values", a "values")]));
    (* Multiselect (keep as is) *)
    ("browser_multiselect", fun args => with_args args "selector" (fun a =>
       [("action", lit "multiselect"); ("selector", a "selector");
        ("values", a "values")]));
    (* Set value (keep as is) *)
    ("browser_set_value", fun args => with_args args "selector" (fun a =>
       [("action", lit "set_value"); ("selector", a "selector");
        ("value", a "value")]));
    (* iOS *)
    ("browser_ios_device_list", fun _ => Ok [("action", lit "device_list")]);
    ("browser_ios_swipe", fun args => with_args args "direction" (fun a =>
       [("action", lit "swipe"); ("direction", a "direction")]
         |> copy a "distance"))
  ].

Fixpoint lookup_case (name : string)
         (cases : list (string * (JVal -> Result Obj)))
  : option (JVal -> Result Obj) :=
  match cases with
  | [] => None
  | (n, f) :: r => if String.eqb name n then Some f else lookup_case name r
  end.

(** [mapMergedToolToCommand({ name, args })] *)
Definition mapMergedToolToCommand (name : string) (args : JVal) : Result Obj :=
  match lookup_case name mapper_cases with
  | Some f => f args
  | None => Throw (ErrorObj ("Unknown merged tool: " ++ name))
  end.

(* ================================================================== *)
(** * The advertised tool registry (tools-merged.ts) *)
(* ================================================================== *)

(** The JSON-Schema type of a property: a single type name, or the
    alternatives of a type array or of a [oneOf]. *)
Inductive SchemaType : Type :=
| Ty (t : string)
| OneOf (ts : list string).

(** A top-level property of an input schema: its name, type and [enum]
    (empty when none is declared).  Descriptions and the schemas of
    nested items are left out. *)
Record PropSchema : Type := mkProp {
  p_name : string;
  p_type : SchemaType;
  p_enum : list string
}.

Record Tool : Type := mkTool {
  t_name : string;
  t_properties : list PropSchema;
  t_required : list string
}.

Definition MERGED_TOOLS : list Tool :=
 [mkTool "browser_launch"
    [mkProp "headless" (Ty "boolean") [];
      mkProp "browser" (Ty "string") ["chromium"; "firefox"; "webkit"];
      mkProp "cdpPort" (Ty "number") [];
      mkProp "cdpUrl" (Ty "string") [];
      mkProp "executablePath" (Ty "string") [];
      mkProp "args" (Ty "array") [];
      mkProp "userAgent" (Ty "string") [];
      mkProp "provider" (Ty "string") ["ios"; "browserbase"; "browseruse"; "kernel"];
      mkProp "ignoreHTTPSErrors" (Ty "boolean") [];
      mkProp "profile" (Ty "string") [];
      mkProp "storageState" (Ty "string") [];
      mkProp "allowFileAccess" (Ty "boolean") []]
    [];
  mkTool "browser_navigate"
    [mkProp "url" (Ty "string") [];
      mkProp "waitUntil" (Ty "string") ["load"; "domcontentloaded"; "networkidle"];
      mkProp "headers" (Ty "object") []]
    ["url"];
  mkTool "browser_snapshot"
    [mkProp "interactiveOnly" (Ty "boolean") [];
      mkProp "cursor" (Ty "boolean") [];
      mkProp "compact" (Ty "boolean") [];
      mkProp "depth" (Ty "number") [];
      mkProp "selector" (Ty "string") []]
    [];
  mkTool "browser_screenshot"
    [mkProp "path" (Ty "string") [];
      mkProp "fullPage" (Ty "boolean") [];
      mkProp "selector" (OneOf ["string"; "null"]) []]
    [];
  mkTool "browser_close"
    []
    [];
  mkTool "browser_history"
    [mkProp "action" (Ty "string") ["back"; "forward"; "reload"]]
    ["action"];
  mkTool "browser_page_info"
    [mkProp "info" (Ty "string") ["url"; "title"]]
    ["info"];
  mkTool "browser_element_action"
    [mkProp "action" (Ty "string") ["click"; "dblclick"; "hover"; "focus"; "tap"];
      mkProp "selector" (Ty "string") [];
      mkProp "button" (Ty "string") ["left"; "right"; "middle"];
      mkProp "clickCount" (Ty "number") []]
    ["action"; "selector"];
  mkTool "browser_input"
    [mkProp "action" (Ty "string") ["fill"; "type"];
      mkProp "selector" (Ty "string") [];
      mkProp "value" (Ty "string") [];
      mkProp "delay" (Ty "number") []]
    ["action"; "selector"; "value"];
  mkTool "browser_input_action"
    [mkProp "action" (Ty "string") ["check"; "uncheck"; "clear"; "select_all"];
      mkProp "selector" (Ty "string") []]
    ["action"; "selector"];
  mkTool "browser_select"
    [mkProp "selector" (Ty "string") [];
      mkProp "values" (OneOf ["string"; "array"]) [];
      mkProp "multiSelect" (Ty "boolean") []]
    ["selector"; "values"];
  mkTool "browser_press"
    [mkProp "key" (Ty "string") [];
      mkProp "selector" (Ty "string") []]
    ["key"];
  mkTool "browser_scroll"
    [mkProp "action" (Ty "string") ["scroll"; "scroll_into_view"];
      mkProp "selector" (Ty "string") [];
      mkProp "direction" (Ty "string") ["up"; "down"; "left"; "right"];
      mkProp "amount" (Ty "number") [];
      mkProp "x" (Ty "number") [];
      mkProp "y" (Ty "number") []]
    ["action"];
  mkTool "browser_find"
    [mkProp "method" (Ty "string") ["role"; "text"; "label"; "placeholder"; "testId"; "title"; "altText"; "nth"];
      mkProp "value" (Ty "string") [];
      mkProp "exact" (Ty "boolean") [];
      mkProp "action" (Ty "string") ["click"; "hover"; "fill"; "check"];
      mkProp "fillValue" (Ty "string") [];
      mkProp "index" (Ty "number") [];
      mkProp "selector" (Ty "string") []]
    ["method"; "value"];
  mkTool "browser_get"
    [mkProp "property" (Ty "string") ["text"; "innerText"; "innerHtml"; "html"; "value"; "attribute"; "boundingBox"; "count"];
      mkProp "selector" (Ty "string") [];
      mkProp "attribute" (Ty "string") []]
    ["property"; "selector"];
  mkTool "browser_check_state"
    [mkProp "state" (Ty "string") ["visible"; "enabled"; "checked"];
      mkProp "selector" (Ty "string") []]
    ["state"; "selector"];
  mkTool "browser_storage"
    [mkProp "action" (Ty "string") ["get"; "set"; "clear"];
      mkProp "type" (Ty "string") ["local"; "session"];
      mkProp "key" (Ty "string") [];
      mkProp "value" (Ty "string") []]
    ["action"; "type"];
  mkTool "browser_cookies"
    [mkProp "action" (Ty "string") ["get"; "set"];
      mkProp "cookies" (Ty "array") [];
      mkProp "urls" (Ty "array") []]
    ["action"];
  mkTool "browser_state"
    [mkProp "action" (Ty "string") ["save"; "load"];
      mkProp "path" (Ty "string") []]
    ["action"; "path"];
  mkTool "browser_set_context"
    [mkProp "setting" (Ty "string") ["device"; "viewport"; "geolocation"; "locale"; "timezone"; "offline"; "media"; "headers"; "credentials"];
      mkProp "device" (Ty "string") [];
      mkProp "width" (Ty "number") [];
      mkProp "height" (Ty "number") [];
      mkProp "latitude" (Ty "number") [];
      mkProp "longitude" (Ty "number") [];
      mkProp "accuracy" (Ty "number") [];
      mkProp "locale" (Ty "string") [];
      mkProp "timezone" (Ty "string") [];
      mkProp "offline" (Ty "boolean") [];
      mkProp "media" (Ty "string") ["screen"; "print"];
      mkProp "colorScheme" (Ty "string") ["light"; "dark"; "no-preference"];
      mkProp "reducedMotion" (Ty "string") ["reduce"; "no-preference"];
      mkProp "headers" (Ty "object") [];
      mkProp "username" (Ty "string") [];
      mkProp "password" (Ty "string") []]
    ["setting"];
  mkTool "browser_dialog"
    [mkProp "action" (Ty "string") ["accept"; "dismiss"];
      mkProp "promptText" (Ty "string") []]
    ["action"];
  mkTool "browser_mouse"
    [mkProp "action" (Ty "string") ["down"; "up"; "move"; "wheel"];
      mkProp "button" (Ty "string") ["left"; "right"; "middle"];
      mkProp "x" (Ty "number") [];
      mkProp "y" (Ty "number") [];
      mkProp "deltaX" (Ty "number") [];
      mkProp "deltaY" (Ty "number") [];
      mkProp "selector" (Ty "string") []]
    ["action"];
  mkTool "browser_keyboard_raw"
    [mkProp "action" (Ty "string") ["down"; "up"; "shortcut"];
      mkProp "key" (Ty "string") [];
      mkProp "keys" (Ty "string") []]
    ["action"];
  mkTool "browser_network"
    [mkProp "action" (Ty "string") ["route"; "unroute"; "requests"];
      mkProp "url" (Ty "string") [];
      mkProp "filter" (Ty "string") [];
      mkProp "clear" (Ty "boolean") [];
      mkProp "abort" (Ty "boolean") [];
      mkProp "response" (Ty "object") []]
    ["action"];
  mkTool "browser_response_body"
    [mkProp "url" (Ty "string") [];
      mkProp "timeout" (Ty "number") []]
    ["url"];
  mkTool "browser_evaluate"
    [mkProp "script" (Ty "string") [];
      mkProp "args" (Ty "array") []]
    ["script"];
  mkTool "browser_set_content"
    [mkProp "html" (Ty "string") []]
    ["html"];
  mkTool "browser_add_script"
    [mkProp "content" (Ty "string") [];
      mkProp "url" (Ty "string") []]
    [];
  mkTool "browser_add_style"
    [mkProp "content" (Ty "string") [];
      mkProp "url" (Ty "string") []]
    [];
  mkTool "browser_add_init_script"
    [mkProp "script" (Ty "string") []]
    ["script"];
  mkTool "browser_dispatch_event"
    [mkProp "selector" (Ty "string") [];
      mkProp "event" (Ty "string") [];
      mkProp "eventInit" (Ty "object") []]
    ["selector"; "event"];
  mkTool "browser_logs"
    [mkProp "type" (Ty "string") ["console"; "errors"];
      mkProp "clear" (Ty "boolean") []]
    ["type"];
  mkTool "browser_highlight"
    [mkProp "selector" (Ty "string") []]
    ["selector"];
  mkTool "browser_styles"
    [mkProp "selector" (Ty "string") []]
    ["selector"];
  mkTool "browser_screencast"
    [mkProp "action" (Ty "string") ["start"; "stop"];
      mkProp "format" (Ty "string") ["jpeg"; "png"];
      mkProp "quality" (Ty "number") [];
      mkProp "maxWidth" (Ty "number") [];
      mkProp "maxHeight" (Ty "number") []]
    ["action"];
  mkTool "browser_trace"
    [mkProp "action" (Ty "string") ["start"; "stop"];
      mkProp "screenshots" (Ty "boolean") [];
      mkProp "snapshots" (Ty "boolean") [];
      mkProp "path" (Ty "string") []]
    ["action"];
  mkTool "browser_recording"
    [mkProp "action" (Ty "string") ["start"; "stop"; "restart"];
      mkProp "path" (Ty "string") [];
      mkProp "url" (Ty "string") []]
    ["action"];
  mkTool "browser_har"
    [mkProp "action" (Ty "string") ["start"; "stop"];
      mkProp "path" (Ty "string") []]
    ["action"];
  mkTool "browser_tab"
    [mkProp "action" (Ty "string") ["list"; "new"; "switch"; "close"];
      mkProp "index" (Ty "number") [];
      mkProp "url" (Ty "string") []]
    ["action"];
  mkTool "browser_window"
    [mkProp "action" (Ty "string") ["new"; "bring_to_front"];
      mkProp "viewportWidth" (Ty "number") [];
      mkProp "viewportHeight" (Ty "number") []]
    ["action"];
  mkTool "browser_frame"
    [mkProp "action" (Ty "string") ["switch"; "main"];
      mkProp "selector" (Ty "string") [];
      mkProp "name" (Ty "string") [];
      mkProp "url" (Ty "string") []]
    ["action"];
  mkTool "browser_pdf"
    [mkProp "path" (Ty "string") [];
      mkProp "format" (Ty "string") ["Letter"; "Legal"; "Tabloid"; "Ledger"; "A0"; "A1"; "A2"; "A3"; "A4"; "A5"; "A6"]]
    ["path"];
  mkTool "browser_download"
    [mkProp "selector" (Ty "string") [];
      mkProp "path" (Ty "string") []]
    ["selector"; "path"];
  mkTool "browser_wait"
    [mkProp "selector" (Ty "string") [];
      mkProp "timeout" (Ty "number") [];
      mkProp "state" (Ty "string") ["attached"; "detached"; "visible"; "hidden"]]
    [];
  mkTool "browser_wait_for"
    [mkProp "condition" (Ty "string") ["url"; "load_state"; "function"; "download"];
      mkProp "url" (Ty "string") [];
      mkProp "state" (Ty "string") ["load"; "domcontentloaded"; "networkidle"];
      mkProp "expression" (Ty "string") [];
      mkProp "path" (Ty "string") [];
      mkProp "timeout" (Ty "number") []]
    ["condition"];
  mkTool "browser_clipboard"
    [mkProp "action" (Ty "string") ["copy"; "paste"; "read"];
      mkProp "text" (Ty "string") []]
    ["action"];
  mkTool "browser_upload"
    [mkProp "selector" (Ty "string") [];
      mkProp "files" (OneOf ["string"; "array"]) []]
    ["selector"; "files"];
  mkTool "browser_drag"
    [mkProp "source" (Ty "string") [];
      mkProp "target" (Ty "string") []]
    ["source"; "target"];
  mkTool "browser_multiselect"
    [mkProp "selector" (Ty "string") [];
      mkProp "values" (Ty "array") []]
    ["selector"; "values"];
  mkTool "browser_set_value"
    [mkProp "selector" (Ty "string") [];
      mkProp "value" (Ty "string") []]
    ["selector"; "value"];
  mkTool "browser_ios_device_list"
    []
    [];
  mkTool "browser_ios_swipe"
    [mkProp "direction" (Ty "string") ["up"; "down"; "left"; "right"];
      mkProp "distance" (Ty "number") []]
    ["direction"]
 ].

(* ================================================================== *)
(** * Session manager and dispatcher (index.ts) *)
(* ================================================================== *)

(** The two manager classes.  An instance is identified by the order in
    which it was constructed. *)
Inductive ManagerKind : Type := BrowserManager | IOSManager.

Record Manager : Type := mkManager {
  m_id : nat;
  m_kind : ManagerKind
}.

Definition is_ios_manager (m : Manager) : bool :=
  match m_kind m with IOSManager => true | BrowserManager => false end.

(** [{ success, data?, error? }] as returned by the driver. *)
Record Response : Type := mkResponse {
  success : bool;
  data : JVal;
  error : JVal
}.

Record ContentItem : Type := mkItem {
  c_type : string;
  c_text : JVal
}.

(** [{ content, isError? }]; [isError = false] stands for an absent
    [isError]. *)
Record ToolResponse : Type := mkToolResponse {
  content : list ContentItem;
  isError : bool
}.

(** What the server does to the outside, in order. *)
Inductive Event : Type :=
| EvNew (m : Manager)                   (* new BrowserManager() / new IOSManager() *)
| EvClose (m : Manager)                 (* m.close() *)
| EvLaunch (m : Manager) (opts : JVal)  (* m.launch(opts) *)
| EvExecute (m : Manager) (cmd : Obj).  (* executeCommand / executeIOSCommand *)

Definition is_launch_event (e : Event) : bool :=
  match e with EvLaunch _ _ => true | _ => false end.

(** The code index.ts imports or gets from the runtime, over a driver
    state [D]: the manager methods, the two command executors,
    [JSON.stringify(_, null, 2)] and the strings [generateId] draws.
    Every driver call may throw (reject); constructing a manager only
    allocates. *)
Record Externals (D : Type) : Type := mkExternals {
  drv_isLaunched : Manager -> D -> Result bool * D;
  drv_launch : Manager -> JVal -> D -> Result unit * D;
  drv_close : Manager -> D -> Result unit * D;
  executeCommand : Obj -> Manager -> D -> Result Response * D;
  executeIOSCommand : Obj -> Manager -> D -> Result Response * D;
  JSON_stringify : JVal -> JVal;
  random_id : nat -> string
}.

(** The state of the process: the module-level [manager], the number of
    managers constructed and of identifiers drawn, the environment, the
    driver's own state, and the trace of what was done. *)
Record World (D : Type) : Type := mkWorld {
  manager : option Manager;
  next_id : nat;
  random_calls : nat;
  AGENT_BROWSER_PROVIDER : option string;
  AGENT_BROWSER_EXECUTABLE_PATH : option string;
  driver : D;
  log : list Event
}.

Definition env_value (v : option string) : JVal :=
  match v with Some s => JStr s | None => JUndefined end.

(** [error instanceof Error ? error.message : String(error)] *)
Definition exn_message (e : Exn) : Result string :=
  match e with
  | ErrorObj m => Ok m
  | Thrown v => js_to_string v
  end.

Definition text_item (v : JVal) : ContentItem :=
  {| c_type := "text"; c_text := v |}.

(** [{ content: [{ type: 'text', text: `Error: ${msg}` }] }] *)
Definition error_response (msg : string) : ToolResponse :=
  {| content := [text_item (JStr ("Error: " ++ msg))]; isError := false |}.

(** [s.substring(0, 50)]; a [TypeError] when [s] is not a string. *)
Definition substring_0_50 (v : JVal) : Result string :=
  match v with
  | JStr s => Ok (String.substring 0 50 s)
  | _ => Throw (ErrorObj "data.base64.substring is not a function")
  end.

Definition typeof_string (v : JVal) : bool :=
  match v with JStr _ => true | _ => false end.

Definition rbind {A B} (r : Result A) (f : A -> Result B) : Result B :=
  match r with
  | Ok a => f a
  | Throw e => Throw e
  end.

Section Server.

Variable D : Type.
Variable ext : Externals D.

(** State and exceptions: a computation runs on a world and yields a
    value or a thrown exception, and the world it leaves. *)
Definition M (A : Type) : Type := World D -> Result A * World D.

Definition ret {A} (a : A) : M A := fun w => (Ok a, w).

Definition bind {A B} (c : M A) (f : A -> M B) : M B :=
  fun w =>
    match c w with
    | (Ok a, w') => f a w'
    | (Throw e, w') => (Throw e, w')
    end.

Definition try_catch {A} (c : M A) (handler : Exn -> M A) : M A :=
  fun w =>
    match c w with
    | (Ok a, w') => (Ok a, w')
    | (Throw e, w') => handler e w'
    end.

(** [await p.catch(() => {})] *)
Definition swallow (c : M unit) : M unit :=
  try_catch c (fun _ => ret tt).

Definition lift {A} (r : Result A) : M A := fun w => (r, w).

Definition emit (e : Event) : M unit :=
  fun w => (Ok tt, mkWorld (manager w) (next_id w) (random_calls w)
                          (AGENT_BROWSER_PROVIDER w)
                          (AGENT_BROWSER_EXECUTABLE_PATH w)
                          (driver w) (log w ++ [e])).

Definition call {A} (f : D -> Result A * D) : M A :=
  fun w =>
    let (r, d) := f (driver w) in
    (r, mkWorld (manager w) (next_id w) (random_calls w)
                (AGENT_BROWSER_PROVIDER w)
                (AGENT_BROWSER_EXECUTABLE_PATH w)
                d (log w)).

Definition read {A} (f : World D -> A) : M A := fun w => (Ok (f w), w).

Definition set_manager (m : option Manager) : M unit :=
  fun w => (Ok tt, mkWorld m (next_id w) (random_calls w)
                          (AGENT_BROWSER_PROVIDER w)
                          (AGENT_BROWSER_EXECUTABLE_PATH w)
                          (driver w) (log w)).

Notation "x <- c ;; k" := (bind c (fun x => k))
  (at level 61, c at next level, right associativity).
Notation "c ;;; k" := (bind c (fun _ => k))
  (at level 61, right associativity).

(** [new BrowserManager()] / [new IOSManager()] *)
Definition construct (k : ManagerKind) : M Manager :=
  fun w =>
    let m := mkManager (next_id w) k in
    (Ok m, mkWorld (manager w) (S (next_id w)) (random_calls w)
                   (AGENT_BROWSER_PROVIDER w)
                   (AGENT_BROWSER_EXECUTABLE_PATH w)
                   (driver w) (log w ++ [EvNew m])).

Definition isLaunched (m : Manager) : M bool :=
  call (drv_isLaunched ext m).

Definition launch (m : Manager) (opts : JVal) : M unit :=
  emit (EvLaunch m opts) ;;; call (drv_launch ext m opts).

Definition close (m : Manager) : M unit :=
  emit (EvClose m) ;;; call (drv_close ext m).

(** [(provider ?? process.env.AGENT_BROWSER_PROVIDER) === 'ios'] *)
Definition isIOSProvider (provider : JVal) : M bool :=
  read (fun w =>
          is_str (nullish_or provider (env_value (AGENT_BROWSER_PROVIDER w)))
                 "ios").

Definition kind_for (shouldUseIOS : bool) : ManagerKind :=
  if shouldUseIOS then IOSManager else BrowserManager.

Definition getManager (provider : JVal) : M Manager :=
  shouldUseIOS <- isIOSProvider provider ;;
  cur <- read (@manager D) ;;
  match cur with
  | None =>
      m <- construct (kind_for shouldUseIOS) ;;
      set_manager (Some m) ;;;
      ret m
  | Some m0 =>
      let isCurrentIOS := is_ios_manager m0 in
      if negb (Bool.eqb shouldUseIOS isCurrentIOS) then
        swallow (close m0) ;;;
        m <- construct (kind_for shouldUseIOS) ;;
        set_manager (Some m) ;;;
        ret m
      else ret m0
  end.

(** The launch command [ensureBrowserLaunched] passes to a
    [BrowserManager]. *)
Definition mcp_launch_options (headless : bool) (w : World D) : JVal :=
  JObj [("id", JStr "mcp-launch");
        ("action", JStr "launch");
        ("headless", JBool headless);
        ("executablePath", env_value (AGENT_BROWSER_EXECUTABLE_PATH w));
        ("provider", env_value (AGENT_BROWSER_PROVIDER w))].

Definition ensureBrowserLaunched (headless : bool) : M unit :=
  m <- getManager JUndefined ;;
  launched <- isLaunched m ;;
  if negb launched then
    if is_ios_manager m then launch m (JObj [])
    else
      opts <- read (mcp_launch_options headless) ;;
      launch m opts
  else ret tt.

Definition launch_exempt_action (action : JVal) : bool :=
  is_str action "launch" || is_str action "close"
  || is_str action "device_list"
  || is_str action "video_start" || is_str action "video_stop".

(** [command.action === 'launch' ? command.provider : undefined] *)
Definition launchProvider (command : Obj) : JVal :=
  if is_str (jget command "action") "launch" then jget command "provider"
  else JUndefined.

(** The first half of the [try] block of [execute]: auto-launch if
    needed, then the driver's execution of the command. *)
Definition execute_driver (command : Obj) (m : Manager) : M Response :=
  launched <- isLaunched m ;;
  (if negb launched && negb (launch_exempt_action (jget command "action"))
   then ensureBrowserLaunched true
   else ret tt) ;;;
  emit (EvExecute m command) ;;;
  (if is_ios_manager m then call (executeIOSCommand ext command m)
   else call (executeCommand ext command m)).

(** The second half: the response payload for a driver response. *)
Definition normalize (command : Obj) (response : Response)
  : Result ToolResponse :=
  let action := jget command "action" in
  if success response then
    let data := data response in
    if is_str action "snapshot" then
      Ok (mkToolResponse
            [text_item (if typeof_string data then data
                        else JSON_stringify ext data)]
            false)
    else
      rbind (if is_str action "screenshot"
             then rbind (jprop data "base64") (fun b => Ok (truthy b))
             else Ok false)
        (fun shot =>
           if shot : bool then
             rbind (jprop data "base64") (fun base64 =>
             rbind (substring_0_50 base64) (fun preview =>
             rbind (jprop data "path") (fun path =>
             rbind (if truthy path
                    then rbind (js_to_string path)
                               (fun p => Ok (" saved to " ++ p))
                    else Ok "") (fun saved =>
               Ok (mkToolResponse
                     [text_item
                        (JStr ("Screenshot captured (base64: " ++ preview
                               ++ "...)" ++ saved));
                      text_item
                        (JStr ("Full base64 data: " ++ to_js_string base64))]
                     false)))))
           else if is_str action "content" then
             rbind (jprop data "html") (fun html =>
             rbind (if truthy html then Ok html
                    else rbind (js_to_string data) (fun s => Ok (JStr s)))
                   (fun text =>
               Ok (mkToolResponse [text_item text] false)))
           else
             Ok (mkToolResponse [text_item (JSON_stringify ext data)] false))
  else
    rbind (js_to_string (error response))
          (fun msg => Ok (error_response msg)).

(** [catch (error)] of [execute]: the conversion of what was caught
    is not guarded. *)
Definition execute_catch (e : Exn) : M ToolResponse :=
  lift (rbind (exn_message e) (fun msg => Ok (error_response msg))).

Definition execute (command : Obj) : M ToolResponse :=
  m <- getManager (launchProvider command) ;;
  try_catch
    (response <- execute_driver command m ;;
     lift (normalize command response))
    execute_catch.

(** [Math.random().toString(36).substring(7)] *)
Definition generateId : M string :=
  fun w =>
    (Ok (random_id ext (random_calls w)),
     mkWorld (manager w) (next_id w) (S (random_calls w))
             (AGENT_BROWSER_PROVIDER w)
             (AGENT_BROWSER_EXECUTABLE_PATH w)
             (driver w) (log w)).

Definition launch_exempt_tool (name : string) : bool :=
  String.eqb name "browser_launch" || String.eqb name "browser_close"
  || String.eqb name "browser_ios_device_list".

Definition handleToolCall (name : string) (args : JVal) : M ToolResponse :=
  mappedCmd <- lift (mapMergedToolToCommand name args) ;;
  id <- generateId ;;
  let command := oset mappedCmd "id" (JStr id) in
  (if negb (launch_exempt_tool name) then ensureBrowserLaunched true
   else ret tt) ;;;
  execute command.

(** The handler registered for [CallToolRequestSchema]; the
    conversion in its [catch] is not guarded either. *)
Definition callToolHandler (name : string) (args : JVal)
  : M ToolResponse :=
  try_catch (handleToolCall name args)
    (fun e =>
       lift (rbind (exn_message e) (fun msg =>
         Ok (mkToolResponse [text_item (JStr ("Error: " ++ msg))] true)))).

End Server.

Definition launch_events (l : list Event) : list Event :=
  filter is_launch_event l.

(** The world at process start: no manager yet. *)
Definition initial_world {D} (provider executable_path : option string)
           (d : D) : World D :=
  mkWorld None 0 0 provider executable_path d [].

(* ================================================================== *)
(** * A reference driver for closed examples *)
(* ================================================================== *)

(** Modelled from the spec: [BrowserManager], [IOSManager],
    [executeCommand] and [executeIOSCommand] are imported by index.ts
    from [./browser.js], [./ios-manager.js], [./actions.js] and
    [./ios-actions.js], which are not embedded here.  This driver follows
    the outbound interface of the specification ([isLaunched],
    [launch], [close], [executeCommand -> { success, data?, error? }]):
    its state is the list of launched instances; a [launch] command
    launches, a [close] command closes, any other command fails with
    [success: false] on an instance that is not launched and succeeds
    with [null] data otherwise.  [JSON.stringify] is stood in for by
    [String]. *)
Definition ref_is_launched (m : Manager) (d : list nat) : bool :=
  existsb (Nat.eqb (m_id m)) d.

Definition ref_mark_closed (m : Manager) (d : list nat) : list nat :=
  filter (fun i => negb (Nat.eqb (m_id m) i)) d.

Definition ref_execute (cmd : Obj) (m : Manager) (d : list nat)
  : Result Response * list nat :=
  if is_str (jget cmd "action") "launch" then
    (Ok (mkResponse true (JObj [("launched", JBool true)]) JUndefined),
     m_id m :: d)
  else if is_str (jget cmd "action") "close" then
    (Ok (mkResponse true (JObj [("closed", JBool true)]) JUndefined),
     ref_mark_closed m d)
  else if ref_is_launched m d then
    (Ok (mkResponse true JNull JUndefined), d)
  else
    (Ok (mkResponse false JUndefined (JStr "Browser not launched")), d).

Definition ref_driver : Externals (list nat) :=
  {| drv_isLaunched := fun m d => (Ok (ref_is_launched m d), d);
     drv_launch := fun m _ d => (Ok tt, m_id m :: d);
     drv_close := fun m d => (Ok tt, ref_mark_closed m d);
     executeCommand := ref_execute;
     executeIOSCommand := ref_execute;
     JSON_stringify := fun v => JStr (to_js_string v);
     random_id := fun n => "id" ++ string_of_nat n |}.

(** Modelled from the spec: a driver that is unavailable, every call of
    which throws (the SessionError and TeardownError cases of the
    specification). *)
Definition unavailable : Exn := ErrorObj "driver unavailable".

Definition broken_driver : Externals unit :=
  {| drv_isLaunched := fun _ d => (Throw unavailable, d);
     drv_launch := fun _ _ d => (Throw unavailable, d);
     drv_close := fun _ d => (Throw unavailable, d);
     executeCommand := fun _ _ d => (Throw unavailable, d);
     executeIOSCommand := fun _ _ d => (Throw unavailable, d);
     JSON_stringify := fun v => JStr (to_js_string v);
     random_id := fun n => "id" ++ string_of_nat n |}.

(* ================================================================== *)
(** * Vocabulary of the properties *)
(* ================================================================== *)

(** ** Structural equality of values *)

Inductive opt_rel {A : Type} (R : A -> A -> Prop)
  : option A -> option A -> Prop :=
| opt_rel_none : opt_rel R None None
| opt_rel_some : forall a b, R a b -> opt_rel R (Some a) (Some b).

(** Two values are structurally equal when they are the same primitive,
    arrays of structurally equal elements, or objects with the same
    keys bound to structurally equal values, in any order. *)
Inductive jequiv : JVal -> JVal -> Prop :=
| je_undefined : jequiv JUndefined JUndefined
| je_null : jequiv JNull JNull
| je_bool : forall b, jequiv (JBool b) (JBool b)
| je_num : forall n, jequiv (JNum n) (JNum n)
| je_str : forall s, jequiv (JStr s) (JStr s)
| je_arr : forall l1 l2, Forall2 jequiv l1 l2 -> jequiv (JArr l1) (JArr l2)
| je_obj : forall o1 o2,
    (forall k, opt_rel jequiv (oget o1 k) (oget o2 k)) ->
    jequiv (JObj o1) (JObj o2).

Definition obj_equiv (o1 o2 : Obj) : Prop :=
  forall k, opt_rel jequiv (oget o1 k) (oget o2 k).

(** Both calls return structurally equal commands, or both throw the
    same error. *)
Definition result_equiv (r1 r2 : Result Obj) : Prop :=
  match r1, r2 with
  | Ok c1, Ok c2 => obj_equiv c1 c2
  | Throw e1, Throw e2 => e1 = e2
  | _, _ => False
  end.

(** The representation invariant of an object: no key occurs twice. *)
Definition unique_keys (o : Obj) : Prop := NoDup (map fst o).

(** Induction on values that reaches inside arrays and objects. *)
Section JVal_nested_ind.
Variable P : JVal -> Prop.
Hypothesis Hundefined : P JUndefined.
Hypothesis Hnull : P JNull.
Hypothesis Hbool : forall b, P (JBool b).
Hypothesis Hnum : forall n, P (JNum n).
Hypothesis Hstr : forall s, P (JStr s).
Hypothesis Harr : forall l, Forall P l -> P (JArr l).
Hypothesis Hobj : forall o, Forall (fun kv => P (snd kv)) o -> P (JObj o).

Fixpoint JVal_nested_ind (v : JVal) : P v :=
  match v with
  | JUndefined => Hundefined
  | JNull => Hnull
  | JBool b => Hbool b
  | JNum n => Hnum n
  | JStr s => Hstr s
  | JArr l =>
      Harr ((fix go (l : list JVal) : Forall P l :=
               match l with
               | [] => Forall_nil P
               | x :: r => Forall_cons x (JVal_nested_ind x) (go r)
               end) l)
  | JObj o =>
      Hobj ((fix go (o : list (string * JVal))
              : Forall (fun kv => P (snd kv)) o :=
               match o with
               | [] => Forall_nil _
               | kv :: r =>
                   Forall_cons (P := fun kv => P (snd kv)) kv
                               (JVal_nested_ind (snd kv)) (go r)
               end) o)
  end.
End JVal_nested_ind.

(** ** Reading commands and schemas *)

(** The [action] of the command a mapper call returns. *)
Definition action_of (r : Result Obj) : option JVal :=
  match r with
  | Ok cmd => Some (jget cmd "action")
  | Throw _ => None
  end.

Definition find_tool (name : string) : option Tool :=
  find (fun t => String.eqb (t_name t) name) MERGED_TOOLS.

Definition tool_names : list string := map t_name MERGED_TOOLS.

Definition is_registered (name : string) : bool :=
  existsb (String.eqb name) tool_names.

Definition mem_str (s : string) (l : list string) : bool :=
  existsb (String.eqb s) l.


(** The declared fields of a tool that are not [required]. *)
Definition optional_fields (t : Tool) : list string :=
  filter (fun f => negb (mem_str f (t_required t)))
         (map p_name (t_properties t)).

(** [needle] occurs in [hay]. *)
Definition contains (needle hay : string) : bool :=
  match String.index 0 needle hay with
  | Some _ => true
  | None => false
  end.

(** ** The dispatch structure of the mapper *)

(** The tools mapped by [{ action: ..., ...args }]. *)
Definition spread_tools : list string :=
  ["browser_launch"; "browser_navigate"; "browser_snapshot";
   "browser_screenshot"; "browser_close"; "browser_add_script";
   "browser_add_style"].

(** The argument on which a case of the mapper dispatches, for the
    cases that have one. *)
Definition discriminant_field (name : string) : option string :=
  if mem_str name
       ["browser_history"; "browser_element_action"; "browser_input";
        "browser_input_action"; "browser_scroll"; "browser_storage";
        "browser_cookies"; "browser_state"; "browser_dialog";
        "browser_mouse"; "browser_keyboard_raw"; "browser_network";
        "browser_screencast"; "browser_trace"; "browser_recording";
        "browser_har"; "browser_tab"; "browser_window"; "browser_frame";
        "browser_clipboard"]
  then Some "action"
  else if String.eqb name "browser_page_info" then Some "info"
  else if String.eqb name "browser_find" then Some "method"
  else if String.eqb name "browser_get" then Some "property"
  else if String.eqb name "browser_check_state" then Some "state"
  else if String.eqb name "browser_set_context" then Some "setting"
  else if String.eqb name "browser_logs" then Some "type"
  else if String.eqb name "browser_wait_for" then Some "condition"
  else None.


(** A call of tool [name] whose only argument is its discriminant. *)
Definition map_discriminant (name d v : string) : Result Obj :=
  mapMergedToolToCommand name (JObj [(d, JStr v)]).












Definition mem_pair (p : string * string) (l : list (string * string)) : bool :=
  existsb (fun q => String.eqb (fst p) (fst q) && String.eqb (snd p) (snd q)) l.

(** The command's action is a function of the arguments [ds] alone. *)
Definition action_determined_by (name : string) (ds : list string) : Prop :=
  forall o1 o2 : Obj,
    (forall d, In d ds -> jget o1 d = jget o2 d) ->
    action_of (mapMergedToolToCommand name (JObj o1))
    = action_of (mapMergedToolToCommand name (JObj o2)).

(** The arguments the action of a non-spread tool depends on: its
    discriminant, and for [browser_find] also [action], which replaces
    the looked-up action, and [value], which is stored under the key
    named by [method]. *)
Definition action_inputs (name : string) : list string :=
  if String.eqb name "browser_find" then ["method"; "action"; "value"]
  else match discriminant_field name with
       | Some d => [d]
       | None => []
       end.

(** ** Optional fields *)

(** Tool [t] called without field [f] yields a command without [f]. *)
Definition omits_absent (name f : string) : Prop :=
  forall (o cmd : Obj),
    oget o f = None ->
    mapMergedToolToCommand name (JObj o) = Ok cmd ->
    oget cmd f = None.

Definition media_fields : list string :=
  ["media"; "colorScheme"; "reducedMotion"].

(** The optional fields a case assigns without testing that the
    argument is defined (in at least one of its branches), together
    with [action] and [index] of [browser_find], which always receive a
    value. *)
Definition unconditional_fields : list (string * string) :=
  [("browser_scroll", "selector");
   ("browser_find", "action"); ("browser_find", "selector");
   ("browser_find", "index");
   ("browser_get", "attribute");
   ("browser_cookies", "cookies");
   ("browser_set_context", "device"); ("browser_set_context", "width");
   ("browser_set_context", "height"); ("browser_set_context", "latitude");
   ("browser_set_context", "longitude"); ("browser_set_context", "locale");
   ("browser_set_context", "timezone"); ("browser_set_context", "offline");
   ("browser_set_context", "headers"); ("browser_set_context", "username");
   ("browser_set_context", "password");
   ("browser_keyboard_raw", "key"); ("browser_keyboard_raw", "keys");
   ("browser_network", "url");
   ("browser_logs", "clear");
   ("browser_trace", "path");
   ("browser_har", "path")].


(** ** Sessions *)

(** Handling the call adds no [launch] of a manager to the trace. *)
Definition no_implicit_launch {D} (ext : Externals D) (name : string)
           (args : JVal) (w : World D) : Prop :=
  launch_events (log (snd (callToolHandler ext name args w)))
  = launch_events (log w).

(** Every manager referred to was constructed before. *)
Definition wf_world {D} (w : World D) : Prop :=
  forall m, manager w = Some m -> m_id m < next_id w.

(** What was thrown is an [Error], or a value that [String] converts:
    the [catch] blocks can report it. *)
Definition reportable (e : Exn) : bool :=
  match e with
  | ErrorObj _ => true
  | Thrown v => convertible v
  end.

(** [(provider ?? AGENT_BROWSER_PROVIDER) === 'ios'] on world [w]. *)
Definition wants_ios {D} (w : World D) (provider : JVal) : bool :=
  is_str (nullish_or provider (env_value (AGENT_BROWSER_PROVIDER w))) "ios".

(** The computation [c] leaves the observation [f] of the world as it
    found it, whether it returns or throws. *)
Definition keeps {D A X} (f : World D -> X) (c : M D A) : Prop :=
  forall w, f (snd (c w)) = f w.

(** The [launch] calls recorded in the trace of a world. *)
Definition launches {D} (w : World D) : list Event :=
  launch_events (log w).

(** The commands handed to the driver, in order. *)
Definition executed_commands (l : list Event) : list Obj :=
  flat_map (fun e => match e with EvExecute _ c => [c] | _ => [] end) l.

Definition executed {D} (w : World D) : list Obj :=
  executed_commands (log w).

(** The computation hands at most the command [c] to the driver. *)
Definition executes_at_most {D A} (c : Obj) (comp : M D A) : Prop :=
  forall w, executed (snd (comp w)) = executed w
            \/ executed (snd (comp w)) = (executed w ++ [c])%list.

(** For the fields of [unconditional_fields] that a branch assigns by
    design, a discriminant value that selects such a branch. *)
Definition unconditional_at : list (string * string * string) :=
  [("browser_scroll", "selector", "scroll_into_view");
   ("browser_find", "action", "role"); ("browser_find", "selector", "nth");
   ("browser_find", "index", "nth");
   ("browser_get", "attribute", "attribute");
   ("browser_cookies", "cookies", "set");
   ("browser_set_context", "device", "device");
   ("browser_set_context", "width", "viewport");
   ("browser_set_context", "height", "viewport");
   ("browser_set_context", "latitude", "geolocation");
   ("browser_set_context", "longitude", "geolocation");
   ("browser_set_context", "locale", "locale");
   ("browser_set_context", "timezone", "timezone");
   ("browser_set_context", "offline", "offline");
   ("browser_set_context", "headers", "headers");
   ("browser_set_context", "username", "credentials");
   ("browser_set_context", "password", "credentials");
   ("browser_keyboard_raw", "key", "down");
   ("browser_keyboard_raw", "keys", "shortcut");
   ("browser_network", "url", "route");
   ("browser_trace", "path", "stop");
   ("browser_har", "path", "stop")].

(** The field [f] is on the command that tool [name] returns for the
    bag holding only the discriminant value [v]. *)
Definition present_at (name f v : string) : bool :=
  match discriminant_field name with
  | Some d =>
      negb (String.eqb d f)
      && match map_discriminant name d v with
         | Ok cmd => match oget cmd f with Some _ => true | None => false end
         | Throw _ => false
         end
  | None => false
  end.

(* ================================================================== *)
(** * Vocabulary of the further properties *)
(* ================================================================== *)

(** ** The mapper and the registry *)

(** The tools whose case reads no property of [args]. *)
Definition accepts_no_arguments (name : string) : bool :=
  mem_str name spread_tools || String.eqb name "browser_ios_device_list".

(** The property names a tool's schema declares. *)
Definition declared_fields (t : Tool) : list string :=
  map p_name (t_properties t).

(** The command keys that are not named after a schema field: the
    discriminant, [text] of a [type] command and of the alt-text
    locator, [operation] of a clipboard command, [viewport] of a new
    window. *)
Definition derived_keys : list string :=
  ["action"; "text"; "operation"; "viewport"].


(** ** Predicates on computations *)

(** The computation [c] keeps the property [P] of the world, whether it
    returns or throws. *)
Definition preserves {D A} (P : World D -> Prop) (c : M D A) : Prop :=
  forall w, P w -> P (snd (c w)).

(** No string occurs twice in [l]. *)
Fixpoint distinct (l : list string) : bool :=
  match l with
  | [] => true
  | x :: r => negb (mem_str x r) && distinct r
  end.

(** The discriminant a case dispatches on is a required field of the
    tool's schema. *)
Definition discriminant_required (t : Tool) : bool :=
  match discriminant_field (t_name t) with
  | Some d => mem_str d (t_required t)
  | None => true
  end.

(** ** Well-formed traces *)

Definition same_manager (m1 m2 : Manager) : bool :=
  Nat.eqb (m_id m1) (m_id m2)
  && Bool.eqb (is_ios_manager m1) (is_ios_manager m2).

(** What a trace has established so far: the instance constructed
    last, the number of instances constructed, and whether [close] has
    been called on the last one. *)
Record Replay : Type := mkReplay {
  r_current : option Manager;
  r_count : nat;
  r_closed : bool
}.

(** [m] is the instance constructed last, and [close] has not been
    called on it. *)
Definition is_current (s : Replay) (m : Manager) : bool :=
  match r_current s with
  | Some c => same_manager c m && negb (r_closed s)
  | None => false
  end.

(** One event of a well-formed trace: instances are numbered in the
    order of their construction; an instance is constructed only when
    there is none yet or when [close] has been called on the last one;
    [close], [launch] and the executors are only called on the last
    instance, before its [close]. *)
Definition replay_step (s : option Replay) (e : Event) : option Replay :=
  match s with
  | None => None
  | Some s =>
      match e with
      | EvNew m =>
          if Nat.eqb (m_id m) (r_count s)
             && match r_current s with
                | None => true
                | Some _ => r_closed s
                end
          then Some (mkReplay (Some m) (S (r_count s)) false)
          else None
      | EvClose m =>
          if is_current s m
          then Some (mkReplay (r_current s) (r_count s) true)
          else None
      | EvLaunch m _ | EvExecute m _ =>
          if is_current s m then Some s else None
      end
  end.

Definition replay (l : list Event) : option Replay :=
  fold_left replay_step l (Some (mkReplay None 0 false)).

(** The trace of the world is well-formed and the module-level
    [manager] is the instance constructed last, not closed by the
    server. *)
Definition session_inv {D} (w : World D) : Prop :=
  replay (log w) = Some (mkReplay (manager w) (next_id w) false).

(** The module-level [manager] is [m] and, unless [free], the kind of
    [m] is the one the environment asks for. *)
Definition session_is {D} (free : bool) (m : Manager) (w : World D) : Prop :=
  manager w = Some m
  /\ (free = true \/ is_ios_manager m = wants_ios w JUndefined).

(** The trace is well-formed and [m] is the current instance. *)
Definition current {D} (free : bool) (m : Manager) (w : World D) : Prop :=
  session_inv w /\ session_is free m w.

(** [close] has been called on every instance constructed in [l]. *)
Definition all_closed (l : list Event) : Prop :=
  forall m, In (EvNew m) l -> In (EvClose m) l.

(** ** Launches *)

(** The environment of [w'] is that of [w]. *)
Definition same_env {D} (w w' : World D) : Prop :=
  AGENT_BROWSER_PROVIDER w' = AGENT_BROWSER_PROVIDER w
  /\ AGENT_BROWSER_EXECUTABLE_PATH w' = AGENT_BROWSER_EXECUTABLE_PATH w.

(** An automatic launch in the environment of [w]: [launch({})] on an
    [IOSManager]; on a [BrowserManager] the headless [mcp-launch]
    command with the executable path and the provider of the
    environment, [undefined] where a variable is not set. *)
Definition auto_launch {D} (w : World D) (e : Event) : Prop :=
  exists m,
    e = EvLaunch m
          (if is_ios_manager m then JObj []
           else JObj [("id", JStr "mcp-launch");
                      ("action", JStr "launch");
                      ("headless", JBool true);
                      ("executablePath",
                       match AGENT_BROWSER_EXECUTABLE_PATH w with
                       | Some path => JStr path
                       | None => JUndefined
                       end);
                      ("provider",
                       match AGENT_BROWSER_PROVIDER w with
                       | Some provider => JStr provider
                       | None => JUndefined
                       end)]).

(** The computation [c] leaves the environment alone and adds at most
    [n] launches to the trace, all of them as [P] describes for the
    world [c] starts from. *)
Definition launches_within {D A} (P : World D -> Event -> Prop) (n : nat)
           (c : M D A) : Prop :=
  forall w,
    same_env w (snd (c w))
    /\ exists l,
        launches (snd (c w)) = (launches w ++ l)%list
        /\ length l <= n
        /\ Forall (P w) l.

(** [P] only looks at the environment of the world. *)
Definition env_only {D} (P : World D -> Event -> Prop) : Prop :=
  forall w w' e, same_env w w' -> P w' e -> P w e.

(** Whatever the driver throws is an [Error] or a value that [String]
    converts. *)
Definition throws_reportable {D} (ext : Externals D) : Prop :=
  (forall m d e d', drv_isLaunched ext m d = (Throw e, d') ->
                    reportable e = true)
  /\ (forall m o d e d', drv_launch ext m o d = (Throw e, d') ->
                         reportable e = true)
  /\ (forall c m d e d', executeCommand ext c m d = (Throw e, d') ->
                         reportable e = true)
  /\ (forall c m d e d', executeIOSCommand ext c m d = (Throw e, d') ->
                         reportable e = true).

(** The computation [c] throws nothing but what [P] holds of. *)
Definition throws_only {D A} (P : Exn -> Prop) (c : M D A) : Prop :=
  forall w e w', c w = (Throw e, w') -> P e.

(** The driver answers every [isLaunched] with [true]. *)
Definition always_launched {D} (ext : Externals D) : Prop :=
  forall m d, exists d', drv_isLaunched ext m d = (Ok true, d').

(** The tool calls [calls], handled one after the other from the
    world [w]. *)
Definition handle_calls {D} (ext : Externals D)
           (calls : list (string * JVal)) (w : World D) : World D :=
  fold_left (fun w c => snd (callToolHandler ext (fst c) (snd c) w)) calls w.

(** ** Response payloads *)

(** Every content item of [r] has type [text]. *)
Definition text_only (r : ToolResponse) : bool :=
  forallb (fun i => String.eqb (c_type i) "text") (content r).

(** ** Termination signals *)

Section Signals.

Variable D : Type.
Variable ext : Externals D.

(** The handler [main] registers for [SIGINT] and for [SIGTERM]:
  [if (manager) await manager.close(); process.exit(0)].  It returns
  when [process.exit(0)] is reached and throws when [close] does. *)
Definition onTerminationSignal : M D unit :=
bind (read (@manager D))
     (fun cur =>
        match cur with
        | Some m => close ext m
        | None => ret tt
        end).

End Signals.

(* ================================================================== *)
(** * The legacy server (dist/index.js) *)
(* ================================================================== *)

(** The server before the tools were merged: one tool per command, a
    single [BrowserManager], no provider.  It shares the driver
    interface, the world and the response payloads of the merged
    server; [browser], its module-level variable, is the [manager]
    field of the world. *)
Module Legacy.

(** The advertised registry [TOOLS]. *)
Definition TOOLS : list Tool :=
 [mkTool "browser_navigate"
    [mkProp "url" (Ty "string") [];
    mkProp "waitUntil" (Ty "string") ["load"; "domcontentloaded";
      "networkidle"];
    mkProp "headers" (Ty "object") [];
    mkProp "headless" (Ty "boolean") []]
    ["url"];
  mkTool "browser_snapshot"
    [mkProp "interactiveOnly" (Ty "boolean") [];
    mkProp "compact" (Ty "boolean") [];
    mkProp "depth" (Ty "number") [];
    mkProp "selector" (Ty "string") []]
    [];
  mkTool "browser_screenshot"
    [mkProp "path" (Ty "string") [];
    mkProp "fullPage" (Ty "boolean") [];
    mkProp "selector" (Ty "string") []]
    [];
  mkTool "browser_back"
    []
    [];
  mkTool "browser_forward"
    []
    [];
  mkTool "browser_reload"
    []
    [];
  mkTool "browser_url"
    []
    [];
  mkTool "browser_title"
    []
    [];
  mkTool "browser_click"
    [mkProp "selector" (Ty "string") [];
    mkProp "button" (Ty "string") ["left"; "right"; "middle"];
    mkProp "clickCount" (Ty "number") []]
    ["selector"];
  mkTool "browser_dblclick"
    [mkProp "selector" (Ty "string") []]
    ["selector"];
  mkTool "browser_fill"
    [mkProp "selector" (Ty "string") [];
    mkProp "value" (Ty "string") []]
    ["selector"; "value"];
  mkTool "browser_type"
    [mkProp "selector" (Ty "string") [];
    mkProp "text" (Ty "string") [];
    mkProp "delay" (Ty "number") []]
    ["selector"; "text"];
  mkTool "browser_press"
    [mkProp "key" (Ty "string") [];
    mkProp "selector" (Ty "string") []]
    ["key"];
  mkTool "browser_hover"
    [mkProp "selector" (Ty "string") []]
    ["selector"];
  mkTool "browser_focus"
    [mkProp "selector" (Ty "string") []]
    ["selector"];
  mkTool "browser_select"
    [mkProp "selector" (Ty "string") [];
    mkProp "values" (OneOf ["string"; "array"]) []]
    ["selector"; "values"];
  mkTool "browser_check"
    [mkProp "selector" (Ty "string") []]
    ["selector"];
  mkTool "browser_uncheck"
    [mkProp "selector" (Ty "string") []]
    ["selector"];
  mkTool "browser_tap"
    [mkProp "selector" (Ty "string") []]
    ["selector"];
  mkTool "browser_clear"
    [mkProp "selector" (Ty "string") []]
    ["selector"];
  mkTool "browser_scroll"
    [mkProp "direction" (Ty "string") ["up"; "down"; "left"; "right"];
    mkProp "amount" (Ty "number") [];
    mkProp "selector" (Ty "string") [];
    mkProp "x" (Ty "number") [];
    mkProp "y" (Ty "number") []]
    [];
  mkTool "browser_scroll_into_view"
    [mkProp "selector" (Ty "string") []]
    ["selector"];
  mkTool "browser_drag"
    [mkProp "source" (Ty "string") [];
    mkProp "target" (Ty "string") []]
    ["source"; "target"];
  mkTool "browser_upload"
    [mkProp "selector" (Ty "string") [];
    mkProp "files" (OneOf ["string"; "array"]) []]
    ["selector"; "files"];
  mkTool "browser_get_text"
    [mkProp "selector" (Ty "string") []]
    ["selector"];
  mkTool "browser_get_inner_text"
    [mkProp "selector" (Ty "string") []]
    ["selector"];
  mkTool "browser_get_inner_html"
    [mkProp "selector" (Ty "string") []]
    ["selector"];
  mkTool "browser_get_attribute"
    [mkProp "selector" (Ty "string") [];
    mkProp "attribute" (Ty "string") []]
    ["selector"; "attribute"];
  mkTool "browser_get_value"
    [mkProp "selector" (Ty "string") []]
    ["selector"];
  mkTool "browser_is_visible"
    [mkProp "selector" (Ty "string") []]
    ["selector"];
  mkTool "browser_is_enabled"
    [mkProp "selector" (Ty "string") []]
    ["selector"];
  mkTool "browser_is_checked"
    [mkProp "selector" (Ty "string") []]
    ["selector"];
  mkTool "browser_count"
    [mkProp "selector" (Ty "string") []]
    ["selector"];
  mkTool "browser_bounding_box"
    [mkProp "selector" (Ty "string") []]
    ["selector"];
  mkTool "browser_highlight"
    [mkProp "selector" (Ty "string") []]
    ["selector"];
  mkTool "browser_styles"
    [mkProp "selector" (Ty "string") []]
    ["selector"];
  mkTool "browser_find_by_role"
    [mkProp "role" (Ty "string") [];
    mkProp "name" (Ty "string") [];
    mkProp "action" (Ty "string") ["click"; "fill"; "check"; "hover"];
    mkProp "value" (Ty "string") []]
    ["role"; "action"];
  mkTool "browser_find_by_text"
    [mkProp "text" (Ty "string") [];
    mkProp "exact" (Ty "boolean") [];
    mkProp "action" (Ty "string") ["click"; "hover"]]
    ["text"; "action"];
  mkTool "browser_find_by_label"
    [mkProp "label" (Ty "string") [];
    mkProp "action" (Ty "string") ["click"; "fill"; "check"];
    mkProp "value" (Ty "string") []]
    ["label"; "action"];
  mkTool "browser_find_by_placeholder"
    [mkProp "placeholder" (Ty "string") [];
    mkProp "action" (Ty "string") ["click"; "fill"];
    mkProp "value" (Ty "string") []]
    ["placeholder"; "action"];
  mkTool "browser_find_by_alt_text"
    [mkProp "text" (Ty "string") [];
    mkProp "exact" (Ty "boolean") [];
    mkProp "action" (Ty "string") ["click"; "hover"]]
    ["text"; "action"];
  mkTool "browser_find_by_title"
    [mkProp "text" (Ty "string") [];
    mkProp "exact" (Ty "boolean") [];
    mkProp "action" (Ty "string") ["click"; "hover"]]
    ["text"; "action"];
  mkTool "browser_find_by_test_id"
    [mkProp "testId" (Ty "string") [];
    mkProp "action" (Ty "string") ["click"; "fill"; "check"; "hover"];
    mkProp "value" (Ty "string") []]
    ["testId"; "action"];
  mkTool "browser_find_nth"
    [mkProp "selector" (Ty "string") [];
    mkProp "index" (Ty "number") [];
    mkProp "action" (Ty "string") ["click"; "fill"; "check"; "hover"; "text"];
    mkProp "value" (Ty "string") []]
    ["selector"; "index"; "action"];
  mkTool "browser_wait"
    [mkProp "selector" (Ty "string") [];
    mkProp "timeout" (Ty "number") [];
    mkProp "state" (Ty "string") ["attached"; "detached"; "visible";
      "hidden"]]
    [];
  mkTool "browser_wait_for_url"
    [mkProp "url" (Ty "string") [];
    mkProp "timeout" (Ty "number") []]
    ["url"];
  mkTool "browser_wait_for_load_state"
    [mkProp "state" (Ty "string") ["load"; "domcontentloaded"; "networkidle"];
    mkProp "timeout" (Ty "number") []]
    ["state"];
  mkTool "browser_wait_for_function"
    [mkProp "expression" (Ty "string") [];
    mkProp "timeout" (Ty "number") []]
    ["expression"];
  mkTool "browser_evaluate"
    [mkProp "script" (Ty "string") [];
    mkProp "args" (Ty "array") []]
    ["script"];
  mkTool "browser_get_content"
    [mkProp "selector" (Ty "string") []]
    [];
  mkTool "browser_set_content"
    [mkProp "html" (Ty "string") []]
    ["html"];
  mkTool "browser_pdf"
    [mkProp "path" (Ty "string") [];
    mkProp "format" (Ty "string") ["Letter"; "Legal"; "Tabloid"; "Ledger";
      "A0"; "A1"; "A2"; "A3"; "A4"; "A5"; "A6"]]
    ["path"];
  mkTool "browser_tab_list"
    []
    [];
  mkTool "browser_tab_new"
    [mkProp "url" (Ty "string") []]
    [];
  mkTool "browser_tab_switch"
    [mkProp "index" (Ty "number") []]
    ["index"];
  mkTool "browser_tab_close"
    [mkProp "index" (Ty "number") []]
    [];
  mkTool "browser_window_new"
    [mkProp "viewport" (Ty "object") []]
    [];
  mkTool "browser_frame"
    [mkProp "selector" (Ty "string") [];
    mkProp "name" (Ty "string") [];
    mkProp "url" (Ty "string") []]
    [];
  mkTool "browser_main_frame"
    []
    [];
  mkTool "browser_cookies_get"
    [mkProp "urls" (Ty "array") []]
    [];
  mkTool "browser_cookies_set"
    [mkProp "cookies" (Ty "array") []]
    ["cookies"];
  mkTool "browser_storage_get"
    [mkProp "type" (Ty "string") ["local"; "session"];
    mkProp "key" (Ty "string") []]
    ["type"];
  mkTool "browser_storage_set"
    [mkProp "type" (Ty "string") ["local"; "session"];
    mkProp "key" (Ty "string") [];
    mkProp "value" (Ty "string") []]
    ["type"; "key"; "value"];
  mkTool "browser_storage_clear"
    [mkProp "type" (Ty "string") ["local"; "session"]]
    ["type"];
  mkTool "browser_set_viewport"
    [mkProp "width" (Ty "number") [];
    mkProp "height" (Ty "number") []]
    ["width"; "height"];
  mkTool "browser_set_device"
    [mkProp "device" (Ty "string") []]
    ["device"];
  mkTool "browser_set_geolocation"
    [mkProp "latitude" (Ty "number") [];
    mkProp "longitude" (Ty "number") [];
    mkProp "accuracy" (Ty "number") []]
    ["latitude"; "longitude"];
  mkTool "browser_set_offline"
    [mkProp "offline" (Ty "boolean") []]
    ["offline"];
  mkTool "browser_emulate_media"
    [mkProp "media" (Ty "string") ["screen"; "print"; "null"];
    mkProp "colorScheme" (Ty "string") ["light"; "dark"; "no-preference";
      "null"];
    mkProp "reducedMotion" (Ty "string") ["reduce"; "no-preference"; "null"]]
    [];
  mkTool "browser_set_timezone"
    [mkProp "timezone" (Ty "string") []]
    ["timezone"];
  mkTool "browser_set_locale"
    [mkProp "locale" (Ty "string") []]
    ["locale"];
  mkTool "browser_set_headers"
    [mkProp "headers" (Ty "object") []]
    ["headers"];
  mkTool "browser_set_credentials"
    [mkProp "username" (Ty "string") [];
    mkProp "password" (Ty "string") []]
    ["username"; "password"];
  mkTool "browser_network_route"
    [mkProp "url" (Ty "string") [];
    mkProp "response" (Ty "object") [];
    mkProp "abort" (Ty "boolean") []]
    ["url"];
  mkTool "browser_network_unroute"
    [mkProp "url" (Ty "string") []]
    [];
  mkTool "browser_network_requests"
    [mkProp "filter" (Ty "string") [];
    mkProp "clear" (Ty "boolean") []]
    [];
  mkTool "browser_wait_for_download"
    [mkProp "path" (Ty "string") [];
    mkProp "timeout" (Ty "number") []]
    [];
  mkTool "browser_download"
    [mkProp "selector" (Ty "string") [];
    mkProp "path" (Ty "string") []]
    ["selector"; "path"];
  mkTool "browser_response_body"
    [mkProp "url" (Ty "string") [];
    mkProp "timeout" (Ty "number") []]
    ["url"];
  mkTool "browser_dialog_accept"
    [mkProp "promptText" (Ty "string") []]
    [];
  mkTool "browser_dialog_dismiss"
    []
    [];
  mkTool "browser_console"
    [mkProp "clear" (Ty "boolean") []]
    [];
  mkTool "browser_errors"
    [mkProp "clear" (Ty "boolean") []]
    [];
  mkTool "browser_trace_start"
    [mkProp "screenshots" (Ty "boolean") [];
    mkProp "snapshots" (Ty "boolean") []]
    [];
  mkTool "browser_trace_stop"
    [mkProp "path" (Ty "string") []]
    ["path"];
  mkTool "browser_keyboard"
    [mkProp "keys" (Ty "string") []]
    ["keys"];
  mkTool "browser_key_down"
    [mkProp "key" (Ty "string") []]
    ["key"];
  mkTool "browser_key_up"
    [mkProp "key" (Ty "string") []]
    ["key"];
  mkTool "browser_mouse_move"
    [mkProp "x" (Ty "number") [];
    mkProp "y" (Ty "number") []]
    ["x"; "y"];
  mkTool "browser_mouse_down"
    [mkProp "button" (Ty "string") ["left"; "right"; "middle"]]
    [];
  mkTool "browser_mouse_up"
    [mkProp "button" (Ty "string") ["left"; "right"; "middle"]]
    [];
  mkTool "browser_wheel"
    [mkProp "deltaX" (Ty "number") [];
    mkProp "deltaY" (Ty "number") [];
    mkProp "selector" (Ty "string") []]
    [];
  mkTool "browser_select_all"
    [mkProp "selector" (Ty "string") []]
    ["selector"];
  mkTool "browser_set_value"
    [mkProp "selector" (Ty "string") [];
    mkProp "value" (Ty "string") []]
    ["selector"; "value"];
  mkTool "browser_multiselect"
    [mkProp "selector" (Ty "string") [];
    mkProp "values" (Ty "array") []]
    ["selector"; "values"];
  mkTool "browser_dispatch_event"
    [mkProp "selector" (Ty "string") [];
    mkProp "event" (Ty "string") [];
    mkProp "eventInit" (Ty "object") []]
    ["selector"; "event"];
  mkTool "browser_add_script"
    [mkProp "content" (Ty "string") [];
    mkProp "url" (Ty "string") []]
    [];
  mkTool "browser_add_style"
    [mkProp "content" (Ty "string") [];
    mkProp "url" (Ty "string") []]
    [];
  mkTool "browser_add_init_script"
    [mkProp "script" (Ty "string") []]
    ["script"];
  mkTool "browser_bring_to_front"
    []
    [];
  mkTool "browser_screencast_start"
    [mkProp "format" (Ty "string") ["jpeg"; "png"];
    mkProp "quality" (Ty "number") [];
    mkProp "maxWidth" (Ty "number") [];
    mkProp "maxHeight" (Ty "number") []]
    [];
  mkTool "browser_screencast_stop"
    []
    [];
  mkTool "browser_recording_start"
    [mkProp "path" (Ty "string") [];
    mkProp "url" (Ty "string") []]
    ["path"];
  mkTool "browser_recording_stop"
    []
    [];
  mkTool "browser_recording_restart"
    [mkProp "path" (Ty "string") [];
    mkProp "url" (Ty "string") []]
    ["path"];
  mkTool "browser_state_save"
    [mkProp "path" (Ty "string") []]
    ["path"];
  mkTool "browser_state_load"
    [mkProp "path" (Ty "string") []]
    ["path"];
  mkTool "browser_har_start"
    []
    [];
  mkTool "browser_har_stop"
    [mkProp "path" (Ty "string") []]
    ["path"];
  mkTool "browser_clipboard"
    [mkProp "operation" (Ty "string") ["copy"; "paste"; "read"];
    mkProp "text" (Ty "string") []]
    ["operation"];
  mkTool "browser_close"
    []
    []
 ].

Definition tool_names : list string := map t_name TOOLS.

(** [v === 'null' ? null : v] *)
Definition null_if_literal (v : JVal) : JVal :=
  if is_str v "null" then JNull else v.

(** [v !== false] *)
Definition is_not_false (v : JVal) : bool :=
  match v with JBool false => false | _ => true end.

(** The object literal each case of [handleToolCall] passes to
    [execute], in source order, as a function of [args] and of the
    identifier [generateId()] has returned: the literal draws its [id]
    first and reads [args] afterwards. *)
Definition command_cases : list (string * (JVal -> string -> Result Obj)) :=
 [("browser_navigate", fun args id => with_args args "url" (fun a =>
     [("id", JStr id); ("action", lit "navigate"); ("url", a "url");
      ("waitUntil", a "waitUntil"); ("headers", a "headers")]));
  ("browser_snapshot", fun args id => with_args args "interactiveOnly" (fun a =>
     [("id", JStr id); ("action", lit "snapshot");
      ("options", JObj [("interactiveOnly", a "interactiveOnly");
      ("compact", a "compact"); ("depth", a "depth");
      ("selector", a "selector")])]));
  ("browser_screenshot", fun args id => with_args args "path" (fun a =>
     [("id", JStr id); ("action", lit "screenshot"); ("path", a "path");
      ("fullPage", a "fullPage"); ("selector", a "selector")]));
  ("browser_back", fun _ id => Ok
     [("id", JStr id); ("action", lit "back")]);
  ("browser_forward", fun _ id => Ok
     [("id", JStr id); ("action", lit "forward")]);
  ("browser_reload", fun _ id => Ok
     [("id", JStr id); ("action", lit "reload")]);
  ("browser_url", fun _ id => Ok
     [("id", JStr id); ("action", lit "url")]);
  ("browser_title", fun _ id => Ok
     [("id", JStr id); ("action", lit "title")]);
  ("browser_click", fun args id => with_args args "selector" (fun a =>
     [("id", JStr id); ("action", lit "click"); ("selector", a "selector");
      ("button", a "button"); ("clickCount", a "clickCount")]));
  ("browser_dblclick", fun args id => with_args args "selector" (fun a =>
     [("id", JStr id); ("action", lit "dblclick");
      ("selector", a "selector")]));
  ("browser_fill", fun args id => with_args args "selector" (fun a =>
     [("id", JStr id); ("action", lit "fill"); ("selector", a "selector");
      ("value", a "value")]));
  ("browser_type", fun args id => with_args args "selector" (fun a =>
     [("id", JStr id); ("action", lit "type"); ("selector", a "selector");
      ("text", a "text"); ("delay", a "delay")]));
  ("browser_press", fun args id => with_args args "key" (fun a =>
     [("id", JStr id); ("action", lit "press"); ("key", a "key");
      ("selector", a "selector")]));
  ("browser_hover", fun args id => with_args args "selector" (fun a =>
     [("id", JStr id); ("action", lit "hover"); ("selector", a "selector")]));
  ("browser_focus", fun args id => with_args args "selector" (fun a =>
     [("id", JStr id); ("action", lit "focus"); ("selector", a "selector")]));
  ("browser_select", fun args id => with_args args "selector" (fun a =>
     [("id", JStr id); ("action", lit "select"); ("selector", a "selector");
      ("values", a "values")]));
  ("browser_check", fun args id => with_args args "selector" (fun a =>
     [("id", JStr id); ("action", lit "check"); ("selector", a "selector")]));
  ("browser_uncheck", fun args id => with_args args "selector" (fun a =>
     [("id", JStr id); ("action", lit "uncheck");
      ("selector", a "selector")]));
  ("browser_tap", fun args id => with_args args "selector" (fun a =>
     [("id", JStr id); ("action", lit "tap"); ("selector", a "selector")]));
  ("browser_clear", fun args id => with_args args "selector" (fun a =>
     [("id", JStr id); ("action", lit "clear"); ("selector", a "selector")]));
  ("browser_scroll", fun args id => with_args args "selector" (fun a =>
     [("id", JStr id); ("action", lit "scroll"); ("selector", a "selector");
      ("direction", a "direction"); ("amount", a "amount"); ("x", a "x");
      ("y", a "y")]));
  ("browser_scroll_into_view", fun args id => with_args args "selector" (fun a =>
     [("id", JStr id); ("action", lit "scrollintoview");
      ("selector", a "selector")]));
  ("browser_drag", fun args id => with_args args "source" (fun a =>
     [("id", JStr id); ("action", lit "drag"); ("source", a "source");
      ("target", a "target")]));
  ("browser_upload", fun args id => with_args args "selector" (fun a =>
     [("id", JStr id); ("action", lit "upload"); ("selector", a "selector");
      ("files", a "files")]));
  ("browser_get_text", fun args id => with_args args "selector" (fun a =>
     [("id", JStr id); ("action", lit "gettext");
      ("selector", a "selector")]));
  ("browser_get_inner_text", fun args id => with_args args "selector" (fun a =>
     [("id", JStr id); ("action", lit "innertext");
      ("selector", a "selector")]));
  ("browser_get_inner_html", fun args id => with_args args "selector" (fun a =>
     [("id", JStr id); ("action", lit "innerhtml");
      ("selector", a "selector")]));
  ("browser_get_attribute", fun args id => with_args args "selector" (fun a =>
     [("id", JStr id); ("action", lit "getattribute");
      ("selector", a "selector"); ("attribute", a "attribute")]));
  ("browser_get_value", fun args id => with_args args "selector" (fun a =>
     [("id", JStr id); ("action", lit "inputvalue");
      ("selector", a "selector")]));
  ("browser_is_visible", fun args id => with_args args "selector" (fun a =>
     [("id", JStr id); ("action", lit "isvisible");
      ("selector", a "selector")]));
  ("browser_is_enabled", fun args id => with_args args "selector" (fun a =>
     [("id", JStr id); ("action", lit "isenabled");
      ("selector", a "selector")]));
  ("browser_is_checked", fun args id => with_args args "selector" (fun a =>
     [("id", JStr id); ("action", lit "ischecked");
      ("selector", a "selector")]));
  ("browser_count", fun args id => with_args args "selector" (fun a =>
     [("id", JStr id); ("action", lit "count"); ("selector", a "selector")]));
  ("browser_bounding_box", fun args id => with_args args "selector" (fun a =>
     [("id", JStr id); ("action", lit "boundingbox");
      ("selector", a "selector")]));
  ("browser_highlight", fun args id => with_args args "selector" (fun a =>
     [("id", JStr id); ("action", lit "highlight");
      ("selector", a "selector")]));
  ("browser_styles", fun args id => with_args args "selector" (fun a =>
     [("id", JStr id); ("action", lit "styles");
      ("selector", a "selector")]));
  ("browser_find_by_role", fun args id => with_args args "role" (fun a =>
     [("id", JStr id); ("action", lit "getbyrole"); ("role", a "role");
      ("name", a "name"); ("subaction", a "action");
      ("value", a "value")]));
  ("browser_find_by_text", fun args id => with_args args "text" (fun a =>
     [("id", JStr id); ("action", lit "getbytext"); ("text", a "text");
      ("exact", a "exact"); ("subaction", a "action")]));
  ("browser_find_by_label", fun args id => with_args args "label" (fun a =>
     [("id", JStr id); ("action", lit "getbylabel"); ("label", a "label");
      ("subaction", a "action"); ("value", a "value")]));
  ("browser_find_by_placeholder", fun args id => with_args args "placeholder" (fun a =>
     [("id", JStr id); ("action", lit "getbyplaceholder");
      ("placeholder", a "placeholder"); ("subaction", a "action");
      ("value", a "value")]));
  ("browser_find_by_alt_text", fun args id => with_args args "text" (fun a =>
     [("id", JStr id); ("action", lit "getbyalttext"); ("text", a "text");
      ("exact", a "exact"); ("subaction", a "action")]));
  ("browser_find_by_title", fun args id => with_args args "text" (fun a =>
     [("id", JStr id); ("action", lit "getbytitle"); ("text", a "text");
      ("exact", a "exact"); ("subaction", a "action")]));
  ("browser_find_by_test_id", fun args id => with_args args "testId" (fun a =>
     [("id", JStr id); ("action", lit "getbytestid"); ("testId", a "testId");
      ("subaction", a "action"); ("value", a "value")]));
  ("browser_find_nth", fun args id => with_args args "selector" (fun a =>
     [("id", JStr id); ("action", lit "nth"); ("selector", a "selector");
      ("index", a "index"); ("subaction", a "action");
      ("value", a "value")]));
  ("browser_wait", fun args id => with_args args "selector" (fun a =>
     [("id", JStr id); ("action", lit "wait"); ("selector", a "selector");
      ("timeout", a "timeout"); ("state", a "state")]));
  ("browser_wait_for_url", fun args id => with_args args "url" (fun a =>
     [("id", JStr id); ("action", lit "waitforurl"); ("url", a "url");
      ("timeout", a "timeout")]));
  ("browser_wait_for_load_state", fun args id => with_args args "state" (fun a =>
     [("id", JStr id); ("action", lit "waitforloadstate");
      ("state", a "state"); ("timeout", a "timeout")]));
  ("browser_wait_for_function", fun args id => with_args args "expression" (fun a =>
     [("id", JStr id); ("action", lit "waitforfunction");
      ("expression", a "expression"); ("timeout", a "timeout")]));
  ("browser_evaluate", fun args id => with_args args "script" (fun a =>
     [("id", JStr id); ("action", lit "evaluate"); ("script", a "script");
      ("args", a "args")]));
  ("browser_get_content", fun args id => with_args args "selector" (fun a =>
     [("id", JStr id); ("action", lit "content");
      ("selector", a "selector")]));
  ("browser_set_content", fun args id => with_args args "html" (fun a =>
     [("id", JStr id); ("action", lit "setcontent"); ("html", a "html")]));
  ("browser_pdf", fun args id => with_args args "path" (fun a =>
     [("id", JStr id); ("action", lit "pdf"); ("path", a "path");
      ("format", a "format")]));
  ("browser_tab_list", fun _ id => Ok
     [("id", JStr id); ("action", lit "tab_list")]);
  ("browser_tab_new", fun args id => with_args args "url" (fun a =>
     [("id", JStr id); ("action", lit "tab_new"); ("url", a "url")]));
  ("browser_tab_switch", fun args id => with_args args "index" (fun a =>
     [("id", JStr id); ("action", lit "tab_switch"); ("index", a "index")]));
  ("browser_tab_close", fun args id => with_args args "index" (fun a =>
     [("id", JStr id); ("action", lit "tab_close"); ("index", a "index")]));
  ("browser_window_new", fun args id => with_args args "viewport" (fun a =>
     [("id", JStr id); ("action", lit "window_new");
      ("viewport", a "viewport")]));
  ("browser_frame", fun args id => with_args args "selector" (fun a =>
     [("id", JStr id); ("action", lit "frame"); ("selector", a "selector");
      ("name", a "name"); ("url", a "url")]));
  ("browser_main_frame", fun _ id => Ok
     [("id", JStr id); ("action", lit "mainframe")]);
  ("browser_cookies_get", fun args id => with_args args "urls" (fun a =>
     [("id", JStr id); ("action", lit "cookies_get"); ("urls", a "urls")]));
  ("browser_cookies_set", fun args id => with_args args "cookies" (fun a =>
     [("id", JStr id); ("action", lit "cookies_set");
      ("cookies", a "cookies")]));
  ("browser_storage_get", fun args id => with_args args "type" (fun a =>
     [("id", JStr id); ("action", lit "storage_get"); ("type", a "type");
      ("key", a "key")]));
  ("browser_storage_set", fun args id => with_args args "type" (fun a =>
     [("id", JStr id); ("action", lit "storage_set"); ("type", a "type");
      ("key", a "key"); ("value", a "value")]));
  ("browser_storage_clear", fun args id => with_args args "type" (fun a =>
     [("id", JStr id); ("action", lit "storage_clear"); ("type", a "type")]));
  ("browser_set_viewport", fun args id => with_args args "width" (fun a =>
     [("id", JStr id); ("action", lit "viewport"); ("width", a "width");
      ("height", a "height")]));
  ("browser_set_device", fun args id => with_args args "device" (fun a =>
     [("id", JStr id); ("action", lit "device"); ("device", a "device")]));
  ("browser_set_geolocation", fun args id => with_args args "latitude" (fun a =>
     [("id", JStr id); ("action", lit "geolocation");
      ("latitude", a "latitude"); ("longitude", a "longitude");
      ("accuracy", a "accuracy")]));
  ("browser_set_offline", fun args id => with_args args "offline" (fun a =>
     [("id", JStr id); ("action", lit "offline"); ("offline", a "offline")]));
  ("browser_emulate_media", fun args id => with_args args "media" (fun a =>
     [("id", JStr id); ("action", lit "emulatemedia");
      ("media", null_if_literal (a "media"));
      ("colorScheme", null_if_literal (a "colorScheme"));
      ("reducedMotion", null_if_literal (a "reducedMotion"))]));
  ("browser_set_timezone", fun args id => with_args args "timezone" (fun a =>
     [("id", JStr id); ("action", lit "timezone");
      ("timezone", a "timezone")]));
  ("browser_set_locale", fun args id => with_args args "locale" (fun a =>
     [("id", JStr id); ("action", lit "locale"); ("locale", a "locale")]));
  ("browser_set_headers", fun args id => with_args args "headers" (fun a =>
     [("id", JStr id); ("action", lit "headers"); ("headers", a "headers")]));
  ("browser_set_credentials", fun args id => with_args args "username" (fun a =>
     [("id", JStr id); ("action", lit "credentials");
      ("username", a "username"); ("password", a "password")]));
  ("browser_network_route", fun args id => with_args args "url" (fun a =>
     [("id", JStr id); ("action", lit "route"); ("url", a "url");
      ("response", a "response"); ("abort", a "abort")]));
  ("browser_network_unroute", fun args id => with_args args "url" (fun a =>
     [("id", JStr id); ("action", lit "unroute"); ("url", a "url")]));
  ("browser_network_requests", fun args id => with_args args "filter" (fun a =>
     [("id", JStr id); ("action", lit "requests"); ("filter", a "filter");
      ("clear", a "clear")]));
  ("browser_wait_for_download", fun args id => with_args args "path" (fun a =>
     [("id", JStr id); ("action", lit "waitfordownload"); ("path", a "path");
      ("timeout", a "timeout")]));
  ("browser_download", fun args id => with_args args "selector" (fun a =>
     [("id", JStr id); ("action", lit "download");
      ("selector", a "selector"); ("path", a "path")]));
  ("browser_response_body", fun args id => with_args args "url" (fun a =>
     [("id", JStr id); ("action", lit "responsebody"); ("url", a "url");
      ("timeout", a "timeout")]));
  ("browser_dialog_accept", fun args id => with_args args "promptText" (fun a =>
     [("id", JStr id); ("action", lit "dialog"); ("response", lit "accept");
      ("promptText", a "promptText")]));
  ("browser_dialog_dismiss", fun _ id => Ok
     [("id", JStr id); ("action", lit "dialog");
      ("response", lit "dismiss")]);
  ("browser_console", fun args id => with_args args "clear" (fun a =>
     [("id", JStr id); ("action", lit "console"); ("clear", a "clear")]));
  ("browser_errors", fun args id => with_args args "clear" (fun a =>
     [("id", JStr id); ("action", lit "errors"); ("clear", a "clear")]));
  ("browser_trace_start", fun args id => with_args args "screenshots" (fun a =>
     [("id", JStr id); ("action", lit "trace_start");
      ("screenshots", a "screenshots"); ("snapshots", a "snapshots")]));
  ("browser_trace_stop", fun args id => with_args args "path" (fun a =>
     [("id", JStr id); ("action", lit "trace_stop"); ("path", a "path")]));
  ("browser_keyboard", fun args id => with_args args "keys" (fun a =>
     [("id", JStr id); ("action", lit "keyboard"); ("keys", a "keys")]));
  ("browser_key_down", fun args id => with_args args "key" (fun a =>
     [("id", JStr id); ("action", lit "keydown"); ("key", a "key")]));
  ("browser_key_up", fun args id => with_args args "key" (fun a =>
     [("id", JStr id); ("action", lit "keyup"); ("key", a "key")]));
  ("browser_mouse_move", fun args id => with_args args "x" (fun a =>
     [("id", JStr id); ("action", lit "mousemove"); ("x", a "x");
      ("y", a "y")]));
  ("browser_mouse_down", fun args id => with_args args "button" (fun a =>
     [("id", JStr id); ("action", lit "mousedown"); ("button", a "button")]));
  ("browser_mouse_up", fun args id => with_args args "button" (fun a =>
     [("id", JStr id); ("action", lit "mouseup"); ("button", a "button")]));
  ("browser_wheel", fun args id => with_args args "deltaX" (fun a =>
     [("id", JStr id); ("action", lit "wheel"); ("deltaX", a "deltaX");
      ("deltaY", a "deltaY"); ("selector", a "selector")]));
  ("browser_select_all", fun args id => with_args args "selector" (fun a =>
     [("id", JStr id); ("action", lit "selectall");
      ("selector", a "selector")]));
  ("browser_set_value", fun args id => with_args args "selector" (fun a =>
     [("id", JStr id); ("action", lit "setvalue");
      ("selector", a "selector"); ("value", a "value")]));
  ("browser_multiselect", fun args id => with_args args "selector" (fun a =>
     [("id", JStr id); ("action", lit "multiselect");
      ("selector", a "selector"); ("values", a "values")]));
  ("browser_dispatch_event", fun args id => with_args args "selector" (fun a =>
     [("id", JStr id); ("action", lit "dispatch");
      ("selector", a "selector"); ("event", a "event");
      ("eventInit", a "eventInit")]));
  ("browser_add_script", fun args id => with_args args "content" (fun a =>
     [("id", JStr id); ("action", lit "addscript"); ("content", a "content");
      ("url", a "url")]));
  ("browser_add_style", fun args id => with_args args "content" (fun a =>
     [("id", JStr id); ("action", lit "addstyle"); ("content", a "content");
      ("url", a "url")]));
  ("browser_add_init_script", fun args id => with_args args "script" (fun a =>
     [("id", JStr id); ("action", lit "addinitscript");
      ("script", a "script")]));
  ("browser_bring_to_front", fun _ id => Ok
     [("id", JStr id); ("action", lit "bringtofront")]);
  ("browser_screencast_start", fun args id => with_args args "format" (fun a =>
     [("id", JStr id); ("action", lit "screencast_start");
      ("format", a "format"); ("quality", a "quality");
      ("maxWidth", a "maxWidth"); ("maxHeight", a "maxHeight")]));
  ("browser_screencast_stop", fun _ id => Ok
     [("id", JStr id); ("action", lit "screencast_stop")]);
  ("browser_recording_start", fun args id => with_args args "path" (fun a =>
     [("id", JStr id); ("action", lit "recording_start"); ("path", a "path");
      ("url", a "url")]));
  ("browser_recording_stop", fun _ id => Ok
     [("id", JStr id); ("action", lit "recording_stop")]);
  ("browser_recording_restart", fun args id => with_args args "path" (fun a =>
     [("id", JStr id); ("action", lit "recording_restart");
      ("path", a "path"); ("url", a "url")]));
  ("browser_state_save", fun args id => with_args args "path" (fun a =>
     [("id", JStr id); ("action", lit "state_save"); ("path", a "path")]));
  ("browser_state_load", fun args id => with_args args "path" (fun a =>
     [("id", JStr id); ("action", lit "state_load"); ("path", a "path")]));
  ("browser_har_start", fun _ id => Ok
     [("id", JStr id); ("action", lit "har_start")]);
  ("browser_har_stop", fun args id => with_args args "path" (fun a =>
     [("id", JStr id); ("action", lit "har_stop"); ("path", a "path")]));
  ("browser_clipboard", fun args id => with_args args "operation" (fun a =>
     [("id", JStr id); ("action", lit "clipboard");
      ("operation", a "operation"); ("text", a "text")]));
  ("browser_close", fun _ id => Ok
     [("id", JStr id); ("action", lit "close")])
 ].

Fixpoint lookup_case (name : string)
         (cases : list (string * (JVal -> string -> Result Obj)))
  : option (JVal -> string -> Result Obj) :=
  match cases with
  | [] => None
  | (n, f) :: r => if String.eqb name n then Some f else lookup_case name r
  end.

Section Server.

Variable D : Type.
Variable ext : Externals D.

Notation "x <- c ;; k" := (bind c (fun x => k))
(at level 61, c at next level, right associativity).
Notation "c ;;; k" := (bind c (fun _ => k))
(at level 61, right associativity).

Definition getBrowser : M D Manager :=
cur <- read (@manager D) ;;
match cur with
| None =>
    b <- construct BrowserManager ;;
    set_manager (Some b) ;;;
    ret b
| Some b => ret b
end.

(** The launch command [ensureBrowserLaunched] passes to the browser. *)
Definition launch_options (headless : bool) (w : World D) : JVal :=
JObj [("id", JStr "mcp-launch");
      ("action", JStr "launch");
      ("headless", JBool headless);
      ("executablePath", env_value (AGENT_BROWSER_EXECUTABLE_PATH w))].

Definition ensureBrowserLaunched (headless : bool) : M D unit :=
b <- getBrowser ;;
launched <- isLaunched ext b ;;
if negb launched then
  opts <- read (launch_options headless) ;;
  launch ext b opts
else ret tt.

Definition launch_exempt_action (action : JVal) : bool :=
is_str action "launch" || is_str action "close"
|| is_str action "video_start" || is_str action "video_stop".

(** The first half of the [try] block of [execute]. *)
Definition execute_driver (command : Obj) (b : Manager) : M D Response :=
launched <- isLaunched ext b ;;
(if negb launched && negb (launch_exempt_action (jget command "action"))
 then ensureBrowserLaunched true
 else ret tt) ;;;
emit (EvExecute b command) ;;;
call (executeCommand ext command b).

(** The second half and the [catch] are the text of the merged
  server's. *)
Definition execute (command : Obj) : M D ToolResponse :=
b <- getBrowser ;;
try_catch
  (response <- execute_driver command b ;;
   lift (normalize ext command response))
  (@execute_catch D).

(** The [switch (name)]: every case returns [execute({ ... })] on its
  literal; [browser_navigate] launches first, with
  [args.headless !== false]; [browser_close] forgets the instance
  when [execute] has returned; the [default] answers
  [Unknown tool: <name>]. *)
Definition handleToolCall (name : string) (args : JVal) : M D ToolResponse :=
match lookup_case name command_cases with
| Some literal =>
    (if String.eqb name "browser_navigate" then
       headless <- lift (jprop args "headless") ;;
       ensureBrowserLaunched (is_not_false headless)
     else ret tt) ;;;
    id <- generateId ext ;;
    command <- lift (literal args id) ;;
    result <- execute command ;;
    (if String.eqb name "browser_close" then set_manager None
     else ret tt) ;;;
    ret result
| None =>
    ret (mkToolResponse [text_item (JStr ("Unknown tool: " ++ name))] false)
end.

(** The handler registered for [CallToolRequestSchema]. *)
Definition callToolHandler (name : string) (args : JVal)
: M D ToolResponse :=
try_catch (handleToolCall name args)
  (fun e =>
     lift (rbind (exn_message e) (fun msg =>
       Ok (mkToolResponse [text_item (JStr ("Error: " ++ msg))] true)))).

End Server.

End Legacy.

(** ** Vocabulary of the properties of the legacy server *)

(** The declared fields a legacy case does not forward under their own
    name with the caller's value: [headless] of [browser_navigate] is
    consumed by the launch, the fields of [browser_snapshot] are nested
    under [options], the [action] of a locator is forwarded as
    [subaction], the media features are converted. *)
Definition legacy_not_verbatim : list (string * string) :=
  [("browser_navigate", "headless");
   ("browser_snapshot", "interactiveOnly"); ("browser_snapshot", "compact");
   ("browser_snapshot", "depth"); ("browser_snapshot", "selector");
   ("browser_find_by_role", "action"); ("browser_find_by_text", "action");
   ("browser_find_by_label", "action");
   ("browser_find_by_placeholder", "action");
   ("browser_find_by_alt_text", "action");
   ("browser_find_by_title", "action");
   ("browser_find_by_test_id", "action"); ("browser_find_nth", "action");
   ("browser_emulate_media", "media");
   ("browser_emulate_media", "colorScheme");
   ("browser_emulate_media", "reducedMotion")].

(** The keys of a legacy command that are not named after a declared
    field. *)
Definition legacy_derived_keys : list string :=
  ["id"; "action"; "options"; "subaction"; "response"].

(** A launch of the legacy server in the environment of [w]: the
    [mcp-launch] command with the executable path of the environment
    ([undefined] when it is not set), headed only when [headed] allows
    it. *)
Definition legacy_launch {D} (headed : bool) (w : World D) (e : Event)
  : Prop :=
  exists b headless,
    e = EvLaunch b
          (JObj [("id", JStr "mcp-launch");
                 ("action", JStr "launch");
                 ("headless", JBool headless);
                 ("executablePath",
                  match AGENT_BROWSER_EXECUTABLE_PATH w with
                  | Some path => JStr path
                  | None => JUndefined
                  end)])
    /\ (headless = false -> headed = true).

(** [args.headless === false] on a [browser_navigate] call. *)
Definition navigates_headed (name : string) (args : JVal) : bool :=
  String.eqb name "browser_navigate"
  && match jprop args "headless" with
     | Ok (JBool false) => true
     | _ => false
     end.

(** The module-level [browser] of the legacy server is [b]. *)
Definition has_browser {D} (b : Manager) (w : World D) : Prop :=
  manager w = Some b.

(* ================================================================== *)
(** * Properties *)
(* ================================================================== *)

(** ** The scenarios of the specification, run on the mapper *)

Example map_click :
  mapMergedToolToCommand "browser_element_action"
    (JObj [("action", JStr "click"); ("selector", JStr "@e2")])
  = Ok [("action", JStr "click"); ("selector", JStr "@e2")].
Proof. reflexivity. Qed.

Example map_get_html :
  mapMergedToolToCommand "browser_get"
    (JObj [("property", JStr "html"); ("selector", JStr "#main")])
  = Ok [("action", JStr "content"); ("selector", JStr "#main")].
Proof. reflexivity. Qed.

Example map_history_reload :
  mapMergedToolToCommand "browser_history" (JObj [("action", JStr "reload")])
  = Ok [("action", JStr "reload")].
Proof. reflexivity. Qed.

Example map_history_no_arguments :
  mapMergedToolToCommand "browser_history" JUndefined
  = Throw (ErrorObj "Cannot read properties of undefined (reading 'action')").
Proof. reflexivity. Qed.

Example map_close_no_arguments :
  mapMergedToolToCommand "browser_close" JUndefined
  = Ok [("action", JStr "close")].
Proof. reflexivity. Qed.

(** ** Values *)

Lemma is_str_true (v : JVal) (s : string) :
  is_str v s = true -> v = JStr s.
Proof.
  destruct v; try discriminate. cbn. intros E.
  apply String.eqb_eq in E. now subst.
Qed.

(** ** Objects *)

Lemma oget_oset_same (o : Obj) (k : string) (v : JVal) :
  oget (oset o k v) k = Some v.
Proof.
  induction o as [|[k' v'] r IH]; simpl.
  - now rewrite String.eqb_refl.
  - destruct (String.eqb k k') eqn:E; simpl; rewrite E; auto.
Qed.

Lemma oget_oset_other (o : Obj) (k k' : string) (v : JVal) :
  k <> k' -> oget (oset o k' v) k = oget o k.
Proof.
  intros Hne. induction o as [|[k0 v0] r IH]; simpl.
  - destruct (String.eqb_spec k k'); congruence.
  - destruct (String.eqb_spec k' k0); simpl.
    + subst. destruct (String.eqb_spec k k0); congruence.
    + destruct (String.eqb_spec k k0); auto.
Qed.

Lemma oget_oset (o : Obj) (k k' : string) (v : JVal) :
  oget (oset o k' v) k = if String.eqb k k' then Some v else oget o k.
Proof.
  destruct (String.eqb_spec k k').
  - subst. apply oget_oset_same.
  - now apply oget_oset_other.
Qed.

Lemma jget_oset (o : Obj) (k k' : string) (v : JVal) :
  jget (oset o k' v) k = if String.eqb k k' then v else jget o k.
Proof.
  unfold jget. rewrite oget_oset. now destruct (String.eqb k k').
Qed.

Lemma oget_None_not_In (o : Obj) (k : string) :
  oget o k = None <-> ~ In k (map fst o).
Proof.
  induction o as [|[k' v'] r IH]; simpl.
  - tauto.
  - destruct (String.eqb_spec k k').
    + subst. split; [discriminate | tauto].
    + rewrite IH. split; intros H; [intros [E | Hin]; congruence | tauto].
Qed.

(** A spread leaves the keys it does not mention as they were. *)
Lemma oget_ospread_absent (base src : Obj) (k : string) :
  oget src k = None -> oget (ospread base src) k = oget base k.
Proof.
  unfold ospread. revert base.
  induction src as [|[k' v'] r IH]; intros base H; simpl in *.
  - reflexivity.
  - destruct (String.eqb_spec k k'); [discriminate|].
    rewrite IH by assumption. now apply oget_oset_other.
Qed.

(** On an object without duplicate keys, a spread binds each of its
    keys to its value. *)
Lemma oget_ospread (base src : Obj) (k : string) :
  unique_keys src ->
  oget (ospread base src) k
  = match oget src k with Some v => Some v | None => oget base k end.
Proof.
  unfold ospread, unique_keys. revert base.
  induction src as [|[k' v'] r IH]; intros base Hnd; simpl in *.
  - reflexivity.
  - inversion Hnd as [|? ? Hnotin Hnd']; subst.
    rewrite IH by assumption.
    destruct (String.eqb_spec k k').
    + subst. apply oget_None_not_In in Hnotin. rewrite Hnotin.
      apply oget_oset_same.
    + destruct (oget r k); [reflexivity|]. now apply oget_oset_other.
Qed.

(** ** Registry and mapper name the same tools *)

Lemma lookup_case_None (name : string) cases :
  lookup_case name cases = None
  <-> existsb (String.eqb name) (map fst cases) = false.
Proof.
  induction cases as [|[n f] r IH]; simpl.
  - tauto.
  - destruct (String.eqb name n); simpl; [split; discriminate | exact IH].
Qed.

Lemma existsb_eqb_In (name : string) (l : list string) :
  existsb (String.eqb name) l = true <-> In name l.
Proof.
  rewrite existsb_exists. split.
  - intros [x [Hin E]]. apply String.eqb_eq in E. now subst.
  - intros H. exists name. split; [assumption | apply String.eqb_refl].
Qed.

Lemma forallb_mem_incl (l1 l2 : list string) :
  forallb (fun x => mem_str x l2) l1 = true -> incl l1 l2.
Proof.
  rewrite forallb_forall. intros H x Hx.
  apply existsb_eqb_In. exact (H x Hx).
Qed.

Lemma mapper_names_registered :
  incl (map fst mapper_cases) tool_names
  /\ incl tool_names (map fst mapper_cases).
Proof. split; apply forallb_mem_incl; vm_compute; reflexivity. Qed.

(** A name has a case in the mapper exactly when the registry
    advertises it. *)
Lemma unregistered_has_no_case (name : string) :
  is_registered name = false <-> lookup_case name mapper_cases = None.
Proof.
  rewrite lookup_case_None. unfold is_registered.
  destruct mapper_names_registered as [H1 H2].
  split; intros H;
    (destruct (existsb (String.eqb name) _) eqn:E in |- *; [|reflexivity]);
    apply existsb_eqb_In in E;
    [apply H1 in E | apply H2 in E];
    apply existsb_eqb_In in E; congruence.
Qed.

(** ** Reducing a mapper call on a known tool name *)

(** Expose the case body selected by a literal tool name. *)
Ltac mapper_case :=
  unfold mapMergedToolToCommand, map_discriminant, mapper_cases;
  cbn [lookup_case String.eqb Ascii.eqb Bool.eqb with_args spread_case
       is_nullish own_props].

Ltac mapper_case_in H :=
  unfold mapMergedToolToCommand, map_discriminant, mapper_cases in H;
  cbn [lookup_case String.eqb Ascii.eqb Bool.eqb with_args spread_case
       is_nullish own_props] in H.

(** ** Unknown tool names *)

Lemma unknown_tool_throws (name : string) (args : JVal) :
  is_registered name = false ->
  mapMergedToolToCommand name args
  = Throw (ErrorObj ("Unknown merged tool: " ++ name)).
Proof.
  intros H. apply unregistered_has_no_case in H.
  unfold mapMergedToolToCommand. now rewrite H.
Qed.

(** C6 (as the code has it).  For every tool name that is not in the
    advertised registry the mapper throws, nothing is executed and the
    world is left as it was (no command is made up for the name), and
    the call-tool handler answers [isError: true] with the single text
    item [Error: Unknown merged tool: <name>]. *)
Theorem unknown_tool_is_error :
  forall D (ext : Externals D) (name : string) (args : JVal) (w : World D),
    is_registered name = false ->
    mapMergedToolToCommand name args
    = Throw (ErrorObj ("Unknown merged tool: " ++ name))
    /\ callToolHandler ext name args w
       = (Ok (mkToolResponse
                [text_item (JStr ("Error: Unknown merged tool: " ++ name))]
                true),
          w).
Proof.
  intros D ext name args w H.
  pose proof (unknown_tool_throws name args H) as Hthrow.
  split; [exact Hthrow|].
  unfold callToolHandler, try_catch, handleToolCall, bind, lift.
  rewrite Hthrow. reflexivity.
Qed.

Lemma unknown_tool_is_error_witness :
  is_registered "browser_foo" = false
  /\ callToolHandler ref_driver "browser_foo" (JObj [])
                     (initial_world None None [])
     = (Ok (mkToolResponse
              [text_item (JStr "Error: Unknown merged tool: browser_foo")]
              true),
        initial_world None None []).
Proof.
  split; [reflexivity|].
  apply (unknown_tool_is_error ref_driver "browser_foo" (JObj [])
           (initial_world None None [])).
  reflexivity.
Defined.

(** C6 (as stated) fails: the text for the unknown name [browser_foo]
    is [Error: Unknown merged tool: browser_foo], in which
    [Unknown tool] does not occur. *)
Lemma unknown_tool_text_counterexample :
  is_registered "browser_foo" = false
  /\ exists r w',
      callToolHandler ref_driver "browser_foo" (JObj [])
                      (initial_world None None []) = (Ok r, w')
      /\ isError r = true
      /\ content r
         = [text_item (JStr "Error: Unknown merged tool: browser_foo")]
      /\ contains "Unknown tool" "Error: Unknown merged tool: browser_foo"
         = false.
Proof.
  split; [reflexivity|].
  eexists; eexists. split; [reflexivity|].
  repeat split; reflexivity.
Qed.

(** ** Media emulation through [browser_set_context] *)

(** C3 (as the code has it).  With [setting: "media"] the mapper
    returns an [emulate_media] command that carries [colorScheme]
    exactly as supplied when it is defined, and no [colorScheme] field
    when it is not; nothing is converted. *)
Theorem media_colorScheme_forwarded :
  forall o : Obj,
    jget o "setting" = JStr "media" ->
    exists cmd,
      mapMergedToolToCommand "browser_set_context" (JObj o) = Ok cmd
      /\ jget cmd "action" = JStr "emulate_media"
      /\ oget cmd "colorScheme"
         = if is_undefined (jget o "colorScheme") then None
           else Some (jget o "colorScheme").
Proof.
  intros o Hs. eexists. split.
  - mapper_case. rewrite Hs. cbn [is_str String.eqb Ascii.eqb Bool.eqb].
    reflexivity.
  - unfold copy.
    destruct (is_undefined (jget o "media"));
      destruct (is_undefined (jget o "colorScheme"));
      destruct (is_undefined (jget o "reducedMotion"));
      split; unfold jget; repeat rewrite oget_oset; reflexivity.
Qed.

Lemma media_colorScheme_forwarded_witness :
  exists cmd,
    mapMergedToolToCommand "browser_set_context"
      (JObj [("setting", JStr "media"); ("colorScheme", JStr "null")]) = Ok cmd
    /\ jget cmd "action" = JStr "emulate_media"
    /\ oget cmd "colorScheme" = Some (JStr "null").
Proof.
  apply (media_colorScheme_forwarded
           [("setting", JStr "media"); ("colorScheme", JStr "null")]).
  reflexivity.
Defined.

(** C3 (as stated) fails: for [{setting: "media", colorScheme: "null"}]
    the command carries the string ["null"], not the literal [null];
    it does differ from the command without [colorScheme]. *)
Lemma media_null_counterexample :
  mapMergedToolToCommand "browser_set_context"
    (JObj [("setting", JStr "media"); ("colorScheme", JStr "null")])
  = Ok [("action", JStr "emulate_media"); ("colorScheme", JStr "null")]
  /\ oget [("action", JStr "emulate_media"); ("colorScheme", JStr "null")]
          "colorScheme" <> Some JNull
  /\ mapMergedToolToCommand "browser_set_context"
       (JObj [("setting", JStr "media")])
     = Ok [("action", JStr "emulate_media")].
Proof.
  split; [reflexivity|]. split; [discriminate | reflexivity].
Qed.

(** ** Optional fields *)

Lemma oget_copy (a : string -> JVal) (k f : string) (cmd : Obj) :
  oget (copy a k cmd) f
  = if String.eqb f k
    then (if is_undefined (a k) then oget cmd f else Some (a k))
    else oget cmd f.
Proof.
  unfold copy. destruct (is_undefined (a k)).
  - now destruct (String.eqb f k).
  - apply oget_oset.
Qed.

Lemma oget_copy_as (a : string -> JVal) (from k f : string) (cmd : Obj) :
  oget (copy_as a from k cmd) f
  = if String.eqb f k
    then (if is_undefined (a from) then oget cmd f else Some (a from))
    else oget cmd f.
Proof.
  unfold copy_as. destruct (is_undefined (a from)).
  - now destruct (String.eqb f k).
  - apply oget_oset.
Qed.







(** Each field excepted above by design does appear on a command made
    from a bag without it. *)
Lemma unconditional_fields_appear :
  forall name f v,
    In (name, f, v) unconditional_at -> ~ omits_absent name f.
Proof.
  intros name f v Hin H.
  assert (Hp : present_at name f v = true).
  { vm_compute in Hin.
    repeat (destruct Hin as [Hin | Hin];
            [injection Hin as <- <- <-; reflexivity|]).
    contradiction. }
  unfold present_at in Hp.
  destruct (discriminant_field name) as [d|]; [|discriminate].
  apply andb_prop in Hp. destruct Hp as [Hd Hp].
  unfold map_discriminant in Hp.
  destruct (mapMergedToolToCommand name (JObj [(d, JStr v)])) as [cmd|]
    eqn:Hc; [|discriminate].
  specialize (H [(d, JStr v)] cmd).
  cbn [oget] in H. rewrite String.eqb_sym in Hd.
  destruct (String.eqb f d); [discriminate|].
  rewrite (H eq_refl Hc) in Hp. discriminate.
Qed.

Lemma unconditional_at_covers :
  forallb (fun p => mem_pair p (("browser_logs", "clear")
                                  :: map fst unconditional_at))
          unconditional_fields = true
  /\ forallb (fun q => mem_pair (fst q) unconditional_fields)
             unconditional_at = true.
Proof. split; vm_compute; reflexivity. Qed.

(** The fields excepted above are declared optional by the registry. *)
Lemma unconditional_fields_are_optional :
  forallb (fun p =>
             match find_tool (fst p) with
             | Some t => mem_str (snd p) (optional_fields t)
             | None => false
             end) unconditional_fields = true.
Proof. vm_compute. reflexivity. Qed.


(** ** What determines the action of a command *)

Lemma jget_by_oget (c1 c2 : Obj) (k : string) :
  oget c1 k = oget c2 k -> jget c1 k = jget c2 k.
Proof. unfold jget. now intros ->. Qed.

(** Decide the lookup of a literal key on both sides of an equation
    between commands built by the same case body. *)
Ltac action_step :=
  first
    [ rewrite oget_copy
    | rewrite oget_oset
    | progress cbn [oget is_undefined]
    | match goal with
      | |- context [if is_str ?a ?b then _ else _] =>
          destruct (is_str a b) eqn:?
      | |- context [String.eqb ?a ?b] =>
          destruct (String.eqb_spec a b); [try discriminate | try congruence]
      | |- context [if ?c then _ else _] => destruct c eqn:?
      end ].

Ltac same_action :=
  let o1 := fresh "o1" in
  let o2 := fresh "o2" in
  let H := fresh "H" in
  intros o1 o2 H;
  mapper_case; cbn [action_of]; f_equal; apply jget_by_oget;
  repeat match goal with
         | |- context [jget o1 ?d] => rewrite (H d ltac:(cbn; tauto))
         end;
  repeat action_step; try reflexivity; try congruence.

(** C10 (as the code has it).  Each spread-mapped tool has an argument
    bag with an [action] key whose value becomes the command's action
    in place of the canonical one.  For every other registered tool the
    command's action is a function of the tool name and of the
    arguments of [action_inputs]: the discriminant of the tool, and for
    [browser_find] its [method], [action] and [value]. *)
Theorem action_override_and_determination :
  (forall name, In name spread_tools ->
     exists (o : Obj) (v : JVal),
       oget o "action" = Some v
       /\ action_of (mapMergedToolToCommand name (JObj o)) = Some v
       /\ action_of (mapMergedToolToCommand name (JObj [])) <> Some v)
  /\ (forall name, In name tool_names -> ~ In name spread_tools ->
        action_determined_by name (action_inputs name)).
Proof.
  split.
  - intros name Hin.
    exists [("action", JStr "evaluate")], (JStr "evaluate").
    cbn in Hin.
    repeat (destruct Hin as [<- | Hin];
            [split; [reflexivity | split; [reflexivity | discriminate]]|]).
    contradiction.
  - intros name Hin Hns.
    vm_compute in Hin.
    repeat (destruct Hin as [<- | Hin];
            [first [ exfalso; apply Hns; cbn; tauto
                   | clear Hns; unfold action_determined_by;
                     cbn [action_inputs discriminant_field mem_str existsb
                          String.eqb Ascii.eqb Bool.eqb orb];
                     same_action ]
            |]).
    contradiction.
Qed.

Lemma action_override_and_determination_witness :
  (exists (o : Obj) (v : JVal),
      oget o "action" = Some v
      /\ action_of (mapMergedToolToCommand "browser_close" (JObj o)) = Some v
      /\ action_of (mapMergedToolToCommand "browser_close" (JObj [])) <> Some v)
  /\ action_determined_by "browser_get" ["property"].
Proof.
  destruct action_override_and_determination as [Hspread Hother].
  split.
  - apply Hspread. cbn. tauto.
  - apply (Hother "browser_get").
    + vm_compute. tauto.
    + cbn. intuition discriminate.
Defined.

(** C10 (as stated) fails at [browser_find]: two bags with the same
    [method] get different actions, one of them the caller's [action]
    value. *)
Lemma find_action_counterexample :
  In "browser_find" tool_names
  /\ ~ In "browser_find" spread_tools
  /\ discriminant_field "browser_find" = Some "method"
  /\ ~ action_determined_by "browser_find" ["method"].
Proof.
  split; [vm_compute; tauto|].
  split; [cbn; intuition discriminate|].
  split; [reflexivity|].
  intros H.
  specialize (H [("method", JStr "role"); ("value", JStr "button")]
                [("method", JStr "role"); ("value", JStr "button");
                 ("action", JStr "close")]).
  assert (Hd : forall d, In d ["method"] ->
                jget [("method", JStr "role"); ("value", JStr "button")] d
                = jget [("method", JStr "role"); ("value", JStr "button");
                        ("action", JStr "close")] d).
  { intros d [<- | []]. reflexivity. }
  specialize (H Hd). discriminate H.
Qed.
(** ** Schema enums and mapper branches *)

Lemma find_tool_In (name : string) (t : Tool) :
  find_tool name = Some t -> In t MERGED_TOOLS.
Proof. intros H. exact (proj1 (find_some _ _ H)). Qed.

(** *** Lookup tables *)




(** *** Reducing a call on a discriminant value *)










(** *** The action of every declared value *)


(** *** Values that are not declared *)







(** *** Declared values with a branch of their own *)



(** *** Declared values resolved after conversion *)




(** *** Forwarded discriminants *)





(** ** The state monad *)

Section WorldFacts.

Variable D : Type.
Variable ext : Externals D.

Lemma keeps_ret {A X} (f : World D -> X) (a : A) : keeps f (ret a).
Proof. intros w. reflexivity. Qed.

Lemma keeps_lift {A X} (f : World D -> X) (r : Result A) : keeps f (lift r).
Proof. intros w. reflexivity. Qed.

Lemma keeps_read {A X} (f : World D -> X) (g : World D -> A) :
  keeps f (read g).
Proof. intros w. reflexivity. Qed.

Lemma keeps_bind {A B X} (f : World D -> X) (c : M D A) (k : A -> M D B) :
  keeps f c -> (forall a, keeps f (k a)) -> keeps f (bind c k).
Proof.
  intros Hc Hk w. unfold bind. specialize (Hc w).
  destruct (c w) as [[a|e] w']; simpl in *.
  - now rewrite Hk.
  - exact Hc.
Qed.

Lemma keeps_try_catch {A X} (f : World D -> X) (c : M D A)
      (h : Exn -> M D A) :
  keeps f c -> (forall e, keeps f (h e)) -> keeps f (try_catch c h).
Proof.
  intros Hc Hh w. unfold try_catch. specialize (Hc w).
  destruct (c w) as [[a|e] w']; simpl in *.
  - exact Hc.
  - now rewrite Hh.
Qed.

Lemma keeps_if {A X} (f : World D -> X) (b : bool) (c1 c2 : M D A) :
  keeps f c1 -> keeps f c2 -> keeps f (if b then c1 else c2).
Proof. now destruct b. Qed.

(** *** What leaves the launches alone *)

Lemma launch_events_app (l1 l2 : list Event) :
  launch_events (l1 ++ l2) = (launch_events l1 ++ launch_events l2)%list.
Proof. apply filter_app. Qed.

Lemma launches_call {A} (g : D -> Result A * D) : keeps (@launches D) (call g).
Proof. intros w. unfold call. now destruct (g (driver w)). Qed.

Lemma launches_emit (e : Event) :
  is_launch_event e = false -> keeps (@launches D) (emit e).
Proof.
  intros He w. unfold launches. simpl.
  rewrite launch_events_app. simpl. rewrite He. apply app_nil_r.
Qed.

Lemma launches_set_manager (m : option Manager) :
  keeps (@launches D) (set_manager m).
Proof. intros w. reflexivity. Qed.

Lemma launches_construct (k : ManagerKind) :
  keeps (@launches D) (construct k).
Proof.
  intros w. unfold launches. simpl.
  rewrite launch_events_app. apply app_nil_r.
Qed.

Lemma launches_generateId : keeps (@launches D) (generateId ext).
Proof. intros w. reflexivity. Qed.

Lemma launches_close (m : Manager) : keeps (@launches D) (close ext m).
Proof.
  unfold close. apply keeps_bind.
  - now apply launches_emit.
  - intros _. apply launches_call.
Qed.

Lemma launches_getManager (p : JVal) :
  keeps (@launches D) (getManager ext p).
Proof.
  unfold getManager, isIOSProvider.
  apply keeps_bind; [apply keeps_read|]. intros ios.
  apply keeps_bind; [apply keeps_read|]. intros [m0|].
  - apply keeps_if; [|apply keeps_ret].
    apply keeps_bind.
    { unfold swallow. apply keeps_try_catch; [apply launches_close|].
      intros _. apply keeps_ret. }
    intros _. apply keeps_bind; [apply launches_construct|]. intros m.
    apply keeps_bind; [apply launches_set_manager|]. intros _.
    apply keeps_ret.
  - apply keeps_bind; [apply launches_construct|]. intros m.
    apply keeps_bind; [apply launches_set_manager|]. intros _.
    apply keeps_ret.
Qed.

(** An exempt action passes the auto-launch gate of [execute]. *)
Lemma launches_execute_exempt (cmd : Obj) :
  launch_exempt_action (jget cmd "action") = true ->
  keeps (@launches D) (execute ext cmd).
Proof.
  intros Hex. unfold execute.
  apply keeps_bind; [apply launches_getManager|]. intros m.
  apply keeps_try_catch; [|intros e; apply keeps_lift].
  apply keeps_bind; [|intros r; apply keeps_lift].
  unfold execute_driver.
  apply keeps_bind; [apply launches_call|]. intros launched.
  rewrite Hex, andb_false_r.
  apply keeps_bind; [apply keeps_ret|]. intros _.
  apply keeps_bind; [now apply launches_emit|]. intros _.
  apply keeps_if; apply launches_call.
Qed.

(** *** The shape of [getManager] *)

Lemma getManager_same_kind (p : JVal) (w : World D) (cur : Manager) :
  manager w = Some cur ->
  wants_ios w p = is_ios_manager cur ->
  getManager ext p w = (Ok cur, w).
Proof.
  intros Hm Hk. unfold getManager, isIOSProvider, bind, read, ret.
  fold (wants_ios w p). rewrite Hm, Hk, Bool.eqb_reflx. reflexivity.
Qed.

Lemma getManager_switch (p : JVal) (w : World D) (cur : Manager) :
  manager w = Some cur ->
  wants_ios w p <> is_ios_manager cur ->
  getManager ext p w
  = (Ok (mkManager (next_id w) (kind_for (wants_ios w p))),
     mkWorld (Some (mkManager (next_id w) (kind_for (wants_ios w p))))
             (S (next_id w)) (random_calls w)
             (AGENT_BROWSER_PROVIDER w) (AGENT_BROWSER_EXECUTABLE_PATH w)
             (snd (drv_close ext cur (driver w)))
             (log w ++ [EvClose cur;
                        EvNew (mkManager (next_id w)
                                         (kind_for (wants_ios w p)))])).
Proof.
  intros Hm Hk.
  unfold getManager, isIOSProvider, bind, read, ret, swallow, try_catch,
    close, emit, call, construct, set_manager.
  fold (wants_ios w p). rewrite Hm.
  apply Bool.eqb_false_iff in Hk. rewrite Hk. cbn [negb].
  cbn.
  destruct (drv_close ext cur (driver w)) as [[[]|e] d'];
    cbn; rewrite <- app_assoc; reflexivity.
Qed.

Lemma getManager_first (p : JVal) (w : World D) :
  manager w = None ->
  getManager ext p w
  = (Ok (mkManager (next_id w) (kind_for (wants_ios w p))),
     mkWorld (Some (mkManager (next_id w) (kind_for (wants_ios w p))))
             (S (next_id w)) (random_calls w)
             (AGENT_BROWSER_PROVIDER w) (AGENT_BROWSER_EXECUTABLE_PATH w)
             (driver w)
             (log w ++ [EvNew (mkManager (next_id w)
                                         (kind_for (wants_ios w p)))])).
Proof.
  intros Hm.
  unfold getManager, isIOSProvider, bind, read, ret, construct, set_manager.
  fold (wants_ios w p). rewrite Hm. reflexivity.
Qed.

(** [getManager] always returns a manager. *)
Lemma getManager_total (p : JVal) (w : World D) :
  exists m w', getManager ext p w = (Ok m, w').
Proof.
  destruct (manager w) as [cur|] eqn:Hm.
  - destruct (Bool.bool_dec (wants_ios w p) (is_ios_manager cur)) as [E|N].
    + exists cur, w. now apply getManager_same_kind.
    + eexists; eexists. apply getManager_switch; eassumption.
  - eexists; eexists. apply getManager_first; assumption.
Qed.

End WorldFacts.

(** ** The commands handed to the driver *)

Section Executed.

Variable D : Type.
Variable ext : Externals D.

Lemma executed_commands_app (l1 l2 : list Event) :
  executed_commands (l1 ++ l2)
  = (executed_commands l1 ++ executed_commands l2)%list.
Proof. apply flat_map_app. Qed.

Lemma executed_call {A} (g : D -> Result A * D) :
  keeps (@executed D) (call g).
Proof. intros w. unfold call. now destruct (g (driver w)). Qed.

Lemma executed_emit (e : Event) :
  executed_commands [e] = [] -> keeps (@executed D) (emit e).
Proof.
  intros He w. unfold executed. simpl.
  rewrite executed_commands_app, He. apply app_nil_r.
Qed.

Lemma executed_construct (k : ManagerKind) :
  keeps (@executed D) (construct k).
Proof.
  intros w. unfold executed. simpl.
  rewrite executed_commands_app. apply app_nil_r.
Qed.

Lemma executed_close (m : Manager) : keeps (@executed D) (close ext m).
Proof.
  unfold close. apply keeps_bind.
  - now apply executed_emit.
  - intros _. apply executed_call.
Qed.

Lemma executed_launch (m : Manager) (opts : JVal) :
  keeps (@executed D) (launch ext m opts).
Proof.
  unfold launch. apply keeps_bind.
  - now apply executed_emit.
  - intros _. apply executed_call.
Qed.

Lemma executed_getManager (p : JVal) :
  keeps (@executed D) (getManager ext p).
Proof.
  unfold getManager, isIOSProvider.
  apply keeps_bind; [apply keeps_read|]. intros ios.
  apply keeps_bind; [apply keeps_read|]. intros [m0|].
  - apply keeps_if; [|apply keeps_ret].
    apply keeps_bind.
    { unfold swallow. apply keeps_try_catch; [apply executed_close|].
      intros _. apply keeps_ret. }
    intros _. apply keeps_bind; [apply executed_construct|]. intros m.
    apply keeps_bind; [intros w; reflexivity|]. intros _.
    apply keeps_ret.
  - apply keeps_bind; [apply executed_construct|]. intros m.
    apply keeps_bind; [intros w; reflexivity|]. intros _.
    apply keeps_ret.
Qed.

Lemma executed_ensureBrowserLaunched (headless : bool) :
  keeps (@executed D) (ensureBrowserLaunched ext headless).
Proof.
  unfold ensureBrowserLaunched.
  apply keeps_bind; [apply executed_getManager|]. intros m.
  apply keeps_bind; [apply executed_call|]. intros launched.
  apply keeps_if; [|apply keeps_ret].
  apply keeps_if; [apply executed_launch|].
  apply keeps_bind; [apply keeps_read|]. intros opts.
  apply executed_launch.
Qed.

Lemma executes_keeps {A} (c : Obj) (comp : M D A) :
  keeps (@executed D) comp -> executes_at_most c comp.
Proof. intros H w. left. apply H. Qed.

Lemma executes_after {A B} (c : Obj) (c1 : M D A) (k : A -> M D B) :
  keeps (@executed D) c1 ->
  (forall a, executes_at_most c (k a)) ->
  executes_at_most c (bind c1 k).
Proof.
  intros H1 Hk w. unfold bind. specialize (H1 w).
  destruct (c1 w) as [[a|e] w']; simpl in *.
  - rewrite <- H1. apply Hk.
  - now left.
Qed.

Lemma executes_before {A B} (c : Obj) (c1 : M D A) (k : A -> M D B) :
  executes_at_most c c1 ->
  (forall a, keeps (@executed D) (k a)) ->
  executes_at_most c (bind c1 k).
Proof.
  intros H1 Hk w. unfold bind. specialize (H1 w).
  destruct (c1 w) as [[a|e] w']; simpl in *.
  - now rewrite Hk.
  - exact H1.
Qed.

Lemma executes_emit (m : Manager) (c : Obj) :
  executes_at_most c (@emit D (EvExecute m c)).
Proof.
  intros w. right. unfold executed. simpl. apply executed_commands_app.
Qed.

Lemma executes_execute_driver (c : Obj) (m : Manager) :
  executes_at_most c (execute_driver ext c m).
Proof.
  unfold execute_driver.
  apply executes_after; [apply executed_call|]. intros launched.
  apply executes_after.
  { apply keeps_if; [apply executed_ensureBrowserLaunched | apply keeps_ret]. }
  intros _.
  apply executes_before; [apply executes_emit|]. intros _.
  apply keeps_if; apply executed_call.
Qed.

(** [execute] hands its command, and nothing else, to the driver. *)
Lemma executes_execute (c : Obj) : executes_at_most c (execute ext c).
Proof.
  unfold execute.
  apply executes_after; [apply executed_getManager|]. intros m w.
  unfold try_catch.
  pose proof (@executes_before _ _ c (execute_driver ext c m)
                (fun response => lift (normalize ext c response))
                (executes_execute_driver c m)
                (fun r => keeps_lift _ _) w) as H.
  destruct (bind (execute_driver ext c m) _ w) as [[r|e] w']; exact H.
Qed.

(** The command [handleToolCall] hands to the driver is the mapper's,
    with [id] set to the identifier drawn for this call. *)
Lemma handleToolCall_sets_id (name : string) (args : JVal) (cmd : Obj)
      (w : World D) :
  mapMergedToolToCommand name args = Ok cmd ->
  executed (snd (handleToolCall ext name args w)) = executed w
  \/ executed (snd (handleToolCall ext name args w))
     = (executed w
          ++ [oset cmd "id" (JStr (random_id ext (random_calls w)))])%list.
Proof.
  intros Hc. unfold handleToolCall.
  unfold bind at 1, lift. rewrite Hc.
  unfold bind at 1, generateId.
  match goal with
  | |- context [bind ?c1 ?k ?w1] =>
      exact (@executes_after _ _
               (oset cmd "id" (JStr (random_id ext (random_calls w))))
               c1 k
               ltac:(apply keeps_if;
                     [apply executed_ensureBrowserLaunched
                     | apply keeps_ret])
               (fun _ => executes_execute _) w1)
  end.
Qed.

End Executed.

(** ** Provider switching *)

Lemma is_ios_manager_kind_for (n : nat) (b : bool) :
  is_ios_manager (mkManager n (kind_for b)) = b.
Proof. now destruct b. Qed.

(** C4 (as the code has it).  The manager is replaced exactly when the
    kind asked for, iOS or not, differs from the kind of the current
    instance, where the kind asked for is that of the requested
    provider or, when none is requested, of [AGENT_BROWSER_PROVIDER].
    On a difference the old instance is closed (whatever [close] does,
    also when it throws), a fresh instance of the other kind is
    constructed, stored and returned; asking for the first kind again
    closes that one and constructs yet another instance, never the
    first.  Without a difference the current instance is returned and
    nothing changes. *)
Theorem getManager_switch_by_kind :
  forall D (ext : Externals D) (w : World D) (p : JVal) (cur : Manager),
    wf_world w ->
    manager w = Some cur ->
    (wants_ios w p = is_ios_manager cur ->
     getManager ext p w = (Ok cur, w))
    /\ (wants_ios w p <> is_ios_manager cur ->
        exists fresh w',
          getManager ext p w = (Ok fresh, w')
          /\ m_kind fresh = kind_for (wants_ios w p)
          /\ m_id fresh <> m_id cur
          /\ manager w' = Some fresh
          /\ log w' = (log w ++ [EvClose cur; EvNew fresh])%list
          /\ forall p',
              wants_ios w' p' = is_ios_manager cur ->
              exists again w'',
                getManager ext p' w' = (Ok again, w'')
                /\ m_id again <> m_id cur
                /\ m_id again <> m_id fresh
                /\ manager w'' = Some again
                /\ log w'' = (log w' ++ [EvClose fresh; EvNew again])%list).
Proof.
  intros D ext w p cur Hwf Hm. split.
  - intros Hk. now apply getManager_same_kind.
  - intros Hk. pose proof (Hwf cur Hm) as Hlt.
    eexists; eexists. split; [apply getManager_switch; eassumption|].
    cbn [m_kind m_id manager log].
    repeat split; try lia.
    intros p' Hk'.
    eexists; eexists. split.
    + apply getManager_switch; [reflexivity|].
      cbn [manager] in *. rewrite Hk', is_ios_manager_kind_for.
      congruence.
    + cbn [m_kind m_id manager log next_id]. repeat split; lia.
Qed.

Lemma getManager_switch_by_kind_witness :
  exists fresh w',
    getManager broken_driver (JStr "ios")
               (mkWorld (Some (mkManager 0 BrowserManager)) 1 0 None None tt
                        [EvNew (mkManager 0 BrowserManager)])
    = (Ok fresh, w')
    /\ m_kind fresh = IOSManager
    /\ m_id fresh <> 0
    /\ manager w' = Some fresh
    /\ log w' = [EvNew (mkManager 0 BrowserManager);
                 EvClose (mkManager 0 BrowserManager); EvNew fresh].
Proof.
  destruct (@getManager_switch_by_kind
              unit broken_driver
              (mkWorld (Some (mkManager 0 BrowserManager)) 1 0 None None tt
                       [EvNew (mkManager 0 BrowserManager)])
              (JStr "ios") (mkManager 0 BrowserManager))
    as [_ Hswitch].
  - intros m E. injection E as <-. cbn. lia.
  - reflexivity.
  - destruct Hswitch as (fresh & w' & Hg & Hk & Hid & Hm & Hl & _).
    + cbn. discriminate.
    + exists fresh, w'. repeat split; assumption.
Defined.

(** C4 (as stated) fails: [browserbase] and [kernel] are distinct
    providers, yet a request for [kernel] on the session made for
    [browserbase] returns that very instance, and nothing is closed or
    constructed. *)
Lemma provider_switch_counterexample :
  "browserbase" <> "kernel"
  /\ exists m w1,
      getManager ref_driver (JStr "browserbase") (initial_world None None [])
      = (Ok m, w1)
      /\ getManager ref_driver (JStr "kernel") w1 = (Ok m, w1).
Proof.
  split; [discriminate|].
  eexists; eexists. split; reflexivity.
Qed.

(** ** Launch-exempt operations *)

Section Exempt.

Variable D : Type.
Variable ext : Externals D.

Lemma keeps_bind_lift {A B X} (f : World D -> X) (r : Result A)
      (k : A -> M D B) :
  (forall a, r = Ok a -> keeps f (k a)) -> keeps f (bind (lift r) k).
Proof.
  intros H w. unfold bind, lift. destruct r as [a|e]; [|reflexivity].
  now apply H.
Qed.

Lemma snd_callToolHandler (name : string) (args : JVal) (w : World D) :
  snd (callToolHandler ext name args w) = snd (handleToolCall ext name args w).
Proof.
  unfold callToolHandler, try_catch.
  now destruct (handleToolCall ext name args w) as [[r|e] w'].
Qed.

(** A tool that is exempt by name and mapped to an exempt action is
    handled without a launch. *)
Lemma launches_handle_exempt (name : string) (args : JVal) :
  launch_exempt_tool name = true ->
  (forall cmd, mapMergedToolToCommand name args = Ok cmd ->
               launch_exempt_action (jget cmd "action") = true) ->
  keeps (@launches D) (handleToolCall ext name args).
Proof.
  intros Hn Ha. unfold handleToolCall.
  apply keeps_bind_lift. intros cmd Hc.
  apply keeps_bind; [apply launches_generateId|]. intros id.
  rewrite Hn. cbn [negb].
  apply keeps_bind; [apply keeps_ret|]. intros _.
  apply launches_execute_exempt.
  rewrite jget_oset. cbn. now apply Ha.
Qed.

End Exempt.

Lemma spread_action_kept (canonical : string) (args : JVal) (cmd : Obj) :
  oget (own_props args) "action" = None ->
  spread_case canonical args = Ok cmd ->
  jget cmd "action" = JStr canonical.
Proof.
  intros Habs Hc. unfold spread_case in Hc. injection Hc as <-.
  unfold jget. now rewrite oget_ospread_absent.
Qed.

(** C2 (as the code has it).  A command whose action is [launch],
    [close], [device_list], [video_start] or [video_stop] passes
    [execute] without a [launch] of the manager.  Handling
    [browser_ios_device_list], with any arguments, and handling
    [browser_launch] or [browser_close] with arguments that have no
    [action] key, launches nothing. *)
Theorem exempt_operations_do_not_launch :
  forall D (ext : Externals D) (w : World D),
    (forall cmd,
        launch_exempt_action (jget cmd "action") = true ->
        launches (snd (execute ext cmd w)) = launches w)
    /\ (forall args, no_implicit_launch ext "browser_ios_device_list" args w)
    /\ (forall name args,
          name = "browser_launch" \/ name = "browser_close" ->
          oget (own_props args) "action" = None ->
          no_implicit_launch ext name args w).
Proof.
  intros D ext w. split; [|split].
  - intros cmd Hex. now apply launches_execute_exempt.
  - intros args. unfold no_implicit_launch. rewrite snd_callToolHandler.
    apply (launches_handle_exempt ext "browser_ios_device_list" args);
      [reflexivity|].
    intros cmd Hc. mapper_case_in Hc. now injection Hc as <-.
  - intros name args Hname Habs. unfold no_implicit_launch.
    rewrite snd_callToolHandler.
    apply (launches_handle_exempt ext name args).
    + now destruct Hname as [-> | ->].
    + intros cmd Hc.
      destruct Hname as [-> | ->].
      * change (spread_case "launch" args = Ok cmd) in Hc.
        now rewrite (spread_action_kept Habs Hc).
      * change (spread_case "close" args = Ok cmd) in Hc.
        now rewrite (spread_action_kept Habs Hc).
Qed.

Lemma exempt_operations_do_not_launch_witness :
  launches (snd (execute ref_driver [("action", JStr "video_start")]
                         (initial_world None None [])))
  = []
  /\ no_implicit_launch ref_driver "browser_close"
                        (JObj []) (initial_world None None []).
Proof.
  destruct (exempt_operations_do_not_launch
              ref_driver (initial_world None None []))
    as (Hexec & _ & Hname).
  split.
  - apply (Hexec [("action", JStr "video_start")]). reflexivity.
  - apply Hname; [now right | reflexivity].
Defined.

(** C2 (as stated) fails for the recording calls: handling
    [browser_recording] with [action: "start"], or with
    [action: "stop"], on a process that has launched nothing launches
    the browser before the command runs. *)
Lemma recording_start_launches :
  mapMergedToolToCommand "browser_recording" (JObj [("action", JStr "start")])
  = Ok [("action", JStr "recording_start")]
  /\ ~ no_implicit_launch ref_driver "browser_recording"
                          (JObj [("action", JStr "start")])
                          (initial_world None None [])
  /\ ~ no_implicit_launch ref_driver "browser_recording"
                          (JObj [("action", JStr "stop")])
                          (initial_world None None []).
Proof.
  split; [reflexivity|].
  split; intros H; vm_compute in H; discriminate H.
Qed.

(** The condition on the arguments of [browser_launch] and
    [browser_close] is needed: an [action] key replaces the action of
    the command, and [execute] then auto-launches. *)
Example exempt_name_with_action_key :
  mapMergedToolToCommand "browser_close" (JObj [("action", JStr "navigate")])
  = Ok [("action", JStr "navigate")]
  /\ ~ no_implicit_launch ref_driver "browser_close"
                          (JObj [("action", JStr "navigate")])
                          (initial_world None None []).
Proof.
  split; [reflexivity|].
  intros H; vm_compute in H; discriminate H.
Qed.

(** ** Determinism of the mapper *)

Lemma jequiv_is_undefined (a b : JVal) :
  jequiv a b -> is_undefined a = is_undefined b.
Proof. now destruct 1. Qed.

Lemma jequiv_is_nullish (a b : JVal) :
  jequiv a b -> is_nullish a = is_nullish b.
Proof. now destruct 1. Qed.

Lemma jequiv_is_str (a b : JVal) (s : string) :
  jequiv a b -> is_str a s = is_str b s.
Proof. now destruct 1. Qed.

Lemma jequiv_to_js_string (a : JVal) :
  forall b, jequiv a b -> to_js_string a = to_js_string b.
Proof.
  induction a using JVal_nested_ind; intros b' Hb; inversion Hb; subst;
    try reflexivity.
  match goal with H : Forall2 jequiv _ _ |- _ => rename H into H2 end.
  clear Hb. cbn [to_js_string]. revert H.
  induction H2 as [|x y l1 l2 Hxy Hl IH]; intros HP; [reflexivity|].
  inversion HP as [|? ? Hx Hr]; subst.
  specialize (IH Hr).
  rewrite (jequiv_is_nullish Hxy), (Hx _ Hxy).
  destruct Hl as [|x' y' l1' l2' Hxy' Hl']; [reflexivity|].
  f_equal. f_equal. exact IH.
Qed.

Lemma obj_equiv_nil : obj_equiv [] [].
Proof. intros k. constructor. Qed.

Lemma obj_equiv_cons (k : string) (v1 v2 : JVal) (r1 r2 : Obj) :
  jequiv v1 v2 -> obj_equiv r1 r2 ->
  obj_equiv ((k, v1) :: r1) ((k, v2) :: r2).
Proof.
  intros Hv Hr k'. simpl. destruct (String.eqb k' k).
  - now constructor.
  - apply Hr.
Qed.

Lemma obj_equiv_oset (c1 c2 : Obj) (k : string) (v1 v2 : JVal) :
  obj_equiv c1 c2 -> jequiv v1 v2 ->
  obj_equiv (oset c1 k v1) (oset c2 k v2).
Proof.
  intros Hc Hv k'. rewrite !oget_oset. destruct (String.eqb k' k).
  - now constructor.
  - apply Hc.
Qed.

Lemma obj_equiv_copy (a1 a2 : string -> JVal) (k : string) (c1 c2 : Obj) :
  jequiv (a1 k) (a2 k) -> obj_equiv c1 c2 ->
  obj_equiv (copy a1 k c1) (copy a2 k c2).
Proof.
  intros Ha Hc. unfold copy. rewrite (jequiv_is_undefined Ha).
  destruct (is_undefined (a2 k)); [assumption|].
  now apply obj_equiv_oset.
Qed.

Lemma obj_equiv_copy_as (a1 a2 : string -> JVal) (from k : string)
      (c1 c2 : Obj) :
  jequiv (a1 from) (a2 from) -> obj_equiv c1 c2 ->
  obj_equiv (copy_as a1 from k c1) (copy_as a2 from k c2).
Proof.
  intros Ha Hc. unfold copy_as. rewrite (jequiv_is_undefined Ha).
  destruct (is_undefined (a2 from)); [assumption|].
  now apply obj_equiv_oset.
Qed.

Lemma obj_equiv_ospread (b1 b2 s1 s2 : Obj) :
  unique_keys s1 -> unique_keys s2 ->
  obj_equiv b1 b2 -> obj_equiv s1 s2 ->
  obj_equiv (ospread b1 s1) (ospread b2 s2).
Proof.
  intros U1 U2 Hb Hs k. rewrite !oget_ospread by assumption.
  destruct (Hs k); [apply Hb | now constructor].
Qed.

Lemma jget_equiv (o1 o2 : Obj) (k : string) :
  obj_equiv o1 o2 -> jequiv (jget o1 k) (jget o2 k).
Proof.
  intros H. unfold jget. destruct (H k); [constructor | assumption].
Qed.

Lemma elems_from_equiv (l1 l2 : list JVal) :
  Forall2 jequiv l1 l2 ->
  forall i, obj_equiv (elems_from i l1) (elems_from i l2).
Proof.
  induction 1 as [|x y r1 r2 Hxy Hr IH]; intros i; simpl.
  - apply obj_equiv_nil.
  - apply obj_equiv_cons; [assumption | apply IH].
Qed.

Lemma jequiv_refl_str_obj (o : Obj) :
  (forall k v, In (k, v) o -> exists s, v = JStr s) -> obj_equiv o o.
Proof.
  induction o as [|[k v] r IH]; intros H.
  - apply obj_equiv_nil.
  - apply obj_equiv_cons.
    + destruct (H k v (or_introl eq_refl)) as [s ->]. constructor.
    + apply IH. intros k' v' Hin. apply (H k' v'). now right.
Qed.

Lemma chars_from_strings (s : string) :
  forall i k v, In (k, v) (chars_from i s) -> exists c, v = JStr c.
Proof.
  induction s as [|c r IH]; intros i k v Hin; simpl in Hin.
  - contradiction.
  - destruct Hin as [E | Hin]; [injection E as <- <-; eauto | eauto].
Qed.

Lemma own_props_equiv (v1 v2 : JVal) :
  jequiv v1 v2 -> obj_equiv (own_props v1) (own_props v2).
Proof.
  destruct 1; simpl; try apply obj_equiv_nil.
  - apply jequiv_refl_str_obj. apply chars_from_strings.
  - now apply elems_from_equiv.
  - assumption.
Qed.

Lemma table_lookup_equiv (table : list (string * string)) (a b : JVal) :
  jequiv a b -> jequiv (table_lookup table a) (table_lookup table b).
Proof.
  intros H. unfold table_lookup, to_property_key.
  rewrite (jequiv_to_js_string H).
  destruct (find _ table); constructor.
Qed.

Lemma nullish_or_equiv (a b d : JVal) :
  jequiv a b -> jequiv d d -> jequiv (nullish_or a d) (nullish_or b d).
Proof.
  intros H Hd. unfold nullish_or. rewrite (jequiv_is_nullish H).
  now destruct (is_nullish b).
Qed.

(** Structural equality of the commands two equivalent property
    readers produce through the same case body. *)
Ltac equiv_step H :=
  first
    [ apply obj_equiv_nil
    | apply obj_equiv_copy; [apply H|]
    | apply obj_equiv_copy_as; [apply H|]
    | apply obj_equiv_oset
    | apply obj_equiv_cons
    | apply H
    | apply table_lookup_equiv
    | apply nullish_or_equiv
    | apply je_obj; fold obj_equiv
    | solve [constructor]
    | match goal with
      | |- context [if ?c then _ else _] => destruct c
      end ].

Ltac equiv_case a1 a2 H :=
  repeat match goal with
         | |- context [is_str (a1 ?k) ?s] =>
             rewrite (jequiv_is_str s (H k))
         | |- context [is_undefined (a1 ?k)] =>
             rewrite (jequiv_is_undefined (H k))
         | |- context [to_property_key (a1 ?k)] =>
             unfold to_property_key; rewrite (jequiv_to_js_string (H k))
         | |- context [to_js_string (a1 ?k)] =>
             rewrite (jequiv_to_js_string (H k))
         end;
  repeat equiv_step H.

(** The mapper respects structural equality of its arguments. *)
Lemma mapper_respects_equiv :
  forall (name : string) (args1 args2 : JVal),
    unique_keys (own_props args1) ->
    unique_keys (own_props args2) ->
    jequiv args1 args2 ->
    result_equiv (mapMergedToolToCommand name args1)
                 (mapMergedToolToCommand name args2).
Proof.
  intros name args1 args2 U1 U2 He.
  pose proof (own_props_equiv He) as Hp.
  pose proof (jequiv_is_nullish He) as Hn.
  unfold mapMergedToolToCommand.
  destruct (lookup_case name mapper_cases) as [f|] eqn:Hf;
    [|reflexivity].
  unfold mapper_cases in Hf. cbn [lookup_case] in Hf.
  repeat match type of Hf with
         | (if ?c then _ else _) = _ =>
             destruct c;
             [ injection Hf as <-; clear - U1 U2 He Hp Hn | ]
         end;
    try discriminate Hf.
  all: unfold spread_case, with_args; cbn [result_equiv];
    try (rewrite Hn; destruct (is_nullish args2) eqn:Hz;
         [ destruct He; try discriminate Hz; reflexivity | ]);
    cbn [result_equiv].
  all: try (apply obj_equiv_ospread; try assumption;
            apply obj_equiv_cons; [constructor | apply obj_equiv_nil]).
  all: set (a1 := fun k : string => jget (own_props args1) k);
    set (a2 := fun k : string => jget (own_props args2) k);
    assert (H : forall k, jequiv (a1 k) (a2 k))
      by (intros k; apply jget_equiv; exact Hp);
    clearbody a1 a2; clear - H;
    equiv_case a1 a2 H.
Qed.

(** Structural equality of two literal objects, key by key. *)
Ltac by_keys :=
  let k := fresh "k" in
  intros k; cbn [oget];
  repeat match goal with
         | |- context [String.eqb k ?lit] =>
             destruct (String.eqb_spec k lit);
             [subst k; cbn [String.eqb Ascii.eqb Bool.eqb]|]
         end;
  repeat constructor.

(** C8.  The mapper is a function of its two arguments only, without
    access to the state of the process, and it respects structural
    equality: on argument values that are structurally equal (as
    objects, whatever the order of their keys, at any depth) it returns
    structurally equal commands, or throws the same error.  The
    identifier is not the mapper's: the one command [handleToolCall]
    hands to the driver is the mapper's result with [id] set to the
    identifier drawn for the call. *)
Theorem mapper_deterministic :
  (forall (name : string) (args1 args2 : JVal),
      unique_keys (own_props args1) ->
      unique_keys (own_props args2) ->
      jequiv args1 args2 ->
      result_equiv (mapMergedToolToCommand name args1)
                   (mapMergedToolToCommand name args2))
  /\ (forall D (ext : Externals D) (name : string) (args : JVal) (cmd : Obj)
             (w : World D),
         mapMergedToolToCommand name args = Ok cmd ->
         executed (snd (handleToolCall ext name args w)) = executed w
         \/ executed (snd (handleToolCall ext name args w))
            = (executed w
                 ++ [oset cmd "id" (JStr (random_id ext (random_calls w)))])%list).
Proof.
  split.
  - exact mapper_respects_equiv.
  - intros D ext name args cmd w. apply handleToolCall_sets_id.
Qed.

Lemma mapper_deterministic_witness :
  result_equiv
    (mapMergedToolToCommand "browser_network"
       (JObj [("action", JStr "route"); ("url", JStr "**/api");
              ("response", JObj [("status", JNum 200); ("body", JStr "{}")])]))
    (mapMergedToolToCommand "browser_network"
       (JObj [("response", JObj [("body", JStr "{}"); ("status", JNum 200)]);
              ("url", JStr "**/api"); ("action", JStr "route")]))
  /\ (executed (snd (handleToolCall ref_driver "browser_history"
                       (JObj [("action", JStr "back")])
                       (initial_world None None [])))
      = []
      \/ executed (snd (handleToolCall ref_driver "browser_history"
                          (JObj [("action", JStr "back")])
                          (initial_world None None [])))
         = [[("action", JStr "back"); ("id", JStr "id0")]]).
Proof.
  destruct mapper_deterministic as [Hequiv Hid].
  split.
  - apply Hequiv.
    + unfold unique_keys. cbn. repeat constructor; cbn; intuition discriminate.
    + unfold unique_keys. cbn. repeat constructor; cbn; intuition discriminate.
    + apply je_obj. by_keys. by_keys.
  - apply (Hid (list nat) ref_driver "browser_history"
               (JObj [("action", JStr "back")])
               [("action", JStr "back")] (initial_world None None [])).
    reflexivity.
Defined.
(** ** The dispatcher's error shape *)

(** Whatever [normalize] throws is a [TypeError] of the engine. *)
Lemma normalize_throws_error {D} (ext : Externals D) (cmd : Obj)
      (resp : Response) (e : Exn) :
  normalize ext cmd resp = Throw e -> exists msg, e = ErrorObj msg.
Proof.
  unfold normalize, rbind, jprop, substring_0_50, js_to_string. intros H.
  repeat match type of H with
         | context [if ?b then _ else _] => destruct b eqn:?
         | context [match ?x with _ => _ end] => destruct x eqn:?
         end;
    try discriminate; injection H as <-; eauto;
    repeat match goal with
           | H' : match ?x with _ => _ end = Throw _ |- _ =>
               destruct x; try discriminate H'; injection H' as <-
           end;
    eauto.
Qed.




(** A thrown [TypeError] while reading the driver's data is converted
    as well. *)
Example execute_screenshot_without_data :
  fst (execute ref_driver [("action", JStr "screenshot")]
               (initial_world None None []))
  = Ok (error_response "Cannot read properties of null (reading 'base64')").
Proof. reflexivity. Qed.

(** ** After [browser_close] *)

Section AfterClose.

Variable D : Type.
Variable ext : Externals D.

Lemma manager_call {A} (g : D -> Result A * D) : keeps (@manager D) (call g).
Proof. intros w. unfold call. now destruct (g (driver w)). Qed.

Lemma manager_emit (e : Event) : keeps (@manager D) (emit e).
Proof. intros w. reflexivity. Qed.

Lemma manager_execute_driver_exempt (cmd : Obj) (m : Manager) :
  launch_exempt_action (jget cmd "action") = true ->
  keeps (@manager D) (execute_driver ext cmd m).
Proof.
  intros Hex. unfold execute_driver.
  apply keeps_bind; [apply manager_call|]. intros launched.
  rewrite Hex, andb_false_r.
  apply keeps_bind; [apply keeps_ret|]. intros _.
  apply keeps_bind; [apply manager_emit|]. intros _.
  apply keeps_if; apply manager_call.
Qed.

(** Whatever the driver does, handling [browser_close] leaves the
    module-level [manager] pointing at the instance it closed. *)
Lemma close_keeps_manager_reference (w : World D) (m : Manager) :
  manager w = Some m ->
  wants_ios w JUndefined = is_ios_manager m ->
  manager (snd (callToolHandler ext "browser_close" (JObj []) w)) = Some m.
Proof.
  intros Hm Hk. rewrite snd_callToolHandler.
  unfold handleToolCall, bind, lift, generateId. cbn.
  unfold execute, bind.
  rewrite (@getManager_same_kind D ext JUndefined _ m) by assumption.
  unfold try_catch.
  pose proof (@manager_execute_driver_exempt
                [("action", JStr "close");
                 ("id", JStr (random_id ext (random_calls w)))] m eq_refl)
    as Hkeep.
  match goal with
  | |- context [execute_driver ext ?c m ?w1] =>
      specialize (Hkeep w1); destruct (execute_driver ext c m w1)
        as [[resp|e] w2]
  end; cbn in *.
  - unfold lift. destruct (normalize ext _ resp); cbn; congruence.
  - congruence.
Qed.

End AfterClose.

(** C7 (what the code does).  Launch, close, then navigate, on the
    reference driver: after [browser_close] the [manager] still refers
    to the closed instance 0, and the navigation launches that same
    instance again; no second instance is ever constructed. *)
Theorem closed_instance_is_relaunched :
  let m0 := mkManager 0 BrowserManager in
  let w1 := snd (callToolHandler ref_driver "browser_launch" (JObj [])
                                 (initial_world None None [])) in
  let w2 := snd (callToolHandler ref_driver "browser_close" (JObj []) w1) in
  let w3 := snd (callToolHandler ref_driver "browser_navigate"
                                 (JObj [("url", JStr "https://example.com")])
                                 w2) in
  manager w2 = Some m0
  /\ driver w2 = []
  /\ next_id w3 = 1
  /\ log w3
     = [EvNew m0;
        EvExecute m0 [("action", JStr "launch"); ("id", JStr "id0")];
        EvExecute m0 [("action", JStr "close"); ("id", JStr "id1")];
        EvLaunch m0 (JObj [("id", JStr "mcp-launch");
                           ("action", JStr "launch");
                           ("headless", JBool true);
                           ("executablePath", JUndefined);
                           ("provider", JUndefined)]);
        EvExecute m0 [("action", JStr "navigate");
                      ("url", JStr "https://example.com");
                      ("id", JStr "id2")]].
Proof. vm_compute. repeat split. Qed.

(** ** The scenarios of the specification, run on the dispatcher *)

(** Scenario 1: [browser_navigate] on a fresh process launches once,
    then navigates. *)
Example navigate_launches_once :
  launches (snd (callToolHandler ref_driver "browser_navigate"
                   (JObj [("url", JStr "https://example.com")])
                   (initial_world None None [])))
  = [EvLaunch (mkManager 0 BrowserManager)
              (JObj [("id", JStr "mcp-launch"); ("action", JStr "launch");
                     ("headless", JBool true); ("executablePath", JUndefined);
                     ("provider", JUndefined)])].
Proof. reflexivity. Qed.

(** Scenario 4: after [browser_launch] with [provider: "ios"], a command
    without provider closes the iOS session and runs on a new desktop
    one. *)
Example ios_session_replaced :
  let w1 := snd (callToolHandler ref_driver "browser_launch"
                   (JObj [("provider", JStr "ios")])
                   (initial_world None None [])) in
  let w2 := snd (callToolHandler ref_driver "browser_snapshot" (JObj []) w1) in
  manager w1 = Some (mkManager 0 IOSManager)
  /\ manager w2 = Some (mkManager 1 BrowserManager)
  /\ In (EvClose (mkManager 0 IOSManager)) (log w2).
Proof. vm_compute. intuition. Qed.

(* ================================================================== *)
(** * Further properties of the mapper and the registry *)
(* ================================================================== *)

(** ** Calls without arguments *)

Ltac try_fields l :=
  match l with
  | ?f :: ?r =>
      first [ exists f; split; [cbn; tauto | reflexivity] | try_fields r ]
  end.

(** X1.  A call whose arguments are [undefined] or [null] is mapped to the
    bare canonical command by the tools that read no argument (the
    spread-mapped ones and [browser_ios_device_list]); in every other tool
    the first property read throws a [TypeError] that names a field of the
    tool's schema. *)
Theorem mapper_without_arguments :
  forall name args,
    In name tool_names ->
    is_nullish args = true ->
    if accepts_no_arguments name
    then exists canonical,
        mapMergedToolToCommand name args = Ok [("action", JStr canonical)]
    else exists t,
        find_tool name = Some t
        /\ exists f,
            In f (declared_fields t)
            /\ mapMergedToolToCommand name args
               = Throw (ErrorObj (cannot_read args f)).
Proof.
  intros name args Hin Hn.
  assert (Hargs : args = JUndefined \/ args = JNull)
    by (destruct args; try discriminate Hn; tauto).
  vm_compute in Hin.
  repeat (destruct Hin as [<- | Hin];
          [ cbn [accepts_no_arguments mem_str existsb spread_tools orb
                 String.eqb Ascii.eqb Bool.eqb];
            first
              [ destruct Hargs as [-> | ->]; eexists; reflexivity
              | eexists; split; [reflexivity|];
                match goal with
                | |- exists f, In f (declared_fields ?t) /\ _ =>
                    let l := eval vm_compute in (declared_fields t) in
                    destruct Hargs as [-> | ->]; try_fields l
                end ]
          |]).
  contradiction.
Qed.

Lemma mapper_without_arguments_witness :
  (exists canonical,
      mapMergedToolToCommand "browser_close" JUndefined
      = Ok [("action", JStr canonical)])
  /\ exists t,
      find_tool "browser_press" = Some t
      /\ exists f,
          In f (declared_fields t)
          /\ mapMergedToolToCommand "browser_press" JNull
             = Throw (ErrorObj (cannot_read JNull f)).
Proof.
  split.
  - apply (@mapper_without_arguments "browser_close" JUndefined);
      [vm_compute; tauto | reflexivity].
  - apply (@mapper_without_arguments "browser_press" JNull);
      [vm_compute; tauto | reflexivity].
Defined.

(** ** Every call with arguments is mapped *)








(** ** What is forwarded and what is dropped *)

(** Decide the lookup of a key [k] that is no field of the tool's schema
    and no derived key ([Hd], [Hr]) in a command built by a case body. *)
Ltac undeclared_step k Hd Hr Hfind :=
  first
    [ rewrite oget_copy
    | rewrite oget_copy_as
    | rewrite oget_oset
    | progress cbn [oget]
    | match goal with
      | |- context [if is_str ?a ?b then _ else _] =>
          destruct (is_str a b) eqn:?
      | |- context [String.eqb k (to_property_key ?v)] =>
          destruct (String.eqb_spec k (to_property_key v));
          [exfalso; apply Hfind; congruence|]
      | |- context [String.eqb k ?lit] =>
          destruct (String.eqb_spec k lit);
          [exfalso; subst k;
           first [ apply Hd; cbn; tauto
                 | apply Hr; cbn; tauto
                 | apply Hfind;
                   match goal with
                   | H : is_str ?v ?s = true |- to_property_key ?v = _ =>
                       rewrite (is_str_true _ _ H); reflexivity
                   end ]|]
      | |- context [if ?c then _ else _] => destruct c eqn:?
      end ].

(** X3.  The tools that are not spread-mapped forward nothing but what
    their case names: a key that is neither a field of the tool's schema
    nor one of the derived keys is on no command, whatever the arguments
    hold under it.  ([browser_find] stores [value] under the key its
    [method] names, which is excepted.) *)
Theorem undeclared_arguments_dropped :
  forall t k (o cmd : Obj),
    In t MERGED_TOOLS ->
    ~ In (t_name t) spread_tools ->
    ~ In k (declared_fields t) ->
    ~ In k derived_keys ->
    (t_name t = "browser_find" -> to_property_key (jget o "method") <> k) ->
    mapMergedToolToCommand (t_name t) (JObj o) = Ok cmd ->
    oget cmd k = None.
Proof.
  intros t k o cmd Hin Hns Hd Hr Hfind Hmap.
  unfold MERGED_TOOLS in Hin. cbn [In] in Hin.
  repeat (destruct Hin as [<- | Hin];
          [ first
              [ exfalso; apply Hns; cbn; tauto
              | clear Hns; cbn [t_name] in *;
                mapper_case_in Hmap; injection Hmap as <-;
                first [ specialize (Hfind eq_refl)
                      | clear Hfind; pose proof I as Hfind ];
                repeat undeclared_step k Hd Hr Hfind; reflexivity ]
          |]).
  contradiction.
Qed.

Lemma undeclared_arguments_dropped_witness :
  oget [("action", JStr "press"); ("key", JStr "Enter")] "timeout" = None.
Proof.
  apply (@undeclared_arguments_dropped
           (mkTool "browser_press"
                   [mkProp "key" (Ty "string") [];
                    mkProp "selector" (Ty "string") []]
                   ["key"])
           "timeout"
           [("key", JStr "Enter"); ("timeout", JNum 500)]).
  - exact (find_tool_In "browser_press" eq_refl).
  - cbn. intuition discriminate.
  - cbn. intuition discriminate.
  - cbn. intuition discriminate.
  - discriminate.
  - reflexivity.
Defined.

(** X4.  The spread-mapped tools forward every argument, declared or not:
    on an argument object the command binds each key of the arguments to
    its value, and besides only [action] to the canonical action when the
    arguments have no [action] key. *)
Theorem spread_tools_forward_everything :
  forall name (o cmd : Obj),
    In name spread_tools ->
    unique_keys o ->
    mapMergedToolToCommand name (JObj o) = Ok cmd ->
    exists canonical,
      mapMergedToolToCommand name (JObj []) = Ok [("action", JStr canonical)]
      /\ forall k,
          oget cmd k
          = match oget o k with
            | Some v => Some v
            | None => if String.eqb k "action" then Some (JStr canonical)
                      else None
            end.
Proof.
  intros name o cmd Hin Hu Hmap. cbn in Hin.
  repeat (destruct Hin as [<- | Hin];
          [ eexists; split; [reflexivity|];
            intros k; mapper_case_in Hmap; injection Hmap as <-;
            rewrite oget_ospread by assumption; reflexivity
          |]).
  contradiction.
Qed.

Lemma spread_tools_forward_everything_witness :
  exists canonical,
    mapMergedToolToCommand "browser_navigate" (JObj [])
    = Ok [("action", JStr canonical)]
    /\ forall k,
        oget [("action", JStr "navigate"); ("url", JStr "about:blank");
              ("trace", JBool true)] k
        = match oget [("url", JStr "about:blank"); ("trace", JBool true)] k with
          | Some v => Some v
          | None => if String.eqb k "action" then Some (JStr canonical)
                    else None
          end.
Proof.
  apply (@spread_tools_forward_everything "browser_navigate"
           [("url", JStr "about:blank"); ("trace", JBool true)]).
  - cbn. tauto.
  - unfold unique_keys. cbn. repeat constructor; cbn; intuition discriminate.
  - reflexivity.
Defined.

(** ** The registry against the mapper *)

Lemma distinct_NoDup (l : list string) : distinct l = true -> NoDup l.
Proof.
  induction l as [|x r IH]; simpl; intros H; constructor.
  - apply andb_prop in H. destruct H as [H _].
    intros Hin. apply existsb_eqb_In in Hin.
    unfold mem_str in H. rewrite Hin in H. discriminate.
  - apply IH. apply andb_prop in H. tauto.
Qed.

(** X5.  The registry and the mapper are consistent: no tool name is
    advertised twice and no case label occurs twice, the advertised names
    are exactly the case labels, every required field of a schema is among
    its declared properties, and the argument a case dispatches on is
    required by the schema of its tool. *)
Theorem registry_matches_mapper :
  NoDup tool_names
  /\ NoDup (map fst mapper_cases)
  /\ (forall name, In name tool_names <-> In name (map fst mapper_cases))
  /\ (forall t f, In t MERGED_TOOLS -> In f (t_required t) ->
                  In f (declared_fields t))
  /\ (forall t d, In t MERGED_TOOLS ->
                  discriminant_field (t_name t) = Some d ->
                  In d (t_required t)).
Proof.
  split; [apply distinct_NoDup; vm_compute; reflexivity|].
  split; [apply distinct_NoDup; vm_compute; reflexivity|].
  split.
  { intros name. destruct mapper_names_registered as [H1 H2].
    split; [apply H2 | apply H1]. }
  split.
  - intros t f Ht Hf.
    assert (H : forallb (fun t => forallb (fun f => mem_str f (declared_fields t))
                                          (t_required t)) MERGED_TOOLS = true)
      by (vm_compute; reflexivity).
    rewrite forallb_forall in H. specialize (H t Ht).
    rewrite forallb_forall in H. apply existsb_eqb_In. exact (H f Hf).
  - intros t d Ht Hd.
    assert (H : forallb discriminant_required MERGED_TOOLS = true)
      by (vm_compute; reflexivity).
    rewrite forallb_forall in H. specialize (H t Ht).
    unfold discriminant_required in H. rewrite Hd in H.
    now apply existsb_eqb_In.
Qed.

Lemma registry_matches_mapper_witness :
  In "browser_page_info" (map fst mapper_cases)
  /\ In "info" (declared_fields
                  (mkTool "browser_page_info"
                          [mkProp "info" (Ty "string") ["url"; "title"]]
                          ["info"])).
Proof.
  destruct registry_matches_mapper as (_ & _ & Hnames & Hreq & Hdisc).
  split.
  - apply Hnames. apply existsb_eqb_In. reflexivity.
  - apply Hreq; [exact (find_tool_In "browser_page_info" eq_refl)|].
    apply (Hdisc _ "info");
      [exact (find_tool_In "browser_page_info" eq_refl) | reflexivity].
Defined.

(* ================================================================== *)
(** * Further properties of the session manager and the dispatcher *)
(* ================================================================== *)

(** ** The trace stays well-formed *)

Section Preserved.

Variable D : Type.
Variable ext : Externals D.

Lemma preserves_ret {A} (P : World D -> Prop) (a : A) : preserves P (ret a).
Proof. intros w H. exact H. Qed.

Lemma preserves_lift {A} (P : World D -> Prop) (r : Result A) :
  preserves P (lift r).
Proof. intros w H. exact H. Qed.

Lemma preserves_read {A} (P : World D -> Prop) (g : World D -> A) :
  preserves P (read g).
Proof. intros w H. exact H. Qed.

Lemma preserves_bind {A B} (P : World D -> Prop) (c : M D A)
      (k : A -> M D B) :
  preserves P c -> (forall a, preserves P (k a)) -> preserves P (bind c k).
Proof.
  intros Hc Hk w H. unfold bind. specialize (Hc w H).
  destruct (c w) as [[a|e] w']; simpl in *.
  - now apply Hk.
  - exact Hc.
Qed.

Lemma preserves_try_catch {A} (P : World D -> Prop) (c : M D A)
      (h : Exn -> M D A) :
  preserves P c -> (forall e, preserves P (h e)) ->
  preserves P (try_catch c h).
Proof.
  intros Hc Hh w H. unfold try_catch. specialize (Hc w H).
  destruct (c w) as [[a|e] w']; simpl in *.
  - exact Hc.
  - now apply Hh.
Qed.

Lemma preserves_if {A} (P : World D -> Prop) (b : bool) (c1 c2 : M D A) :
  preserves P c1 -> preserves P c2 -> preserves P (if b then c1 else c2).
Proof. now destruct b. Qed.

Lemma replay_snoc (l : list Event) (e : Event) :
  replay (l ++ [e]) = replay_step (replay l) e.
Proof. unfold replay. now rewrite fold_left_app. Qed.

Lemma same_manager_refl (m : Manager) : same_manager m m = true.
Proof.
  unfold same_manager. now rewrite Nat.eqb_refl, Bool.eqb_reflx.
Qed.

Lemma current_call {A} (free : bool) (m : Manager)
      (g : D -> Result A * D) :
  preserves (D:=D) (current free m) (call g).
Proof.
  intros w H. unfold call. now destruct (g (driver w)).
Qed.

Lemma current_emit (free : bool) (m : Manager) (e : Event) :
  (exists o, e = EvLaunch m o) \/ (exists c, e = EvExecute m c) ->
  preserves (D:=D) (current free m) (emit e).
Proof.
  intros He w (Hinv & Hm & Hk). unfold current, session_is, session_inv in *.
  unfold emit, wants_ios.
  cbn [snd log manager next_id AGENT_BROWSER_PROVIDER].
  rewrite replay_snoc, Hinv.
  assert (Hc : is_current (mkReplay (manager w) (next_id w) false) m = true).
  { unfold is_current. cbn. rewrite Hm. now rewrite same_manager_refl. }
  repeat split; try assumption.
  destruct He as [[o ->] | [c ->]]; cbn [replay_step]; now rewrite Hc.
Qed.

Lemma current_launch (free : bool) (m : Manager) (opts : JVal) :
  preserves (D:=D) (current free m) (launch ext m opts).
Proof.
  unfold launch. apply preserves_bind.
  - apply current_emit. left. eauto.
  - intros _. apply current_call.
Qed.

Lemma current_generateId (free : bool) (m : Manager) :
  preserves (D:=D) (current free m) (generateId ext).
Proof. intros w H. exact H. Qed.

(** [getManager] returns the current instance of a well-formed
    trace. *)
Lemma getManager_current (p : JVal) (w : World D) :
  session_inv w ->
  exists m w',
    getManager ext p w = (Ok m, w')
    /\ session_inv w' /\ manager w' = Some m
    /\ is_ios_manager m = wants_ios w p
    /\ same_env w w'.
Proof.
  intros Hinv. unfold session_inv in Hinv.
  destruct (manager w) as [cur|] eqn:Hm.
  - destruct (Bool.bool_dec (wants_ios w p) (is_ios_manager cur)) as [E|N].
    + exists cur, w. rewrite (getManager_same_kind ext p w Hm E).
      unfold session_inv, same_env. rewrite Hm. repeat split; auto.
    + eexists; eexists. rewrite (getManager_switch ext p w Hm N).
      split; [reflexivity|]. unfold session_inv, same_env.
      cbn [log manager next_id AGENT_BROWSER_PROVIDER
               AGENT_BROWSER_EXECUTABLE_PATH].
      rewrite is_ios_manager_kind_for. repeat split.
      change (log w ++ [EvClose cur; EvNew (mkManager (next_id w) (kind_for (wants_ios w p)))])%list
        with (log w ++ ([EvClose cur] ++ [EvNew (mkManager (next_id w) (kind_for (wants_ios w p)))]))%list.
      rewrite app_assoc, !replay_snoc, Hinv. cbn [replay_step].
      unfold is_current. cbn [r_current r_closed r_count negb].
      rewrite same_manager_refl. cbn. now rewrite Nat.eqb_refl.
  - eexists; eexists. rewrite (getManager_first ext p w Hm).
    split; [reflexivity|]. unfold session_inv, same_env.
    cbn [log manager next_id AGENT_BROWSER_PROVIDER
             AGENT_BROWSER_EXECUTABLE_PATH].
    rewrite is_ios_manager_kind_for. repeat split.
    rewrite replay_snoc, Hinv. cbn. now rewrite Nat.eqb_refl.
Qed.

Lemma wants_ios_same_env (w w' : World D) (p : JVal) :
  same_env w w' -> wants_ios w' p = wants_ios w p.
Proof. intros [H _]. unfold wants_ios. now rewrite H. Qed.

(** What [ensureBrowserLaunched] does once it has its manager. *)
Lemma launch_if_needed_current (free headless : bool) (m : Manager) :
  preserves (D:=D) (current free m)
    (bind (isLaunched ext m)
          (fun launched =>
             if negb launched
             then if is_ios_manager m then launch ext m (JObj [])
                  else bind (read (mcp_launch_options headless))
                            (fun opts => launch ext m opts)
             else ret tt)).
Proof.
  apply preserves_bind; [apply current_call|]. intros launched.
  apply preserves_if; [|apply preserves_ret].
  apply preserves_if; [apply current_launch|].
  apply preserves_bind; [apply preserves_read|]. intros opts.
  apply current_launch.
Qed.

(** [ensureBrowserLaunched] keeps the current instance when its kind
    is the one the environment asks for. *)
Lemma ensureBrowserLaunched_current (headless : bool) (m : Manager) :
  preserves (D:=D) (current false m) (ensureBrowserLaunched ext headless).
Proof.
  intros w Hc. pose proof Hc as (Hinv & Hm & Hk).
  destruct Hk as [Hk | Hk]; [discriminate|].
  unfold ensureBrowserLaunched. unfold bind at 1.
  rewrite (getManager_same_kind ext JUndefined w Hm (eq_sym Hk)).
  exact (@launch_if_needed_current false headless m w Hc).
Qed.

Lemma ensureBrowserLaunched_inv (headless : bool) :
  preserves (@session_inv D) (ensureBrowserLaunched ext headless).
Proof.
  intros w Hinv.
  destruct (@getManager_current JUndefined w Hinv)
    as (m & w1 & Hg & Hinv1 & Hm1 & Hk1 & Henv).
  unfold ensureBrowserLaunched. unfold bind at 1. rewrite Hg.
  assert (Hc : current true m w1) by (unfold current, session_is; auto).
  exact (proj1 (@launch_if_needed_current true headless m w1 Hc)).
Qed.

Lemma execute_driver_current (cmd : Obj) (m : Manager) :
  preserves (D:=D) (current (launch_exempt_action (jget cmd "action")) m)
            (execute_driver ext cmd m).
Proof.
  unfold execute_driver.
  apply preserves_bind; [apply current_call|]. intros launched.
  apply preserves_bind.
  { destruct (launch_exempt_action (jget cmd "action")) eqn:Hex.
    - rewrite andb_false_r. apply preserves_ret.
    - apply preserves_if; [|apply preserves_ret].
      apply ensureBrowserLaunched_current. }
  intros _.
  apply preserves_bind; [apply current_emit; right; eauto|]. intros _.
  apply preserves_if; apply current_call.
Qed.

Lemma launchProvider_exempt (cmd : Obj) :
  launch_exempt_action (jget cmd "action") = false ->
  launchProvider cmd = JUndefined.
Proof.
  unfold launch_exempt_action, launchProvider. intros H.
  destruct (is_str (jget cmd "action") "launch"); [discriminate|reflexivity].
Qed.

Lemma execute_inv (cmd : Obj) :
  preserves (@session_inv D) (execute ext cmd).
Proof.
  intros w Hinv.
  destruct (@getManager_current (launchProvider cmd) w Hinv)
    as (m & w1 & Hg & Hinv1 & Hm1 & Hk1 & Henv).
  unfold execute. unfold bind at 1. rewrite Hg.
  assert (Hc : current (launch_exempt_action (jget cmd "action")) m w1).
  { unfold current, session_is. repeat split; try assumption.
    destruct (launch_exempt_action (jget cmd "action")) eqn:Hex;
      [now left | right].
    rewrite Hk1, (launchProvider_exempt cmd Hex).
    symmetry. now apply wants_ios_same_env. }
  refine (proj1 (_ : current (launch_exempt_action (jget cmd "action")) m _)).
  revert Hc. generalize w1. 
  change (preserves (D:=D) (current (launch_exempt_action (jget cmd "action")) m)
            (try_catch
               (bind (execute_driver ext cmd m)
                     (fun response => lift (normalize ext cmd response)))
               (@execute_catch D))).
  apply preserves_try_catch; [|intros e; apply preserves_lift].
  apply preserves_bind; [apply execute_driver_current|].
  intros r. apply preserves_lift.
Qed.

Lemma handleToolCall_inv (name : string) (args : JVal) :
  preserves (@session_inv D) (handleToolCall ext name args).
Proof.
  unfold handleToolCall.
  apply preserves_bind; [apply preserves_lift|]. intros cmd.
  apply preserves_bind; [intros w H; exact H|]. intros id.
  apply preserves_bind.
  { apply preserves_if; [apply ensureBrowserLaunched_inv|apply preserves_ret]. }
  intros _. apply execute_inv.
Qed.

End Preserved.

(** X6.  On every driver, handling a tool call keeps the trace of the
    process well-formed: instances are numbered in the order of their
    construction, a new instance is constructed only when there is none or
    right after [close] was called on the current one, every [close],
    [launch] and command execution goes to the instance that is current at
    that moment, and [manager] refers to the instance constructed last. *)
Theorem session_trace_well_formed :
  forall D (ext : Externals D) (name : string) (args : JVal) (w : World D),
    session_inv w ->
    session_inv (snd (callToolHandler ext name args w)).
Proof.
  intros D ext name args w H. rewrite snd_callToolHandler.
  now apply handleToolCall_inv.
Qed.

Lemma session_trace_well_formed_witness :
  session_inv (snd (callToolHandler ref_driver "browser_launch"
                      (JObj [("provider", JStr "ios")])
                      (initial_world None None []))).
Proof.
  apply session_trace_well_formed. reflexivity.
Defined.

(** ** How many launches a tool call makes *)

Section Within.

Variable D : Type.
Variable ext : Externals D.
Variable P : World D -> Event -> Prop.
Hypothesis P_env : env_only P.

Lemma same_env_refl (w : World D) : same_env w w.
Proof. now split. Qed.

Lemma same_env_trans (w1 w2 w3 : World D) :
  same_env w1 w2 -> same_env w2 w3 -> same_env w1 w3.
Proof. intros [H1 H2] [H3 H4]. split; congruence. Qed.

Lemma within_weaken {A} (n n' : nat) (c : M D A) :
  n <= n' -> launches_within P n c -> launches_within P n' c.
Proof.
  intros Hle Hc w. destruct (Hc w) as (He & l & Hl & Hn & Hf).
  split; [exact He|]. exists l. repeat split; auto. lia.
Qed.

(** A computation that keeps the environment and the launches. *)
Lemma within_silent {A} (c : M D A) :
  (forall w, same_env w (snd (c w))) -> keeps (@launches D) c ->
  launches_within P 0 c.
Proof.
  intros He Hk w. split; [apply He|]. exists [].
  rewrite Hk, app_nil_r. repeat split; auto.
Qed.

Lemma within_ret {A} (a : A) : launches_within P 0 (ret a).
Proof.
  apply within_silent; [intros w; apply same_env_refl|apply keeps_ret].
Qed.

Lemma within_lift {A} (r : Result A) : launches_within P 0 (lift r).
Proof.
  apply within_silent; [intros w; apply same_env_refl|apply keeps_lift].
Qed.

Lemma within_read {A} (g : World D -> A) : launches_within P 0 (read g).
Proof.
  apply within_silent; [intros w; apply same_env_refl|apply keeps_read].
Qed.

Lemma within_call {A} (g : D -> Result A * D) :
  launches_within P 0 (call g).
Proof.
  apply within_silent; [|apply launches_call].
  intros w. unfold call. destruct (g (driver w)). now split.
Qed.

Lemma within_emit (e : Event) :
  is_launch_event e = false -> launches_within P 0 (emit e).
Proof.
  intros He. apply within_silent; [|now apply launches_emit].
  intros w. now split.
Qed.

Lemma within_set_manager (m : option Manager) :
  launches_within P 0 (set_manager m).
Proof.
  apply within_silent; [|apply launches_set_manager]. intros w. now split.
Qed.

Lemma within_construct (k : ManagerKind) :
  launches_within P 0 (construct k).
Proof.
  apply within_silent; [|apply launches_construct]. intros w. now split.
Qed.

Lemma within_generateId : launches_within P 0 (generateId ext).
Proof.
  apply within_silent; [|apply launches_generateId]. intros w. now split.
Qed.

Lemma within_bind {A B} (n1 n2 : nat) (c : M D A) (k : A -> M D B) :
  launches_within P n1 c -> (forall a, launches_within P n2 (k a)) ->
  launches_within P (n1 + n2) (bind c k).
Proof.
  intros Hc Hk w. destruct (Hc w) as (He & l & Hl & Hn & Hf).
  unfold bind. destruct (c w) as [[a|e] w1]; cbn [snd] in *.
  - destruct (Hk a w1) as (He2 & l2 & Hl2 & Hn2 & Hf2).
    split; [eapply same_env_trans; eassumption|].
    exists (l ++ l2)%list. rewrite Hl2, Hl, app_assoc, length_app.
    repeat split; [lia|].
    apply Forall_app. split; [exact Hf|].
    eapply Forall_impl; [|exact Hf2].
    intros ev. now apply P_env.
  - split; [exact He|]. exists l. repeat split; auto. lia.
Qed.

Lemma within_try_catch {A} (n1 n2 : nat) (c : M D A) (h : Exn -> M D A) :
  launches_within P n1 c -> (forall e, launches_within P n2 (h e)) ->
  launches_within P (n1 + n2) (try_catch c h).
Proof.
  intros Hc Hh w. destruct (Hc w) as (He & l & Hl & Hn & Hf).
  unfold try_catch. destruct (c w) as [[a|e] w1]; cbn [snd] in *.
  - split; [exact He|]. exists l. repeat split; auto. lia.
  - destruct (Hh e w1) as (He2 & l2 & Hl2 & Hn2 & Hf2).
    split; [eapply same_env_trans; eassumption|].
    exists (l ++ l2)%list. rewrite Hl2, Hl, app_assoc, length_app.
    repeat split; [lia|].
    apply Forall_app. split; [exact Hf|].
    eapply Forall_impl; [|exact Hf2].
    intros ev. now apply P_env.
Qed.

Lemma within_if {A} (n : nat) (b : bool) (c1 c2 : M D A) :
  launches_within P n c1 -> launches_within P n c2 ->
  launches_within P n (if b then c1 else c2).
Proof. now destruct b. Qed.

(** One [launch] that [P] describes. *)
Lemma within_launch (m : Manager) (opts : World D -> JVal) :
  (forall w, P w (EvLaunch m (opts w))) ->
  launches_within P 1 (bind (read opts) (fun o => launch ext m o)).
Proof.
  intros HP w. unfold launch, bind, read, emit, call. cbn [driver].
  destruct (drv_launch ext m _ (driver w)) as [r d'].
  split; [now split|].
  eexists [_]. unfold launches. cbn [snd log].
  rewrite launch_events_app. repeat split; [reflexivity|].
  constructor; [apply HP|constructor].
Qed.

End Within.

Section Launches.

Variable D : Type.
Variable ext : Externals D.

Lemma auto_launch_env : env_only (@auto_launch D).
Proof.
  intros w w' e [H1 H2] [m ->]. exists m. unfold mcp_launch_options.
  now rewrite H1, H2.
Qed.

Lemma within_getManager (p : JVal) :
  launches_within (@auto_launch D) 0 (getManager ext p).
Proof.
  apply within_silent; [|apply launches_getManager].
  intros w. destruct (manager w) as [cur|] eqn:Hm.
  - destruct (Bool.bool_dec (wants_ios w p) (is_ios_manager cur)) as [E|N].
    + rewrite (getManager_same_kind ext p w Hm E). apply same_env_refl.
    + rewrite (getManager_switch ext p w Hm N). now split.
  - rewrite (getManager_first ext p w Hm). now split.
Qed.

(** The one place where [launch] is called. *)
Lemma within_launch_if_needed (m : Manager) :
  launches_within (@auto_launch D) 1
    (bind (isLaunched ext m)
          (fun launched =>
             if negb launched
             then if is_ios_manager m then launch ext m (JObj [])
                  else bind (read (mcp_launch_options true))
                            (fun opts => launch ext m opts)
             else ret tt)).
Proof.
  apply (within_bind auto_launch_env (n1 := 0) (n2 := 1));
    [apply within_call|].
  intros launched. apply within_if;
    [|apply within_weaken with (n := 0); [lia|apply within_ret]].
  destruct (is_ios_manager m) eqn:Hk.
  - apply (@within_launch D ext (@auto_launch D) m (fun _ => JObj [])).
    intros w. exists m. now rewrite Hk.
  - apply within_launch. intros w. exists m. now rewrite Hk.
Qed.

Lemma within_ensureBrowserLaunched :
  launches_within (@auto_launch D) 1 (ensureBrowserLaunched ext true).
Proof.
  unfold ensureBrowserLaunched.
  apply (within_bind auto_launch_env (n1 := 0) (n2 := 1));
    [apply within_getManager|].
  intros m. apply within_launch_if_needed.
Qed.

Lemma within_execute (cmd : Obj) :
  launches_within (@auto_launch D) 1 (execute ext cmd).
Proof.
  unfold execute.
  apply (within_bind auto_launch_env (n1 := 0) (n2 := 1));
    [apply within_getManager|].
  intros m.
  apply (within_try_catch auto_launch_env (n1 := 1) (n2 := 0));
    [|intros e; apply within_lift].
  apply (within_bind auto_launch_env (n1 := 1) (n2 := 0));
    [|intros r; apply within_lift].
  unfold execute_driver.
  apply (within_bind auto_launch_env (n1 := 0) (n2 := 1));
    [apply within_call|].
  intros launched.
  apply (within_bind auto_launch_env (n1 := 1) (n2 := 0)).
  { apply within_if; [apply within_ensureBrowserLaunched|].
    apply within_weaken with (n := 0); [lia|apply within_ret]. }
  intros _.
  apply (within_bind auto_launch_env (n1 := 0) (n2 := 0));
    [now apply within_emit|].
  intros _. apply within_if; apply within_call.
Qed.

Lemma within_handleToolCall (name : string) (args : JVal) :
  launches_within (@auto_launch D) 2 (handleToolCall ext name args).
Proof.
  unfold handleToolCall.
  apply (within_bind auto_launch_env (n1 := 0) (n2 := 2));
    [apply within_lift|].
  intros cmd.
  apply (within_bind auto_launch_env (n1 := 0) (n2 := 2));
    [apply within_generateId|].
  intros id.
  apply (within_bind auto_launch_env (n1 := 1) (n2 := 1)).
  { apply within_if; [apply within_ensureBrowserLaunched|].
    apply within_weaken with (n := 0); [lia|apply within_ret]. }
  intros _. apply within_execute.
Qed.

(** *** A driver that is launched *)

Hypothesis Hlaunched : always_launched ext.

Lemma launched_isLaunched {B} (m : Manager) (k : bool -> M D B) :
  keeps (@launches D) (k true) ->
  keeps (@launches D) (bind (isLaunched ext m) k).
Proof.
  intros Hk w. unfold bind, isLaunched, call.
  destruct (Hlaunched m (driver w)) as [d' ->]. now rewrite Hk.
Qed.

Lemma launched_ensureBrowserLaunched (headless : bool) :
  keeps (@launches D) (ensureBrowserLaunched ext headless).
Proof.
  unfold ensureBrowserLaunched.
  apply keeps_bind; [apply launches_getManager|]. intros m.
  apply launched_isLaunched. apply keeps_ret.
Qed.

Lemma launched_execute (cmd : Obj) : keeps (@launches D) (execute ext cmd).
Proof.
  unfold execute.
  apply keeps_bind; [apply launches_getManager|]. intros m.
  apply keeps_try_catch; [|intros e; apply keeps_lift].
  apply keeps_bind; [|intros r; apply keeps_lift].
  unfold execute_driver. apply launched_isLaunched. cbn [negb andb].
  apply keeps_bind; [apply keeps_ret|]. intros _.
  apply keeps_bind; [now apply launches_emit|]. intros _.
  apply keeps_if; apply launches_call.
Qed.

Lemma launched_handleToolCall (name : string) (args : JVal) :
  keeps (@launches D) (handleToolCall ext name args).
Proof.
  unfold handleToolCall.
  apply keeps_bind; [apply keeps_lift|]. intros cmd.
  apply keeps_bind; [apply launches_generateId|]. intros id.
  apply keeps_bind.
  { apply keeps_if; [apply launched_ensureBrowserLaunched|apply keeps_ret]. }
  intros _. apply launched_execute.
Qed.

End Launches.

(** X7.  On every driver, the server calls the [launch] method of its
    manager at most twice while it handles one tool call (once before the
    command is handed to [execute], once inside it), and every such call
    is an automatic launch: [launch({})] on an [IOSManager], and on a
    [BrowserManager] the [mcp-launch] command with [headless: true] and
    the executable path and provider of the environment.  No argument of
    the tool call reaches these launches (an explicit [launch] command
    goes to the executor like any other command), and the environment is
    left as it was. *)
Theorem tool_call_launches_at_most_twice :
  forall D (ext : Externals D) (name : string) (args : JVal) (w : World D),
    same_env w (snd (callToolHandler ext name args w))
    /\ exists l,
        launches (snd (callToolHandler ext name args w))
        = (launches w ++ l)%list
        /\ length l <= 2
        /\ Forall (auto_launch w) l.
Proof.
  intros D ext name args w. rewrite snd_callToolHandler.
  apply within_handleToolCall.
Qed.

(** The automatic launch of a tool call in an environment that sets
    both variables. *)
Example auto_launch_reads_the_environment :
  launches (snd (callToolHandler ref_driver "browser_history"
                   (JObj [("action", JStr "back");
                          ("headless", JBool false);
                          ("executablePath", JStr "/opt/other")])
                   (initial_world (Some "browserbase")
                                  (Some "/usr/bin/chromium") [])))
  = [EvLaunch (mkManager 0 BrowserManager)
              (JObj [("id", JStr "mcp-launch"); ("action", JStr "launch");
                     ("headless", JBool true);
                     ("executablePath", JStr "/usr/bin/chromium");
                     ("provider", JStr "browserbase")])].
Proof. reflexivity. Qed.

(** The bound is reached on a driver whose [launch] resolves while
    [isLaunched] stays false. *)
Example two_launches_on_a_stalled_driver :
  let stalled : Externals unit :=
    {| drv_isLaunched := fun _ d => (Ok false, d);
       drv_launch := fun _ _ d => (Ok tt, d);
       drv_close := fun _ d => (Ok tt, d);
       executeCommand := fun _ _ d => (Ok (mkResponse true JNull JUndefined), d);
       executeIOSCommand :=
         fun _ _ d => (Ok (mkResponse true JNull JUndefined), d);
       JSON_stringify := fun v => JStr (to_js_string v);
       random_id := fun n => "id" ++ string_of_nat n |} in
  length (launches (snd (callToolHandler stalled "browser_history"
                           (JObj [("action", JStr "back")])
                           (initial_world None None tt)))) = 2.
Proof. reflexivity. Qed.

(** X8.  On a driver that answers every [isLaunched] with [true], no tool
    call makes the server call the [launch] method: an implicit launch
    only follows an [isLaunched] that answered [false]. *)
Theorem launched_driver_is_never_launched :
  forall D (ext : Externals D) (name : string) (args : JVal) (w : World D),
    always_launched ext ->
    launches (snd (callToolHandler ext name args w)) = launches w.
Proof.
  intros D ext name args w H. rewrite snd_callToolHandler.
  now apply launched_handleToolCall.
Qed.

Lemma launched_driver_is_never_launched_witness :
  let ready : Externals unit :=
    {| drv_isLaunched := fun _ d => (Ok true, d);
       drv_launch := fun _ _ d => (Ok tt, d);
       drv_close := fun _ d => (Ok tt, d);
       executeCommand := fun _ _ d => (Ok (mkResponse true JNull JUndefined), d);
       executeIOSCommand :=
         fun _ _ d => (Ok (mkResponse true JNull JUndefined), d);
       JSON_stringify := fun v => JStr (to_js_string v);
       random_id := fun n => "id" ++ string_of_nat n |} in
  launches (snd (callToolHandler ready "browser_history"
                   (JObj [("action", JStr "back")])
                   (initial_world None None tt)))
  = launches (initial_world None None tt).
Proof.
  intros ready. apply launched_driver_is_never_launched.
  intros m d. exists d. reflexivity.
Defined.

(** ** What can be thrown *)



Lemma reportable_message (e : Exn) :
  reportable e = true -> exists msg, exn_message e = Ok msg.
Proof.
  destruct e as [msg|v]; cbn; [eauto|].
  unfold js_to_string. intros ->. eauto.
Qed.

Section Throws.

Variable D : Type.
Variable ext : Externals D.
Variable P : Exn -> Prop.

Lemma throws_only_ret {A} (a : A) : throws_only (D:=D) P (ret a).
Proof. intros w e w' H. discriminate. Qed.

Lemma throws_only_read {A} (g : World D -> A) : throws_only P (read g).
Proof. intros w e w' H. discriminate. Qed.

Lemma throws_only_emit (ev : Event) : throws_only (D:=D) P (emit ev).
Proof. intros w e w' H. discriminate. Qed.

Lemma throws_only_call {A} (g : D -> Result A * D) :
  (forall d e d', g d = (Throw e, d') -> P e) -> throws_only P (call g).
Proof.
  intros Hg w e w' H. unfold call in H.
  destruct (g (driver w)) as [r d'] eqn:E. injection H as -> _.
  eapply Hg, E.
Qed.

Lemma throws_only_bind {A B} (c : M D A) (k : A -> M D B) :
  throws_only P c -> (forall a, throws_only P (k a)) ->
  throws_only P (bind c k).
Proof.
  intros Hc Hk w e w' H. unfold bind in H.
  destruct (c w) as [[a|e0] w1] eqn:E.
  - eapply Hk, H.
  - injection H as <- _. eapply Hc, E.
Qed.

Lemma throws_only_if {A} (b : bool) (c1 c2 : M D A) :
  throws_only P c1 -> throws_only P c2 ->
  throws_only P (if b then c1 else c2).
Proof. now destruct b. Qed.


End Throws.

Section Responses.

Variable D : Type.
Variable ext : Externals D.

Lemma normalize_shape (cmd : Obj) (resp : Response) (r : ToolResponse) :
  normalize ext cmd resp = Ok r ->
  isError r = false /\ text_only r = true
  /\ (length (content r) = 1
      \/ (length (content r) = 2
          /\ is_str (jget cmd "action") "screenshot" = true
          /\ success resp = true)).
Proof.
  intros H. unfold normalize, rbind in H.
  repeat match type of H with
         | context [if ?b then _ else _] => destruct b eqn:?
         | context [match ?x with _ => _ end] => destruct x eqn:?
         end;
    try discriminate; injection H as <-; cbn; intuition auto.
Qed.

(** [execute] returns a response, or throws the [TypeError] of the
    conversion in its [catch] block. *)
Lemma execute_returns_or_throws (cmd : Obj) (w : World D) :
  (exists r w',
      execute ext cmd w = (Ok r, w')
      /\ isError r = false /\ text_only r = true
      /\ (length (content r) = 1
          \/ (length (content r) = 2
              /\ is_str (jget cmd "action") "screenshot" = true)))
  \/ (exists m w1 e w2,
         getManager ext (launchProvider cmd) w = (Ok m, w1)
         /\ execute_driver ext cmd m w1 = (Throw e, w2)
         /\ reportable e = false
         /\ execute ext cmd w
            = (Throw (ErrorObj "Cannot convert object to primitive value"),
               w2)).
Proof.
  destruct (getManager_total ext (launchProvider cmd) w) as (m & w1 & Hg).
  unfold execute, bind, try_catch, execute_catch, lift. rewrite Hg.
  destruct (execute_driver ext cmd m w1) as [[resp|e] w2] eqn:Hd.
  - left. destruct (normalize ext cmd resp) as [r|e] eqn:Hn.
    + exists r, w2. split; [reflexivity|].
      destruct (normalize_shape _ _ Hn) as (H1 & H2 & [H3 | (H3 & H4 & _)]);
        auto.
    + destruct (normalize_throws_error _ _ _ Hn) as (msg & ->).
      eexists; eexists. split; [reflexivity|]. cbn. auto.
  - destruct (reportable e) eqn:Hr.
    + left. destruct (reportable_message _ Hr) as (msg & ->).
      eexists; eexists. split; [reflexivity|]. cbn. auto.
    + right. exists m, w1, e, w2. repeat split; auto.
      destruct e as [msg|v]; [discriminate|]. cbn in *.
      unfold js_to_string. now rewrite Hr.
Qed.

Hypothesis Hdriver : throws_reportable ext.

Lemma reportable_isLaunched (m : Manager) :
  throws_only (fun e => reportable e = true) (isLaunched ext m).
Proof.
  apply throws_only_call. intros d e d' H.
  destruct Hdriver as (H1 & _). eapply H1, H.
Qed.

Lemma reportable_launch (m : Manager) (o : JVal) :
  throws_only (fun e => reportable e = true) (launch ext m o).
Proof.
  unfold launch. apply throws_only_bind; [apply throws_only_emit|].
  intros _. apply throws_only_call. intros d e d' H.
  destruct Hdriver as (_ & H2 & _). eapply H2, H.
Qed.




End Responses.

(** X9.  On every driver, [execute] either answers the command with one
    text item, or with two text items when the command is a
    [screenshot], and never with [isError]; or it throws, and then what
    it throws is the [TypeError] of the conversion in its [catch]
    block, after the [try] block threw a value that is no [Error] and
    that [String] cannot convert. *)
Theorem execute_payload_shape :
  forall D (ext : Externals D) (cmd : Obj) (w : World D),
    (exists r w',
        execute ext cmd w = (Ok r, w')
        /\ isError r = false
        /\ text_only r = true
        /\ (length (content r) = 1
            \/ (length (content r) = 2
                /\ is_str (jget cmd "action") "screenshot" = true)))
    \/ (exists m w1 e w2,
           getManager ext (launchProvider cmd) w = (Ok m, w1)
           /\ execute_driver ext cmd m w1 = (Throw e, w2)
           /\ reportable e = false
           /\ execute ext cmd w
              = (Throw (ErrorObj "Cannot convert object to primitive value"),
                 w2)).
Proof. intros. apply execute_returns_or_throws. Qed.


Lemma broken_driver_throws_reportable : throws_reportable broken_driver.
Proof.
  repeat split; intros; cbn in *;
    match goal with H : (_, _) = (_, _) |- _ => injection H as <- _ end;
    reflexivity.
Qed.


(** On a driver that throws a value [String] cannot convert, the
    failure of the command itself does reach the handler, and is
    answered with [isError: true]. *)
Example isError_from_an_unconvertible_throw :
  let rude : Externals unit :=
    {| drv_isLaunched := fun _ d => (Ok true, d);
       drv_launch := fun _ _ d => (Ok tt, d);
       drv_close := fun _ d => (Ok tt, d);
       executeCommand :=
         fun _ _ d => (Throw (Thrown (JObj [("toString", JNum 1)])), d);
       executeIOSCommand :=
         fun _ _ d => (Throw (Thrown (JObj [("toString", JNum 1)])), d);
       JSON_stringify := fun v => JStr (to_js_string v);
       random_id := fun n => "id" ++ string_of_nat n |} in
  fst (callToolHandler rude "browser_close" (JObj [])
         (initial_world None None tt))
  = Ok {| content :=
            [{| c_type := "text";
                c_text :=
                  JStr "Error: Cannot convert object to primitive value" |}];
          isError := true |}.
Proof. reflexivity. Qed.

(** ** The preview of a screenshot *)

Lemma substring_prefix (n : nat) (s : string) :
  String.prefix (String.substring 0 n s) s = true.
Proof.
  revert s. induction n as [|n IH]; intros [|c s]; cbn; auto.
  destruct (Ascii.ascii_dec c c); [apply IH|congruence].
Qed.

Lemma substring_length (n : nat) (s : string) :
  String.length (String.substring 0 n s) = Nat.min n (String.length s).
Proof.
  revert s. induction n as [|n IH]; intros [|c s]; cbn; auto.
Qed.

(** X11.  When the driver answers a [screenshot] command with a
    non-empty base64 string, and with a path that is a string or is
    absent, the response has two text items: a summary that shows a
    prefix of the data of at most 50 characters, followed by the path
    when it is a non-empty string, and the full data. *)
Theorem screenshot_preview_is_a_prefix :
  forall D (ext : Externals D) (cmd : Obj) (resp : Response)
         (s : string) (path : option string),
    is_str (jget cmd "action") "screenshot" = true ->
    success resp = true ->
    jprop (data resp) "base64" = Ok (JStr s) ->
    s <> "" ->
    jprop (data resp) "path"
    = Ok (match path with Some p => JStr p | None => JUndefined end) ->
    exists preview,
      normalize ext cmd resp
      = Ok {| content :=
                [{| c_type := "text";
                    c_text :=
                      JStr ("Screenshot captured (base64: " ++ preview
                            ++ "...)"
                            ++ match path with
                               | Some p =>
                                   if String.eqb p "" then ""
                                   else " saved to " ++ p
                               | None => ""
                               end) |};
                 {| c_type := "text";
                    c_text := JStr ("Full base64 data: " ++ s) |}];
              isError := false |}
      /\ String.prefix preview s = true
      /\ String.length preview = Nat.min 50 (String.length s).
Proof.
  intros D ext cmd resp s path Ha Hs Hb Hne Hp.
  exists (String.substring 0 50 s).
  split; [|split; [apply substring_prefix | apply substring_length]].
  unfold normalize. rewrite Hs.
  rewrite (is_str_true _ _ Ha). cbn [is_str String.eqb].
  cbn. rewrite Hb. cbn.
  destruct (String.eqb_spec s ""); [contradiction|]. cbn.
  rewrite Hp. destruct path as [p|]; cbn; [|reflexivity].
  destruct (String.eqb p ""); reflexivity.
Qed.

Lemma screenshot_preview_is_a_prefix_witness :
  exists preview,
    normalize ref_driver [("action", JStr "screenshot")]
      (mkResponse true (JObj [("base64", JStr "iVBORw0KGgo=");
                              ("path", JStr "/tmp/shot.png")]) JUndefined)
    = Ok {| content :=
              [{| c_type := "text";
                  c_text :=
                    JStr ("Screenshot captured (base64: " ++ preview
                          ++ "...)" ++ " saved to /tmp/shot.png") |};
               {| c_type := "text";
                  c_text := JStr "Full base64 data: iVBORw0KGgo=" |}];
            isError := false |}
    /\ String.prefix preview "iVBORw0KGgo=" = true
    /\ String.length preview = 12.
Proof.
  apply (@screenshot_preview_is_a_prefix _ ref_driver
           [("action", JStr "screenshot")]
           (mkResponse true (JObj [("base64", JStr "iVBORw0KGgo=");
                                   ("path", JStr "/tmp/shot.png")]) JUndefined)
           "iVBORw0KGgo=" (Some "/tmp/shot.png"));
    try reflexivity.
  discriminate.
Defined.

(** ** The kind of the session after a command *)

Section SessionKind.

Variable D : Type.
Variable ext : Externals D.

Lemma session_is_call {A} (free : bool) (m : Manager)
      (g : D -> Result A * D) :
  preserves (D:=D) (session_is free m) (call g).
Proof. intros w H. unfold call. now destruct (g (driver w)). Qed.

Lemma session_is_emit (free : bool) (m : Manager) (e : Event) :
  preserves (D:=D) (session_is free m) (emit e).
Proof. intros w H. exact H. Qed.

Lemma session_is_launch (free : bool) (m m' : Manager) (opts : JVal) :
  preserves (D:=D) (session_is free m) (launch ext m' opts).
Proof.
  unfold launch. apply preserves_bind; [apply session_is_emit|].
  intros _. apply session_is_call.
Qed.

Lemma session_is_ensureBrowserLaunched (headless : bool) (m : Manager) :
  preserves (D:=D) (session_is false m) (ensureBrowserLaunched ext headless).
Proof.
  intros w Hc. pose proof Hc as (Hm & Hk).
  destruct Hk as [Hk | Hk]; [discriminate|].
  unfold ensureBrowserLaunched. unfold bind at 1.
  rewrite (getManager_same_kind ext JUndefined w Hm (eq_sym Hk)).
  clear Hm Hk. revert w Hc.
  apply preserves_bind; [apply session_is_call|]. intros launched.
  apply preserves_if; [|apply preserves_ret].
  apply preserves_if; [apply session_is_launch|].
  apply preserves_bind; [apply preserves_read|]. intros opts.
  apply session_is_launch.
Qed.

Lemma session_is_execute_driver (cmd : Obj) (m : Manager) :
  preserves (D:=D) (session_is (launch_exempt_action (jget cmd "action")) m)
            (execute_driver ext cmd m).
Proof.
  unfold execute_driver.
  apply preserves_bind; [apply session_is_call|]. intros launched.
  apply preserves_bind.
  { destruct (launch_exempt_action (jget cmd "action")) eqn:Hex.
    - rewrite andb_false_r. apply preserves_ret.
    - apply preserves_if; [|apply preserves_ret].
      apply session_is_ensureBrowserLaunched. }
  intros _.
  apply preserves_bind; [apply session_is_emit|]. intros _.
  apply preserves_if; apply session_is_call.
Qed.

Lemma getManager_kind (p : JVal) (w : World D) :
  exists m w',
    getManager ext p w = (Ok m, w')
    /\ manager w' = Some m
    /\ is_ios_manager m = wants_ios w p
    /\ same_env w w'.
Proof.
  destruct (manager w) as [cur|] eqn:Hm.
  - destruct (Bool.bool_dec (wants_ios w p) (is_ios_manager cur)) as [E|N].
    + exists cur, w. rewrite (getManager_same_kind ext p w Hm E).
      repeat split; auto.
    + eexists; eexists. rewrite (getManager_switch ext p w Hm N).
      split; [reflexivity|]. cbn [manager].
      rewrite is_ios_manager_kind_for. repeat split.
  - eexists; eexists. rewrite (getManager_first ext p w Hm).
    split; [reflexivity|]. cbn [manager].
    rewrite is_ios_manager_kind_for. repeat split.
Qed.

End SessionKind.

(** X12.  After [execute], on every driver and whatever the outcome, the
    module-level [manager] is an instance of the kind the command asks
    for: an [IOSManager] exactly when the provider of a [launch] command,
    or else [AGENT_BROWSER_PROVIDER], is [ios].  The automatic launch
    inside [execute] never replaces the instance the command is about to
    run on. *)
Theorem execute_session_kind :
  forall D (ext : Externals D) (cmd : Obj) (w : World D),
    exists m,
      manager (snd (execute ext cmd w)) = Some m
      /\ is_ios_manager m = wants_ios w (launchProvider cmd).
Proof.
  intros D ext cmd w.
  destruct (getManager_kind ext (launchProvider cmd) w)
    as (m & w1 & Hg & Hm1 & Hk1 & Henv).
  exists m. split; [|exact Hk1].
  unfold execute. unfold bind at 1. rewrite Hg.
  assert (Hc : session_is (launch_exempt_action (jget cmd "action")) m w1).
  { split; [exact Hm1|].
    destruct (launch_exempt_action (jget cmd "action")) eqn:Hex;
      [now left | right].
    rewrite Hk1, (launchProvider_exempt cmd Hex).
    symmetry. now apply wants_ios_same_env. }
  refine (proj1 (_ : session_is (launch_exempt_action (jget cmd "action")) m _)).
  revert Hc. generalize w1.
  change (preserves (D:=D)
            (session_is (launch_exempt_action (jget cmd "action")) m)
            (try_catch
               (bind (execute_driver ext cmd m)
                     (fun response => lift (normalize ext cmd response)))
               (@execute_catch D))).
  apply preserves_try_catch; [|intros e; apply preserves_lift].
  apply preserves_bind; [apply session_is_execute_driver|].
  intros r. apply preserves_lift.
Qed.

(** ** No instance is left open at exit *)

Lemma same_manager_eq (m1 m2 : Manager) :
  same_manager m1 m2 = true -> m1 = m2.
Proof.
  unfold same_manager, is_ios_manager.
  destruct m1 as [i1 k1], m2 as [i2 k2]. cbn.
  intros H. apply andb_prop in H. destruct H as [Hi Hk].
  apply Nat.eqb_eq in Hi. subst.
  destruct k1, k2; try discriminate; reflexivity.
Qed.

(** In a well-formed trace every instance but the current one has been
    closed. *)
Lemma replay_closed_or_current (l : list Event) :
  forall s, replay l = Some s ->
  forall m, In (EvNew m) l ->
            In (EvClose m) l \/ (r_current s = Some m /\ r_closed s = false).
Proof.
  induction l as [|e l IH] using rev_ind; intros s Hs m Hin.
  - destruct Hin.
  - rewrite replay_snoc in Hs.
    destruct (replay l) as [s0|] eqn:Hl; [|discriminate].
    specialize (IH s0 eq_refl m).
    apply in_app_or in Hin.
    assert (Hold : In (EvNew m) l ->
                   r_current s = r_current s0 -> r_closed s = r_closed s0 ->
                   In (EvClose m) (l ++ [e]) \/
                   (r_current s = Some m /\ r_closed s = false)).
    { intros H Hc Hd. destruct (IH H) as [H1 | H1].
      - left. apply in_or_app. now left.
      - right. now rewrite Hc, Hd. }
    destruct e as [m'|m'|m' o|m' c]; cbn [replay_step] in Hs.
    + destruct (Nat.eqb (m_id m') (r_count s0)); [|discriminate].
      cbn [andb] in Hs.
      destruct Hin as [Hin | [Hin | []]].
      * destruct (IH Hin) as [H1 | [H1 H2]].
        -- left. apply in_or_app. now left.
        -- rewrite H1, H2 in Hs. discriminate.
      * injection Hin as ->.
        destruct (match r_current s0 with None => true | Some _ => r_closed s0 end);
          [|discriminate].
        injection Hs as <-. right. now split.
    + destruct (is_current s0 m') eqn:Hc; [|discriminate].
      injection Hs as <-.
      destruct Hin as [Hin | [Hin | []]]; [|discriminate].
      destruct (IH Hin) as [H1 | [H1 H2]].
      * left. apply in_or_app. now left.
      * left. apply in_or_app. right. left.
        unfold is_current in Hc. rewrite H1 in Hc.
        apply andb_prop in Hc. destruct Hc as [Hc _].
        now rewrite (same_manager_eq _ _ Hc).
    + destruct (is_current s0 m'); [|discriminate]. injection Hs as <-.
      destruct Hin as [Hin | [Hin | []]]; [|discriminate]. now apply Hold.
    + destruct (is_current s0 m'); [|discriminate]. injection Hs as <-.
      destruct Hin as [Hin | [Hin | []]]; [|discriminate]. now apply Hold.
Qed.

Lemma session_inv_initial {D} (p e : option string) (d : D) :
  session_inv (initial_world p e d).
Proof. reflexivity. Qed.

Lemma session_inv_handle_calls {D} (ext : Externals D)
      (calls : list (string * JVal)) (w : World D) :
  session_inv w -> session_inv (handle_calls ext calls w).
Proof.
  unfold handle_calls. revert w.
  induction calls as [|[name args] r IH]; intros w H; cbn [fold_left].
  - exact H.
  - apply IH. cbn [fst snd]. rewrite snd_callToolHandler.
    now apply handleToolCall_inv.
Qed.

(** X13.  Whatever tool calls the process has handled, one after the
    other, since it started, on whatever driver: when the handler of
    [SIGINT] and [SIGTERM] has run, [close] has been called on every
    instance ever constructed.  Each instance that was replaced was closed
    before its replacement was constructed, and the handler closes the
    last one. *)
Theorem no_instance_left_open_at_exit :
  forall D (ext : Externals D) (provider executable_path : option string)
         (d : D) (calls : list (string * JVal)),
    all_closed
      (log (snd (onTerminationSignal ext
                   (handle_calls ext calls
                      (initial_world provider executable_path d))))).
Proof.
  intros D ext p e d calls.
  pose proof (session_inv_handle_calls ext calls
                (session_inv_initial p e d)) as Hinv.
  set (w := handle_calls ext calls (initial_world p e d)) in *.
  unfold session_inv in Hinv.
  pose proof (replay_closed_or_current (log w) Hinv) as Hcl.
  cbn [r_current r_closed] in Hcl.
  unfold onTerminationSignal, bind, read.
  destruct (manager w) as [cur|] eqn:Hm.
  - unfold close, bind, emit, call. cbn [driver].
    destruct (drv_close ext cur (driver w)) as [[u|x] d']; cbn [snd log];
      intros m Hin; apply in_app_or in Hin;
      (destruct Hin as [Hin | [Hin | []]]; [|discriminate]);
      apply in_or_app;
      (destruct (Hcl m Hin) as [H1 | [H1 _]];
       [now left | right; left; congruence]).
  - cbn [snd]. intros m Hin.
    destruct (Hcl m Hin) as [H1 | [H1 _]]; [exact H1 | discriminate].
Qed.

(* ================================================================== *)
(** * Properties of the legacy server *)
(* ================================================================== *)

Lemma legacy_lookup_case_In (name : string) cases literal :
  Legacy.lookup_case name cases = Some literal -> In (name, literal) cases.
Proof.
  induction cases as [|[n f] r IH]; simpl; [discriminate|].
  destruct (String.eqb_spec name n).
  - intros H. injection H as <-. subst. now left.
  - intros H. right. now apply IH.
Qed.

Lemma legacy_lookup_case_None (name : string) cases :
  Legacy.lookup_case name cases = None
  <-> existsb (String.eqb name) (map fst cases) = false.
Proof.
  induction cases as [|[n f] r IH]; simpl.
  - tauto.
  - destruct (String.eqb name n); simpl; [split; discriminate | exact IH].
Qed.

Lemma legacy_names : Legacy.tool_names = map fst Legacy.command_cases.
Proof. vm_compute. reflexivity. Qed.

(** X14.  The legacy registry and the [switch] of the legacy handler list
    the same tools in the same order, none of them twice, and every
    required field of a legacy schema is among its declared properties. *)
Theorem legacy_registry_matches_handler :
  Legacy.tool_names = map fst Legacy.command_cases
  /\ NoDup Legacy.tool_names
  /\ forall t f, In t Legacy.TOOLS -> In f (t_required t) ->
                 In f (declared_fields t).
Proof.
  split; [exact legacy_names|].
  split; [apply distinct_NoDup; vm_compute; reflexivity|].
  intros t f Ht Hf.
  assert (H : forallb (fun t => forallb (fun f => mem_str f (declared_fields t))
                                        (t_required t)) Legacy.TOOLS = true)
    by (vm_compute; reflexivity).
  rewrite forallb_forall in H. specialize (H t Ht).
  rewrite forallb_forall in H. apply existsb_eqb_In. exact (H f Hf).
Qed.

Lemma legacy_registry_matches_handler_witness :
  In "selector"
     (declared_fields
        (mkTool "browser_dblclick" [mkProp "selector" (Ty "string") []]
                ["selector"])).
Proof.
  destruct legacy_registry_matches_handler as (_ & _ & H).
  apply H; [unfold Legacy.TOOLS|cbn];
    repeat (first [left; reflexivity | right]).
Defined.

(** X15.  The legacy handler answers a name its registry does not
    advertise with the single text item [Unknown tool: <name>], without
    [isError], and does nothing else: no identifier is drawn, nothing is
    constructed, launched or executed. *)
Theorem legacy_unknown_tool_is_not_an_error :
  forall D (ext : Externals D) (name : string) (args : JVal) (w : World D),
    ~ In name Legacy.tool_names ->
    Legacy.callToolHandler ext name args w
    = (Ok (mkToolResponse [text_item (JStr ("Unknown tool: " ++ name))] false),
       w).
Proof.
  intros D ext name args w Hn.
  unfold Legacy.callToolHandler, try_catch, Legacy.handleToolCall.
  assert (H : Legacy.lookup_case name Legacy.command_cases = None).
  { apply legacy_lookup_case_None. rewrite <- legacy_names.
    destruct (existsb _ _) eqn:E; [|reflexivity].
    apply existsb_eqb_In in E. contradiction. }
  rewrite H. reflexivity.
Qed.

Lemma legacy_unknown_tool_is_not_an_error_witness :
  Legacy.callToolHandler broken_driver "browser_launch" JUndefined
    (initial_world None None tt)
  = (Ok (mkToolResponse [text_item (JStr "Unknown tool: browser_launch")]
                        false),
     initial_world None None tt).
Proof.
  apply legacy_unknown_tool_is_not_an_error.
  intros H. apply existsb_eqb_In in H. vm_compute in H. discriminate.
Defined.

(** X16.  Every case of the legacy handler builds a command whose [action]
    is the fixed literal of the case, whatever the arguments are (an
    [action] argument only ever becomes the [subaction]), and whose [id]
    is the identifier drawn for the call. *)
Theorem legacy_action_fixed_by_tool :
  forall (name : string) literal,
    Legacy.lookup_case name Legacy.command_cases = Some literal ->
    exists action,
      forall (args : JVal) (id : string) (cmd : Obj),
        literal args id = Ok cmd ->
        jget cmd "action" = JStr action /\ jget cmd "id" = JStr id.
Proof.
  intros name literal H. apply legacy_lookup_case_In in H.
  unfold Legacy.command_cases in H.
  repeat (destruct H as [H | H];
          [injection H as <- <-; eexists; intros args id cmd Hc;
           unfold with_args in Hc;
           try (destruct (is_nullish args); [discriminate|]);
           injection Hc as <-; split; reflexivity|]).
  destruct H.
Qed.

Lemma legacy_action_fixed_by_tool_witness :
  exists action,
    forall (args : JVal) (id : string) (cmd : Obj),
      with_args args "role"
        (fun a => [("id", JStr id); ("action", lit "getbyrole");
                   ("role", a "role"); ("name", a "name");
                   ("subaction", a "action"); ("value", a "value")])
      = Ok cmd ->
      jget cmd "action" = JStr action /\ jget cmd "id" = JStr id.
Proof.
  apply (legacy_action_fixed_by_tool "browser_find_by_role"). reflexivity.
Defined.

Ltac solve_in := repeat (first [left; reflexivity | right]).

(** X17.  The legacy handler forwards every declared field of a tool, bar
    the listed ones, under its own name and with the caller's value; a
    field the caller left out is on the command all the same, with the
    value [undefined]. *)
Theorem legacy_declared_fields_forwarded :
  forall t f literal (o : Obj) (id : string) (cmd : Obj),
    In t Legacy.TOOLS ->
    In f (declared_fields t) ->
    ~ In (t_name t, f) legacy_not_verbatim ->
    Legacy.lookup_case (t_name t) Legacy.command_cases = Some literal ->
    literal (JObj o) id = Ok cmd ->
    oget cmd f = Some (jget o f).
Proof.
  intros t f literal o id cmd Hin Hf Hnv Hl Hc.
  unfold Legacy.TOOLS in Hin. cbn [In] in Hin.
  repeat (destruct Hin as [<- | Hin];
          [ cbn in Hl; injection Hl as <-;
            cbn in Hc; injection Hc as <-;
            cbn in Hf;
            repeat (destruct Hf as [<- | Hf];
                    [first [reflexivity | solve [exfalso; apply Hnv; solve_in]]|]);
            destruct Hf
          |]).
  destruct Hin.
Qed.

Lemma legacy_declared_fields_forwarded_witness :
  oget [("id", JStr "id0"); ("action", lit "click");
        ("selector", JStr "@e1"); ("button", JUndefined);
        ("clickCount", JUndefined)] "button"
  = Some JUndefined.
Proof.
  apply (@legacy_declared_fields_forwarded
           (mkTool "browser_click"
                   [mkProp "selector" (Ty "string") [];
                    mkProp "button" (Ty "string") ["left"; "right"; "middle"];
                    mkProp "clickCount" (Ty "number") []]
                   ["selector"])
           "button"
           (fun args id =>
              with_args args "selector"
                (fun a => [("id", JStr id); ("action", lit "click");
                           ("selector", a "selector"); ("button", a "button");
                           ("clickCount", a "clickCount")]))
           [("selector", JStr "@e1")] "id0").
  - unfold Legacy.TOOLS. solve_in.
  - cbn. solve_in.
  - intros H. cbn in H.
    repeat (destruct H as [H | H]; [discriminate|]). destruct H.
  - reflexivity.
  - reflexivity.
Defined.

(** X18.  A legacy command carries nothing but the derived keys and
    declared fields of its tool: whatever else the caller puts into the
    arguments is dropped. *)
Theorem legacy_undeclared_arguments_dropped :
  forall t k literal (args : JVal) (id : string) (cmd : Obj),
    In t Legacy.TOOLS ->
    ~ In k (declared_fields t) ->
    ~ In k legacy_derived_keys ->
    Legacy.lookup_case (t_name t) Legacy.command_cases = Some literal ->
    literal args id = Ok cmd ->
    oget cmd k = None.
Proof.
  intros t k literal args id cmd Hin Hd Hr Hl Hc.
  apply oget_None_not_In. intros Hk.
  unfold Legacy.TOOLS in Hin. cbn [In] in Hin.
  repeat (destruct Hin as [<- | Hin];
          [ cbn in Hl; injection Hl as <-;
            unfold with_args in Hc;
            try (destruct (is_nullish args); [discriminate|]);
            injection Hc as <-;
            cbn in Hk;
            repeat (destruct Hk as [<- | Hk];
                    [first [solve [apply Hr; solve_in] | solve [apply Hd; solve_in]]|]);
            destruct Hk
          |]).
  destruct Hin.
Qed.

Lemma legacy_undeclared_arguments_dropped_witness :
  oget [("id", JStr "id0"); ("action", lit "back")] "headless" = None.
Proof.
  apply (@legacy_undeclared_arguments_dropped
           (mkTool "browser_back" [] []) "headless"
           (fun _ id => Ok [("id", JStr id); ("action", lit "back")])
           (JObj [("headless", JBool false)]) "id0").
  - unfold Legacy.TOOLS. solve_in.
  - intros H. destruct H.
  - intros H. cbn in H.
    repeat (destruct H as [H | H]; [discriminate|]). destruct H.
  - reflexivity.
  - reflexivity.
Defined.

(** None of the listed fields is forwarded under its own name with the
    caller's value: each has arguments on which it is not. *)
Lemma legacy_not_verbatim_is_tight :
  forall name f,
    In (name, f) legacy_not_verbatim ->
    exists literal (o cmd : Obj),
      Legacy.lookup_case name Legacy.command_cases = Some literal
      /\ literal (JObj o) "id0" = Ok cmd
      /\ oget cmd f <> Some (jget o f).
Proof.
  intros name f H. cbn in H.
  repeat (destruct H as [H | H];
          [injection H as <- <-;
           match goal with
           | |- exists _ _ c, _ /\ _ /\ oget c ?f <> _ =>
               eexists; exists [(f, JStr "null")]; eexists;
               split; [reflexivity|split; [reflexivity|discriminate]]
           end|]).
  destruct H.
Qed.

(** X19.  The legacy [browser_emulate_media] never hands the string [null]
    to the driver: a media feature given as ['null'] becomes the literal
    [null], and any other value is forwarded as it is. *)
Theorem legacy_media_null_clears :
  forall literal (o : Obj) (id : string) (cmd : Obj) (f : string),
    Legacy.lookup_case "browser_emulate_media" Legacy.command_cases
    = Some literal ->
    In f media_fields ->
    literal (JObj o) id = Ok cmd ->
    jget cmd f <> JStr "null"
    /\ (jget o f = JStr "null" -> jget cmd f = JNull)
    /\ (jget o f <> JStr "null" -> jget cmd f = jget o f).
Proof.
  intros literal o id cmd f Hl Hf Hc.
  cbn in Hl. injection Hl as <-. cbn in Hc. injection Hc as <-.
  assert (Hn : forall v, Legacy.null_if_literal v <> JStr "null"
                         /\ (v = JStr "null" -> Legacy.null_if_literal v = JNull)
                         /\ (v <> JStr "null" -> Legacy.null_if_literal v = v)).
  { intros v. unfold Legacy.null_if_literal.
    destruct (is_str v "null") eqn:E.
    - rewrite (is_str_true _ _ E) in *.
      repeat split; [discriminate | contradiction].
    - repeat split; try reflexivity; intros ->; discriminate. }
  cbn in Hf. destruct Hf as [<- | [<- | [<- | []]]]; apply Hn.
Qed.

Lemma legacy_media_null_clears_witness :
  jget [("id", JStr "id0"); ("action", lit "emulatemedia");
        ("media", JUndefined); ("colorScheme", JNull);
        ("reducedMotion", JStr "reduce")] "colorScheme"
  = JNull.
Proof.
  apply (@legacy_media_null_clears
           (fun args id =>
              with_args args "media"
                (fun a => [("id", JStr id); ("action", lit "emulatemedia");
                           ("media", Legacy.null_if_literal (a "media"));
                           ("colorScheme",
                            Legacy.null_if_literal (a "colorScheme"));
                           ("reducedMotion",
                            Legacy.null_if_literal (a "reducedMotion"))]))
           [("colorScheme", JStr "null"); ("reducedMotion", JStr "reduce")]
           "id0" _ "colorScheme");
    try reflexivity.
  cbn. solve_in.
Defined.

(** ** The legacy session *)

Section LegacySession.

Variable D : Type.
Variable ext : Externals D.

Lemma legacy_getBrowser_some (b : Manager) (w : World D) :
  manager w = Some b -> Legacy.getBrowser w = (Ok b, w).
Proof. intros H. unfold Legacy.getBrowser, bind, read. now rewrite H. Qed.

Lemma legacy_getBrowser_none (w : World D) :
  manager w = None ->
  Legacy.getBrowser w
  = (Ok (mkManager (next_id w) BrowserManager),
     mkWorld (Some (mkManager (next_id w) BrowserManager))
             (S (next_id w)) (random_calls w)
             (AGENT_BROWSER_PROVIDER w) (AGENT_BROWSER_EXECUTABLE_PATH w)
             (driver w)
             (log w ++ [EvNew (mkManager (next_id w) BrowserManager)])).
Proof.
  intros H. unfold Legacy.getBrowser, bind, read. rewrite H. reflexivity.
Qed.

Lemma has_browser_call {A} (b : Manager) (g : D -> Result A * D) :
  preserves (D:=D) (has_browser b) (call g).
Proof. intros w H. unfold call. now destruct (g (driver w)). Qed.

Lemma has_browser_launch (b m : Manager) (opts : JVal) :
  preserves (D:=D) (has_browser b) (launch ext m opts).
Proof.
  unfold launch. apply preserves_bind; [intros w H; exact H|].
  intros _. apply has_browser_call.
Qed.

Lemma has_browser_ensureBrowserLaunched (b : Manager) (headless : bool) :
  preserves (D:=D) (has_browser b) (Legacy.ensureBrowserLaunched ext headless).
Proof.
  intros w H. unfold Legacy.ensureBrowserLaunched. unfold bind at 1.
  rewrite (legacy_getBrowser_some w H). revert w H.
  apply preserves_bind; [apply has_browser_call|]. intros launched.
  apply preserves_if; [|apply preserves_ret].
  apply preserves_bind; [apply preserves_read|]. intros opts.
  apply has_browser_launch.
Qed.

Lemma has_browser_execute (b : Manager) (cmd : Obj) :
  preserves (D:=D) (has_browser b)
    (try_catch
       (bind (Legacy.execute_driver ext cmd b)
             (fun response => lift (normalize ext cmd response)))
       (@execute_catch D)).
Proof.
  apply preserves_try_catch; [|intros e; apply preserves_lift].
  apply preserves_bind; [|intros r; apply preserves_lift].
  unfold Legacy.execute_driver.
  apply preserves_bind; [apply has_browser_call|]. intros launched.
  apply preserves_bind.
  { apply preserves_if; [|apply preserves_ret].
    apply has_browser_ensureBrowserLaunched. }
  intros _. apply preserves_bind; [intros w H; exact H|]. intros _.
  apply has_browser_call.
Qed.

Lemma legacy_getBrowser_total (w : World D) :
  exists b w', Legacy.getBrowser w = (Ok b, w').
Proof.
  destruct (manager w) as [b|] eqn:Hm.
  - exists b, w. now apply legacy_getBrowser_some.
  - eexists; eexists. apply legacy_getBrowser_none. exact Hm.
Qed.

Lemma reportable_legacy_ensureBrowserLaunched (headless : bool) :
  throws_reportable ext ->
  throws_only (fun e => reportable e = true)
              (Legacy.ensureBrowserLaunched ext headless).
Proof.
  intros Hdrv. unfold Legacy.ensureBrowserLaunched.
  apply throws_only_bind.
  { intros w e w' H.
    destruct (legacy_getBrowser_total w) as (b & w1 & Hg). congruence. }
  intros b.
  apply throws_only_bind; [now apply reportable_isLaunched|].
  intros launched. apply throws_only_if; [|apply throws_only_ret].
  apply throws_only_bind; [apply throws_only_read|]. intros o.
  now apply reportable_launch.
Qed.

Lemma reportable_legacy_execute_driver (cmd : Obj) (b : Manager) :
  throws_reportable ext ->
  throws_only (fun e => reportable e = true)
              (Legacy.execute_driver ext cmd b).
Proof.
  intros Hdrv. unfold Legacy.execute_driver.
  apply throws_only_bind; [now apply reportable_isLaunched|].
  intros launched. apply throws_only_bind.
  { apply throws_only_if;
      [now apply reportable_legacy_ensureBrowserLaunched
      |apply throws_only_ret]. }
  intros _. apply throws_only_bind; [apply throws_only_emit|]. intros _.
  apply throws_only_call. intros d e d' H.
  destruct Hdrv as (_ & _ & H3 & _). eapply H3, H.
Qed.

(** On a driver that throws what [String] converts, the legacy
    [execute] always returns. *)
Lemma legacy_execute_returns (cmd : Obj) (w : World D) :
  throws_reportable ext ->
  exists r w', Legacy.execute ext cmd w = (Ok r, w').
Proof.
  intros Hdrv.
  destruct (legacy_getBrowser_total w) as (b & w1 & Hg).
  unfold Legacy.execute, bind, try_catch, execute_catch, lift. rewrite Hg.
  destruct (Legacy.execute_driver ext cmd b w1) as [[resp|e] w2] eqn:Hd.
  - destruct (normalize ext cmd resp) as [r|e] eqn:Hn; [eauto|].
    destruct (normalize_throws_error _ _ _ Hn) as (msg & ->). cbn. eauto.
  - apply (reportable_legacy_execute_driver _ _ Hdrv) in Hd.
    destruct (reportable_message _ Hd) as (msg & ->). cbn. eauto.
Qed.

(** On a world without instance, [execute] constructs one and runs
    on it. *)
Lemma legacy_execute_fresh (cmd : Obj) (w : World D) :
  manager w = None ->
  manager (snd (Legacy.execute ext cmd w))
  = Some (mkManager (next_id w) BrowserManager).
Proof.
  intros Hm. unfold Legacy.execute. unfold bind at 1.
  rewrite (legacy_getBrowser_none w Hm).
  apply has_browser_execute. reflexivity.
Qed.

End LegacySession.

(** X20.  On a driver that throws nothing but [Error]s and values that
    [String] converts, the legacy [browser_close] forgets the instance
    it closed: whatever else the driver does, the call returns with
    [browser] reset to [null], and the next [execute] constructs a new
    instance and leaves it as the [browser], never the closed one. *)
Theorem legacy_close_forgets_instance :
  forall D (ext : Externals D) (args : JVal) (w : World D),
    throws_reportable ext ->
    exists r w',
      Legacy.handleToolCall ext "browser_close" args w = (Ok r, w')
      /\ manager w' = None
      /\ forall cmd,
          manager (snd (Legacy.execute ext cmd w'))
          = Some (mkManager (next_id w') BrowserManager).
Proof.
  intros D ext args w Hdrv.
  unfold Legacy.handleToolCall. cbn [Legacy.lookup_case Legacy.command_cases].
  cbn -[Legacy.execute].
  unfold bind at 1.
  match goal with
  | |- context [Legacy.execute ext ?c ?w0] =>
      destruct (legacy_execute_returns c w0 Hdrv) as (r & w1 & ->)
  end.
  unfold bind, set_manager, ret. eexists; eexists.
  split; [reflexivity|]. split; [reflexivity|].
  intros cmd. now apply legacy_execute_fresh.
Qed.

Lemma legacy_close_forgets_instance_witness :
  exists r w',
    Legacy.handleToolCall broken_driver "browser_close" JUndefined
      (initial_world None None tt) = (Ok r, w')
    /\ manager w' = None.
Proof.
  destruct (@legacy_close_forgets_instance _ broken_driver JUndefined
              (initial_world None None tt) broken_driver_throws_reportable)
    as (r & w' & H & Hm & _).
  exists r, w'. now split.
Defined.

(** When the driver throws a value [String] cannot convert while the
    [close] command runs, the [catch] block of [execute] throws, and
    the reset of [browser] is not reached. *)
Example legacy_close_keeps_instance_when_the_catch_throws :
  let rude : Externals unit :=
    {| drv_isLaunched := fun _ d => (Ok true, d);
       drv_launch := fun _ _ d => (Ok tt, d);
       drv_close := fun _ d => (Ok tt, d);
       executeCommand :=
         fun _ _ d => (Throw (Thrown (JObj [("toString", JNum 1)])), d);
       executeIOSCommand :=
         fun _ _ d => (Throw (Thrown (JObj [("toString", JNum 1)])), d);
       JSON_stringify := fun v => JStr (to_js_string v);
       random_id := fun n => "id" ++ string_of_nat n |} in
  let after :=
    Legacy.handleToolCall rude "browser_close" (JObj [])
      (initial_world None None tt) in
  fst after = Throw (ErrorObj "Cannot convert object to primitive value")
  /\ manager (snd after) = Some (mkManager 0 BrowserManager).
Proof. split; reflexivity. Qed.

(** ** The launches of the legacy server *)

Section LegacyLaunches.

Variable D : Type.
Variable ext : Externals D.
Variable headed : bool.

Lemma legacy_launch_env : env_only (@legacy_launch D headed).
Proof.
  intros w w' e [H1 H2] (b & h & -> & Hh). exists b, h.
  now rewrite H2.
Qed.

Lemma within_legacy_getBrowser :
  launches_within (@legacy_launch D headed) 0 (@Legacy.getBrowser D).
Proof.
  apply within_silent.
  - intros w. destruct (manager w) as [b|] eqn:Hm.
    + rewrite (legacy_getBrowser_some w Hm). apply same_env_refl.
    + rewrite (legacy_getBrowser_none w Hm). now split.
  - unfold Legacy.getBrowser.
    apply keeps_bind; [apply keeps_read|]. intros [b|].
    + apply keeps_ret.
    + apply keeps_bind; [apply launches_construct|]. intros m.
      apply keeps_bind; [apply launches_set_manager|]. intros _.
      apply keeps_ret.
Qed.

Lemma within_legacy_ensureBrowserLaunched (headless : bool) :
  (headless = false -> headed = true) ->
  launches_within (@legacy_launch D headed) 1
    (Legacy.ensureBrowserLaunched ext headless).
Proof.
  intros Hh. unfold Legacy.ensureBrowserLaunched.
  apply (within_bind legacy_launch_env (n1 := 0) (n2 := 1));
    [apply within_legacy_getBrowser|].
  intros b.
  apply (within_bind legacy_launch_env (n1 := 0) (n2 := 1));
    [apply within_call|].
  intros launched. apply within_if;
    [|apply within_weaken with (n := 0); [lia|apply within_ret]].
  apply within_launch. intros w. now exists b, headless.
Qed.

Lemma within_legacy_execute (cmd : Obj) :
  launches_within (@legacy_launch D headed) 1 (Legacy.execute ext cmd).
Proof.
  unfold Legacy.execute.
  apply (within_bind legacy_launch_env (n1 := 0) (n2 := 1));
    [apply within_legacy_getBrowser|].
  intros b.
  apply (within_try_catch legacy_launch_env (n1 := 1) (n2 := 0));
    [|intros e; apply within_lift].
  apply (within_bind legacy_launch_env (n1 := 1) (n2 := 0));
    [|intros r; apply within_lift].
  unfold Legacy.execute_driver.
  apply (within_bind legacy_launch_env (n1 := 0) (n2 := 1));
    [apply within_call|].
  intros launched.
  apply (within_bind legacy_launch_env (n1 := 1) (n2 := 0)).
  { apply within_if;
      [apply within_legacy_ensureBrowserLaunched; discriminate|].
    apply within_weaken with (n := 0); [lia|apply within_ret]. }
  intros _.
  apply (within_bind legacy_launch_env (n1 := 0) (n2 := 0));
    [now apply within_emit|].
  intros _. apply within_call.
Qed.

(** What follows the launch of [browser_navigate] in every case. *)
Lemma within_legacy_case (name : string) (args : JVal)
      (literal : JVal -> string -> Result Obj) :
  launches_within (@legacy_launch D headed) 1
    (bind (generateId ext)
          (fun id =>
             bind (lift (literal args id))
                  (fun command =>
                     bind (Legacy.execute ext command)
                          (fun result =>
                             bind (if String.eqb name "browser_close"
                                   then set_manager None else ret tt)
                                  (fun _ => ret result))))).
Proof.
  apply (within_bind legacy_launch_env (n1 := 0) (n2 := 1));
    [apply within_generateId|].
  intros id.
  apply (within_bind legacy_launch_env (n1 := 0) (n2 := 1));
    [apply within_lift|].
  intros command.
  apply (within_bind legacy_launch_env (n1 := 1) (n2 := 0));
    [apply within_legacy_execute|].
  intros result.
  apply (within_bind legacy_launch_env (n1 := 0) (n2 := 0));
    [|intros _; apply within_ret].
  apply within_if; [apply within_set_manager|apply within_ret].
Qed.

End LegacyLaunches.

Lemma snd_legacy_callToolHandler {D} (ext : Externals D) (name : string)
      (args : JVal) (w : World D) :
  snd (Legacy.callToolHandler ext name args w)
  = snd (Legacy.handleToolCall ext name args w).
Proof.
  unfold Legacy.callToolHandler, try_catch.
  now destruct (Legacy.handleToolCall ext name args w) as [[r|e] w'].
Qed.

(** X21.  One call of a legacy tool launches the browser at most once, and
    [browser_navigate] at most twice.  Every launch is the [mcp-launch]
    command with the executable path of the environment, and it is
    headless unless the call is a [browser_navigate] whose [headless]
    argument is [false]: no other tool and no other argument can make the
    legacy server open a headed browser. *)
Theorem legacy_only_navigate_launches_headed :
  forall D (ext : Externals D) (name : string) (args : JVal) (w : World D),
    exists l,
      launches (snd (Legacy.callToolHandler ext name args w))
      = (launches w ++ l)%list
      /\ length l <= (if String.eqb name "browser_navigate" then 2 else 1)
      /\ Forall (legacy_launch (navigates_headed name args) w) l.
Proof.
  intros D ext name args w. rewrite snd_legacy_callToolHandler.
  set (headed := navigates_headed name args).
  enough (H : launches_within (@legacy_launch D headed)
                (if String.eqb name "browser_navigate" then 2 else 1)
                (Legacy.handleToolCall ext name args))
    by (destruct (H w) as [_ Hl]; exact Hl).
  unfold Legacy.handleToolCall.
  destruct (Legacy.lookup_case name Legacy.command_cases) as [literal|];
    [|apply within_weaken with (n := 0);
      [destruct (String.eqb name "browser_navigate"); lia|apply within_ret]].
  destruct (String.eqb name "browser_navigate") eqn:Hn.
  - apply (within_bind (@legacy_launch_env D headed) (n1 := 1) (n2 := 1));
      [|intros _; apply within_legacy_case].
    destruct (jprop args "headless") as [v|e] eqn:Hv.
    + intros w0. unfold bind at 1. unfold lift.
      apply within_legacy_ensureBrowserLaunched.
      intros Hf. unfold headed, navigates_headed. rewrite Hn, Hv.
      destruct v as [| |[|]| | | |]; try discriminate. reflexivity.
    + apply within_weaken with (n := 0); [lia|].
      apply within_silent; [intros w0; apply same_env_refl|].
      intros w0. reflexivity.
  - apply (within_bind (@legacy_launch_env D headed) (n1 := 0) (n2 := 1));
      [apply within_ret|intros _; apply within_legacy_case].
Qed.

(** A headless launch in an environment that sets the executable
    path; the arguments of the call do not reach it. *)
Example legacy_launch_reads_the_environment :
  launches (snd (Legacy.callToolHandler ref_driver "browser_click"
                   (JObj [("selector", JStr "@e1");
                          ("headless", JBool false);
                          ("executablePath", JStr "/opt/other")])
                   (initial_world (Some "ios") (Some "/usr/bin/chromium")
                                  [])))
  = [EvLaunch (mkManager 0 BrowserManager)
              (JObj [("id", JStr "mcp-launch"); ("action", JStr "launch");
                     ("headless", JBool true);
                     ("executablePath", JStr "/usr/bin/chromium")])].
Proof. reflexivity. Qed.

(** A headed launch does happen on such a call. *)
Example legacy_navigate_headed :
  launches (snd (Legacy.callToolHandler ref_driver "browser_navigate"
                   (JObj [("url", JStr "https://example.com");
                          ("headless", JBool false)])
                   (initial_world None None [])))
  = [EvLaunch (mkManager 0 BrowserManager)
              (JObj [("id", JStr "mcp-launch"); ("action", JStr "launch");
                     ("headless", JBool false);
                     ("executablePath", JUndefined)])].
Proof. reflexivity. Qed.
